(** * vfs: a virtual file store (sas1024/vfs, vfs.go)

    A shallow embedding of the upload pipeline of [vfs.go]: the sharded
    address codec ([FileHash.Dir], [FileHash.File]), the namespace check
    ([IsValidNamespace]), the two uploaders ([Upload], [HashUpload]), [Move],
    the core of the request handlers ([uploadFile]) and the creation of the
    record of a foldered upload ([createFile]).

    Go strings are byte strings and are modelled by [string] (a list of
    8-bit [ascii]).  Go's [int] and [int64] are modelled by [Z]; the code
    only compares and prints them.  A run-time panic (an index out of
    range, a nil reader) is a result of its own, and deferred functions run
    on it as they do in Go.  The operating system, the clock, the random
    source, the image and MIME decoders, the digest and the metadata
    repository are collaborators of the code: they are modelled by an
    explicit world (the files on disk, the records kept, and a log of the
    calls made) and by an environment that decides which call fails and
    what the collaborators answer.  The theorems hold for every
    environment. *)

From Stdlib Require Import ZArith NArith Ascii.
From Stdlib Require String.
From stdpp Require Import base option list gmap strings pretty.

Local Open Scope Z_scope.

(** ** Byte strings as Go has them *)

Module GoString.

(** [len(s)] *)
Definition len (s : string) : nat := String.length s.

(** [s[i]]: [None] stands for the run-time panic "index out of range". *)
Definition index (s : string) (i : nat) : option ascii := String.get i s.

(** [s[lo:hi]]: panics unless [lo <= hi <= len(s)]. *)
Definition slice (s : string) (lo hi : nat) : option string :=
  if (lo <=? hi)%nat && (hi <=? len s)%nat
  then Some (String.substring lo (hi - lo) s)
  else None.

(** [string(b)] for a byte [b]: a conversion from an integer type, which
    yields the UTF-8 encoding of the code point [b] (two bytes from 0x80
    on). *)
Definition of_byte (b : ascii) : string :=
  let n := N_of_ascii b in
  if (n <? 128)%N then String b ""
  else String (ascii_of_N (192 + n / 64)) (String (ascii_of_N (128 + n mod 64)) "").

(** [strings.Join(l, sep)] *)
Fixpoint join (sep : string) (l : list string) : string :=
  match l with
  | [] => ""
  | [x] => x
  | x :: rest => x +:+ sep +:+ join sep rest
  end.

(** [strings.HasPrefix], [strings.HasSuffix] *)
Definition has_prefix (s p : string) : bool := String.prefix p s.

Definition has_suffix (s p : string) : bool :=
  (len p <=? len s)%nat &&
  String.eqb (String.substring (len s - len p) (len p) s) p.

(** [strings.TrimPrefix], [strings.TrimSuffix] *)
Definition trim_prefix (s p : string) : string :=
  if has_prefix s p then String.substring (len p) (len s - len p) s else s.

Definition trim_suffix (s p : string) : string :=
  if has_suffix s p then String.substring 0 (len s - len p) s else s.

End GoString.

(** ** [path/filepath] on a Unix system (the separator is the slash) *)

Module Filepath.

Definition is_sep (c : ascii) : bool := Ascii.eqb c "/".

(** The components of a path: the pieces between slashes, empty ones
    included. *)
Fixpoint split (p : string) : list string :=
  match p with
  | EmptyString => [""]
  | String c r =>
      if is_sep c then "" :: split r
      else match split r with
           | x :: xs => String c x :: xs
           | [] => [String c ""]
           end
  end.

(** One round of the loop of [Clean], on the component [c]; [out] holds
    the components written so far, the last one first.  A double-dot
    removes the last component unless there is none above the leading
    double-dots; then it is kept, but only in a path that is not rooted. *)
Definition clean_step (rooted : bool) (out : list string) (c : string) : list string :=
  if String.eqb c "" then out
  else if String.eqb c "." then out
  else if String.eqb c ".." then
    match out with
    | top :: rest =>
        if String.eqb top ".." then (if rooted then out else c :: out) else rest
    | [] => if rooted then out else [c]
    end
  else c :: out.

(** [filepath.Clean] *)
Definition Clean (p : string) : string :=
  match p with
  | EmptyString => "."
  | String c _ =>
      let rooted := is_sep c in
      let out := fold_left (clean_step rooted) (split p) [] in
      let body := GoString.join "/" (rev out) in
      if rooted then "/" +:+ body
      else if String.eqb body "" then "." else body
  end.

Fixpoint drop_empty (l : list string) : list string :=
  match l with
  | [] => []
  | x :: rest => if String.eqb x "" then drop_empty rest else l
  end.

(** [filepath.Join]: the elements from the first non-empty one on are
    joined by slashes and cleaned; without one the result is empty. *)
Definition Join (elem : list string) : string :=
  match drop_empty elem with
  | [] => ""
  | l => Clean (GoString.join "/" l)
  end.

(** [filepath.Dir]: everything before the last slash, cleaned. *)
Fixpoint dir_part (p : string) : string :=
  match p with
  | EmptyString => ""
  | String c r =>
      if existsb is_sep (String.list_ascii_of_string r) then String c (dir_part r)
      else if is_sep c then String c "" else ""
  end.

Definition Dir (p : string) : string := Clean (dir_part p).

(** [filepath.Ext]: the suffix from the last dot of the last component on. *)
Fixpoint Ext (p : string) : string :=
  match p with
  | EmptyString => ""
  | String c r =>
      if existsb (fun d => is_sep d || Ascii.eqb d ".") (String.list_ascii_of_string r)
      then Ext r
      else if Ascii.eqb c "." then p else ""
  end.

End Filepath.

(** ** The address codec *)

Definition DefaultHashExtension : string := "jpg".
Definition NamespacePublic : string := "".

(** [type FileHash string] *)
Definition FileHash := string.

(** [func (h FileHash) Dir() string]: [None] is the run-time panic of an
    index or slice out of range. *)
Definition Dir (h : FileHash) : option string :=
  b ← GoString.index h 0;
  s ← GoString.slice h 1 3;
  Some (GoString.of_byte b +:+ "/" +:+ s).

(** [func (h FileHash) File() string] *)
Definition File (h : FileHash) : option string :=
  d ← Dir h;
  Some (Filepath.Join [d; h] +:+ "." +:+ DefaultHashExtension).

(** ** Configuration and data of the package *)

Module Config.
(** [type Config struct]; the [Database] options are not used by this
    file and are left out. *)
Record t := {
  MaxFileSize : Z;
  Path : string;
  WebPath : string;
  Namespaces : list string;
  UploadFormName : string;
  SaltedFilenames : bool
}.
End Config.

(** A Go [error], by its message ([err.Error()]); the [nil] error is the
    [None] of [option error]. *)
Definition error := string.

Definition ErrInvalidNamespace : error := "invalid namespace".

(** An [io.Reader], by what reading it to the end delivers: the bytes read
    and the error that ended the reading, if it was not the end of the
    input. *)
Record reader := { rd_data : string; rd_err : option error }.

(** Package [vfs/db]: the records handed to the repository, and the
    repository as the code uses it.  An answer of the repository is an
    error or a value. *)
Module db.
Module VfsFolder.
Record t := { ID : Z }.
End VfsFolder.
Module VfsFileParams.
Record t := { Height : Z; Width : Z }.
End VfsFileParams.
Module VfsFile.
Record t := {
  ID : Z;
  FolderID : Z;
  Title : string;
  Path : string;
  Params : option VfsFileParams.t;
  MimeType : string;
  FileSize : option Z;
  FileExists : bool;
  StatusID : Z;
  CreatedAt : Z
}.
End VfsFile.

(** [db.VfsRepo]: the three operations the handlers call. *)
Record VfsRepo := {
  VfsFolderByID : Z → error + option VfsFolder.t;
  NextFileID : error + Z;
  AddVfsFile : VfsFile.t → error + VfsFile.t
}.
End db.

(** ** The world outside the package *)

(** The calls the code makes to the operating system and to the
    repository; the log of a run lists them in the order they were made. *)
Inductive call :=
| CTempFile (dir pattern : string)
| CSync (name : string)
| CCopy (name : string) (data : string)
| CMkdirAll (dir : string)
| CRename (src dst : string)
| CClose (name : string)
| CRemove (name : string)
| CCreate (name : string)
| COpen (name : string)
| CStat (name : string)
| CSeek (name : string)
| CNextFileID
| CAddVfsFile (f : db.VfsFile.t).

(** The files on disk by their full name, the records the repository holds,
    the calls made so far (the latest first) and the number of draws taken
    from the random source. *)
Record world := {
  files : gmap string string;
  records : list db.VfsFile.t;
  log : list call;
  draws : nat
}.

(** What the code cannot decide: which calls fail, the name the temp-file
    primitive picks, the random source, the clock, what the decoders find
    in a file, the digest function and the constant [db.StatusEnabled]. *)
Record env := {
  fault : call → option error;
  temp_name : string → string → string;
  rand_source : nat → nat;
  year_month : string;
  created_at : Z;
  image_config : string → error + (Z * Z);
  mime_detect : string → error + string;
  md5_sum : string → string;
  md5_size : ∀ b, String.length (md5_sum b) = 16%nat;
  StatusEnabled : Z
}.

(** A computation either returns or panics; either way it leaves a world. *)
Inductive res (A : Type) :=
| Val (a : A)
| Panic (msg : string).
Arguments Val {A} a.
Arguments Panic {A} msg.

Definition M (A : Type) : Type := world → res A * world.

Global Instance M_ret : MRet M := λ A a w, (Val a, w).
Global Instance M_bind : MBind M := λ A B f m w,
  match m w with
  | (Val a, w') => f a w'
  | (Panic msg, w') => (Panic msg, w')
  end.

Definition panic {A} (msg : string) : M A := λ w, (Panic msg, w).

(** An index or a slice out of range. *)
Definition checked {A} (o : option A) : M A :=
  match o with
  | Some a => mret a
  | None => panic "runtime error: index out of range"
  end.

(** [defer]: the deferred function runs when the body returns, on what it
    returns, and also when the body panics, on the named results as they
    were then; the panic goes on afterwards. *)
Definition defer {A} (body : M A) (deferred : A → M A) (at_panic : A) : M A := λ w,
  match body w with
  | (Val a, w') => deferred a w'
  | (Panic msg, w') => (Panic msg, snd (deferred at_panic w'))
  end.

Definition logged (c : call) (w : world) : world :=
  {| files := files w; records := records w; log := c :: log w; draws := draws w |}.

Definition with_files (fs : gmap string string) (w : world) : world :=
  {| files := fs; records := records w; log := log w; draws := draws w |}.

Definition with_record (f : db.VfsFile.t) (w : world) : world :=
  {| files := files w; records := f :: records w; log := log w; draws := draws w |}.

Definition ENOENT : error := "no such file or directory".

Section Calls.
Variable E : env.

(** A call to the operating system: it is logged; it fails when the
    environment says so, or when the files on disk do not allow it;
    otherwise it has its effect on the files. *)
Definition os_call {A} (c : call) (dflt : A)
    (effect : gmap string string → error + (A * gmap string string)) :
    M (A * option error) := λ w,
  let w' := logged c w in
  match fault E c with
  | Some e => (Val (dflt, Some e), w')
  | None =>
      match effect (files w) with
      | inl e => (Val (dflt, Some e), w')
      | inr (a, fs) => (Val (a, None), with_files fs w')
      end
  end.

Definition os_call_ (c : call)
    (effect : gmap string string → error + gmap string string) : M (option error) :=
  r ← os_call c tt (λ fs, match effect fs with inl e => inl e | inr fs' => inr (tt, fs') end);
  mret (snd r).

(** [ioutil.TempFile(dir, pattern)]: a new empty file under a name of the
    platform's choice, which [temp_name] stands for; the result is
    [tf.Name()].  The file is created exclusively: a name that is taken
    is an error. *)
Definition ioutil_TempFile (dir pattern : string) : M (string * option error) :=
  let name := temp_name E dir pattern in
  os_call (CTempFile dir pattern) ""
    (λ fs, match fs !! name with
           | Some _ => inl "file exists"
           | None => inr (name, <[name := ""]> fs)
           end).

(** [f.Sync()], [f.Close()], [os.MkdirAll(dir, perm)] *)
Definition File_Sync (name : string) : M (option error) :=
  os_call_ (CSync name) inr.
Definition File_Close (name : string) : M (option error) :=
  os_call_ (CClose name) inr.
Definition os_MkdirAll (dir : string) : M (option error) :=
  os_call_ (CMkdirAll dir) inr.

(** [os.Create(name)]: the file is created, or truncated. *)
Definition os_Create (name : string) : M (option error) :=
  os_call_ (CCreate name) (λ fs, inr (<[name := ""]> fs)).

(** [os.Rename(src, dst)] *)
Definition os_Rename (src dst : string) : M (option error) :=
  os_call_ (CRename src dst)
    (λ fs, match fs !! src with
           | Some c => inr (<[dst := c]> (delete src fs))
           | None => inl ENOENT
           end).

(** [os.Remove(name)] *)
Definition os_Remove (name : string) : M (option error) :=
  os_call_ (CRemove name)
    (λ fs, match fs !! name with
           | Some _ => inr (delete name fs)
           | None => inl ENOENT
           end).

(** [io.Copy(f, r)] into the open file [name]: what the reader delivers
    is appended to the file; the error is that of the write, or else the
    one that ended the reading.  A nil reader panics. *)
Definition io_Copy (name : string) (r : option reader) : M (option error) :=
  match r with
  | None => panic "runtime error: invalid memory address or nil pointer dereference"
  | Some rd =>
      werr ← os_call_ (CCopy name (rd_data rd))
               (λ fs, inr (<[name := default "" (fs !! name) +:+ rd_data rd]> fs));
      match werr with
      | Some e => mret (Some e)
      | None => mret (rd_err rd)
      end
  end.

End Calls.

(** [encoding/hex]: two lower-case digits for a byte. *)
Module hex.
Definition hextable : string := "0123456789abcdef".

Definition digit (n : N) : ascii :=
  default "0"%char (String.get (N.to_nat n) hextable).

Fixpoint EncodeToString (src : string) : string :=
  match src with
  | EmptyString => ""
  | String b r =>
      String (digit (N_of_ascii b / 16))
        (String (digit (N_of_ascii b mod 16)) (EncodeToString r))
  end.
End hex.

(** ** The store: [type VFS struct { cfg Config }] *)

Section VFS.
Variable E : env.
Variable cfg : Config.t.

(** [func (v VFS) IsValidNamespace(ns string) bool] *)
Fixpoint in_namespaces (l : list string) (ns : string) : bool :=
  match l with
  | [] => false
  | n :: rest => if String.eqb n ns then true else in_namespaces rest ns
  end.

Definition IsValidNamespace (ns : string) : bool :=
  if String.eqb ns NamespacePublic then true
  else in_namespaces (Config.Namespaces cfg) ns.

(** [func (v VFS) Path(ns, path string) string] *)
Definition Path (ns path : string) : string :=
  Filepath.Join [Config.Path cfg; ns; path].

(** [func (v VFS) FullDir(ns string, h FileHash) string] *)
Definition FullDir (ns : string) (h : FileHash) : option string :=
  d ← Dir h; Some (Path ns d).

(** [func (v VFS) FullFile(ns string, h FileHash) string] *)
Definition FullFile (ns : string) (h : FileHash) : option string :=
  f ← File h; Some (Path ns f).

(** [func (v VFS) WebHashPath(ns string, h FileHash) string]; [path.Join]
    is [filepath.Join] with the slash as the separator. *)
Definition WebHashPath (ns : string) (h : FileHash) : option string :=
  f ← File h; Some (Filepath.Join [Config.WebPath cfg; ns; f]).

(** [func (v VFS) WebPath(ns string) string] *)
Definition WebPath (ns : string) : string :=
  Filepath.Join [Config.WebPath cfg; ns].

(** [func (v VFS) Upload(r io.Reader, relFilename, ns string) error];
    the deferred [f.Close()] runs last and its result is dropped. *)
Definition Upload (r : option reader) (relFilename ns : string) : M (option error) :=
  let name := Filepath.Join [Config.Path cfg; ns; relFilename] in
  let fileDir := Filepath.Dir name in
  err ← os_MkdirAll E fileDir;
  match err with
  | Some e => mret (Some e)
  | None =>
      err ← os_Create E name;
      match err with
      | Some e => mret (Some e)
      | None =>
          defer
            (err ← io_Copy E name r;
             match err with
             | Some e => mret (Some e)
             | None => File_Sync E name
             end)
            (λ result, _ ← File_Close E name; mret result)
            None
      end
  end.

(** [func (v VFS) Move(ns, currentPath, newPath string) error] *)
Definition Move (ns currentPath newPath : string) : M (option error) :=
  let currentPath := Filepath.Join [Config.Path cfg; ns; currentPath] in
  let newPath := Filepath.Join [Config.Path cfg; ns; newPath] in
  err ← os_MkdirAll E (Filepath.Dir newPath);
  match err with
  | Some e => mret (Some e)
  | None => os_Rename E currentPath newPath
  end.

(** The named results [fh] and [err] of [HashUpload] together with its
    local [deleteTempFile], as the deferred function finds them. *)
Record hash_upload_state := {
  st_fh : FileHash;
  st_err : option error;
  st_deleteTempFile : bool
}.

Definition failed (e : error) : hash_upload_state :=
  {| st_fh := ""; st_err := Some e; st_deleteTempFile := true |}.

(** The deferred function of [HashUpload]: close the temp file, then
    delete it if it is still to be deleted; an error of either is
    stored in [err] only when [err] is nil. *)
Definition HashUpload_deferred (tempFilename : string) (st : hash_upload_state) :
    M hash_upload_state :=
  fErr ← File_Close E tempFilename;
  match st_err st, fErr with
  | None, Some e =>
      mret {| st_fh := st_fh st; st_err := Some e;
              st_deleteTempFile := st_deleteTempFile st |}
  | _, _ =>
      if st_deleteTempFile st then
        fErr ← os_Remove E tempFilename;
        match st_err st, fErr with
        | None, Some e =>
            mret {| st_fh := st_fh st; st_err := Some e;
                    st_deleteTempFile := st_deleteTempFile st |}
        | _, _ => mret st
        end
      else mret st
  end.

(** The statements of [HashUpload] after the [defer]. *)
Definition HashUpload_body (tempFilename : string) (r : option reader) (ns : string) :
    M hash_upload_state :=
  (* sync file with disk *)
  err ← File_Sync E tempFilename;
  match err with
  | Some e => mret (failed e)
  | None =>
      (* calculate hash: io.Copy(io.MultiWriter(hash, tf), r) *)
      err ← io_Copy E tempFilename r;
      match err with
      | Some e => mret (failed e)
      | None =>
          sum ← checked (GoString.slice (md5_sum E (default "" (rd_data <$> r))) 0 16);
          let fh := hex.EncodeToString sum in
          (* create full path *)
          dir ← checked (FullDir ns fh);
          err ← os_MkdirAll E dir;
          match err with
          | Some e => mret (failed e)
          | None =>
              (* move temp file to data *)
              file ← checked (FullFile ns fh);
              err ← os_Rename E tempFilename file;
              match err with
              | Some e => mret (failed e)
              | None =>
                  mret {| st_fh := fh; st_err := None; st_deleteTempFile := false |}
              end
          end
      end
  end.

(** [func (v VFS) HashUpload(r io.Reader, ns string) (fh FileHash, err error)] *)
Definition HashUpload (r : option reader) (ns : string) : M (FileHash * option error) :=
  if negb (IsValidNamespace ns) then mret ("", Some ErrInvalidNamespace)
  else
    tf ← ioutil_TempFile E (Config.Path cfg) "vfs";
    match tf with
    | (_, Some e) => mret ("", Some e)
    | (tempFilename, None) =>
        st ← defer (HashUpload_body tempFilename r ns)
                   (HashUpload_deferred tempFilename)
                   {| st_fh := ""; st_err := None; st_deleteTempFile := true |};
        mret (st_fh st, st_err st)
    end.

End VFS.

(** ** The HTTP side *)

Module http.
Definition MethodPut : string := "PUT".
Definition MethodPost : string := "POST".
Definition StatusOK : Z := 200.
Definition StatusBadRequest : Z := 400.
Definition StatusRequestEntityTooLarge : Z := 413.
Definition StatusInternalServerError : Z := 500.

(** [multipart.FileHeader] *)
Record FileHeader := { Filename : string; Size : Z }.

(** What the code reads of an [http.Request]: the method, the body and
    its declared length, and what parsing the body as a multipart form
    gives. *)
Record Request := {
  Method : string;
  Body : reader;
  ContentLength : Z;
  ParseMultipartForm : Z → option error;
  FormFile : string → error + (reader * FileHeader);
  FormValue : string → string
}.
End http.

Module UploadResponse.
(** [type UploadResponse struct] *)
Record t := {
  Code : Z;
  Error : string;
  Hash : string;
  WebPath : string;
  FileID : Z;
  Extension : string;
  Name : string
}.
End UploadResponse.

(** [%d] of [fmt.Sprintf] *)
Definition fmt_d (n : Z) : string := pretty n.

Section Handlers.
Variable E : env.
Variable cfg : Config.t.

Definition response (code : Z) (err : string) : UploadResponse.t :=
  {| UploadResponse.Code := code; UploadResponse.Error := err;
     UploadResponse.Hash := ""; UploadResponse.WebPath := "";
     UploadResponse.FileID := 0; UploadResponse.Extension := "";
     UploadResponse.Name := "" |}.

(** The second half of [uploadFile], from "validate size" on: [rd] is the
    reader found in the request (nil for a method that is neither PUT nor
    POST), [fileSize] the declared size. *)
Definition uploadFile_store (rd : option reader) (fileSize : Z) (ext name : string)
    (ns vfsFilename : string) : M UploadResponse.t :=
  (* validate size *)
  if Config.MaxFileSize cfg <? fileSize then
    mret (response http.StatusRequestEntityTooLarge
            ("file size exceed " +:+ fmt_d (Config.MaxFileSize cfg) +:+ " bytes"))
  else if negb (String.eqb vfsFilename "") then
    (* start normal upload *)
    err ← Upload E cfg rd vfsFilename ns;
    match err with
    | Some e => mret (response http.StatusBadRequest e)
    | None =>
        mret {| UploadResponse.Code := http.StatusOK; UploadResponse.Error := "";
                UploadResponse.Hash := ""; UploadResponse.WebPath := "";
                UploadResponse.FileID := 0; UploadResponse.Extension := ext;
                UploadResponse.Name := name |}
    end
  else
    (* start hash upload *)
    res ← HashUpload E cfg rd ns;
    match res with
    | (_, Some e) => mret (response http.StatusBadRequest e)
    | (hash, None) =>
        (* write response *)
        web ← checked (WebHashPath cfg ns hash);
        mret {| UploadResponse.Code := http.StatusOK; UploadResponse.Error := "";
                UploadResponse.Hash := hash; UploadResponse.WebPath := web;
                UploadResponse.FileID := 0; UploadResponse.Extension := "";
                UploadResponse.Name := "" |}
    end.

(** The first half of [uploadFile], "detect PUT or POST usage": the
    response that ends the request there, or else the reader, the
    declared size and the extension and base name of the file name.  (The
    deferred closing of the body and of the form file does not touch the
    store and is left out.) *)
Definition request_file (r : http.Request) :
    UploadResponse.t + (option reader * Z * string * string) :=
  if String.eqb (http.Method r) http.MethodPut then
    inr (Some (http.Body r), http.ContentLength r, "", "")
  else if String.eqb (http.Method r) http.MethodPost then
    match http.ParseMultipartForm r (Config.MaxFileSize cfg) with
    | Some e => inl (response http.StatusInternalServerError e)
    | None =>
        match http.FormFile r (Config.UploadFormName cfg) with
        | inl e => inl (response http.StatusBadRequest e)
        | inr (file, handler) =>
            let ext :=
              GoString.trim_prefix (Filepath.Ext (http.Filename handler)) "." in
            let name :=
              GoString.trim_suffix (http.Filename handler)
                (Filepath.Ext (http.Filename handler)) in
            inr (Some file, http.Size handler, ext, name)
        end
    end
  else inr (None, 0, "", "").

(** [func (v VFS) uploadFile(r *http.Request, ns, vfsFilename string) UploadResponse] *)
Definition uploadFile (r : http.Request) (ns vfsFilename : string) : M UploadResponse.t :=
  match request_file r with
  | inl resp => mret resp
  | inr (rd, fileSize, ext, name) =>
      uploadFile_store rd fileSize ext name ns vfsFilename
  end.

(** [func randSeq(n int) string]: [n] letters drawn with [rand.Intn(36)]. *)
Definition letters : string := "abcdefghijklmnopqrstuvwxyz0123456789".

Definition randSeq (n : nat) : M string := λ w,
  let pick i :=
    default "a"%char
      (String.get (rand_source E (draws w + i) mod 36)%nat letters) in
  (Val (String.string_of_list_ascii (pick <$> seq 0 n)),
   {| files := files w; records := records w; log := log w;
      draws := (draws w + n)%nat |}).

(** [os.Open(name)] *)
Definition os_Open (name : string) : M (option error) :=
  os_call_ E (COpen name)
    (λ fs, match fs !! name with Some _ => inr fs | None => inl ENOENT end).

(** [reader.Stat()], for the size *)
Definition File_Stat (name : string) : M (Z * option error) :=
  os_call E (CStat name) 0
    (λ fs, match fs !! name with
           | Some c => inr (Z.of_nat (String.length c), fs)
           | None => inl ENOENT
           end).

(** [reader.Seek(0, io.SeekStart)] *)
Definition File_Seek (name : string) : M (option error) :=
  os_call_ E (CSeek name) inr.

(** The bytes a decoder finds when it reads the open file. *)
Definition contents (name : string) : M string := λ w,
  (Val (default "" (files w !! name)), w).

(** The calls of the repository: logged; a record that was added is kept
    in [records]. *)
Definition repo_NextFileID (repo : db.VfsRepo) : M (error + Z) := λ w,
  (Val (db.NextFileID repo), logged CNextFileID w).

Definition repo_AddVfsFile (repo : db.VfsRepo) (f : db.VfsFile.t) :
    M (error + db.VfsFile.t) := λ w,
  let w' := logged (CAddVfsFile f) w in
  match db.AddVfsFile repo f with
  | inl e => (Val (inl e), w')
  | inr vf => (Val (inr vf), with_record vf w')
  end.

(** The metadata found in the stored file: image dimensions, size and
    MIME type (the first block of [createFile]; its [log.Println] of a
    decoding error is left out). *)
Record metadata := {
  md_params : option db.VfsFileParams.t;
  md_mType : string;
  md_fs : Z
}.

Definition extract (name : string) : M metadata :=
  err ← os_Open name;
  match err with
  | Some _ => mret {| md_params := None; md_mType := ""; md_fs := 0 |}
  | None =>
      data ← contents name;
      (* check for image *)
      let params :=
        match image_config E data with
        | inr (width, height) =>
            Some {| db.VfsFileParams.Height := height; db.VfsFileParams.Width := width |}
        | inl _ => None
        end in
      (* get file size *)
      st ← File_Stat name;
      let fs := match st with (size, None) => size | (_, Some _) => 0 end in
      (* detect mime type *)
      err ← File_Seek name;
      let mType :=
        match err with
        | None => match mime_detect E data with inr mt => mt | inl _ => "" end
        | Some _ => ""
        end in
      _ ← File_Close E name;
      mret {| md_params := params; md_mType := mType; md_fs := fs |}
  end.

(** [func (v VFS) createFile(repo db.VfsRepo, folder *db.VfsFolder,
    ns, relFilename, name, ext string) (int, error)] *)
Definition createFile (repo : db.VfsRepo) (folder : db.VfsFolder.t)
    (ns relFilename name ext : string) : M (Z * option error) :=
  md ← extract (Path cfg ns relFilename);
  (* get last id *)
  next ← repo_NextFileID repo;
  match next with
  | inl e => mret (0, Some e)
  | inr id =>
      (* set salt *)
      salt ← (if Config.SaltedFilenames cfg
              then s ← randSeq 8; mret ("_" +:+ s)
              else mret "");
      (* set newFilename *)
      let filename :=
        fmt_d (db.VfsFolder.ID folder) +:+ "_" +:+ fmt_d id +:+ salt +:+ "." +:+ ext in
      let curYearMonth := year_month E in
      (* move temp file to original path *)
      err ← Move E cfg ns relFilename (Filepath.Join [curYearMonth; filename]);
      match err with
      | Some e => mret (0, Some e)
      | None =>
          (* add file to vfs *)
          let vfsFile :=
            {| db.VfsFile.ID := id;
               db.VfsFile.FolderID := db.VfsFolder.ID folder;
               db.VfsFile.Title := name;
               db.VfsFile.Path := Filepath.Join [curYearMonth; filename];
               db.VfsFile.Params := md_params md;
               db.VfsFile.MimeType := md_mType md;
               db.VfsFile.FileSize := Some (md_fs md);
               db.VfsFile.FileExists := true;
               db.VfsFile.StatusID := StatusEnabled E;
               db.VfsFile.CreatedAt := created_at E |} in
          added ← repo_AddVfsFile repo vfsFile;
          match added with
          | inl e => mret (0, Some e)
          | inr vf => mret (db.VfsFile.ID vf, None)
          end
      end
  end.

End Handlers.

(** ** The request handlers and the constructor *)

(** What the handlers and [New] take from the standard library besides
    the calls above: [os.IsNotExist], [strconv.Atoi] and [json.Marshal]. *)
Record lib := {
  os_IsNotExist : error → bool;
  strconv_Atoi : string → error + Z;
  json_Marshal : UploadResponse.t → error + string
}.

(** An [http.ResponseWriter], by what it sends: the status, once the
    header is written, and the body written so far; [rw_write_error]
    decides which [Write] fails.  (The header fields are left out.) *)
Record ResponseWriter := {
  rw_status : option Z;
  rw_body : string;
  rw_write_error : string → option error
}.

(** [w.WriteHeader(code)]: only the first call counts. *)
Definition WriteHeader (code : Z) (w : ResponseWriter) : ResponseWriter :=
  match rw_status w with
  | Some _ => w
  | None =>
      {| rw_status := Some code; rw_body := rw_body w;
         rw_write_error := rw_write_error w |}
  end.

(** [w.Write(data)]: the header is written first, with the status 200, if
    it was not written before. *)
Definition Write (data : string) (w : ResponseWriter) : ResponseWriter * option error :=
  let w := WriteHeader http.StatusOK w in
  match rw_write_error w data with
  | Some e => (w, Some e)
  | None =>
      ({| rw_status := rw_status w; rw_body := rw_body w +:+ data;
          rw_write_error := rw_write_error w |}, None)
  end.

(** [http.Error(w, msg, code)]: the status, then the message and a
    newline. *)
Definition http_Error (w : ResponseWriter) (msg : string) (code : Z) : ResponseWriter :=
  fst (Write (msg +:+ String "010" "") (WriteHeader code w)).

Section Server.
Variable E : env.
Variable L : lib.

(** [func New(cfg Config) (VFS, error)]; the store is its configuration,
    and the zero store goes with the error. *)
Definition zero_config : Config.t :=
  {| Config.MaxFileSize := 0; Config.Path := ""; Config.WebPath := "";
     Config.Namespaces := []; Config.UploadFormName := "";
     Config.SaltedFilenames := false |}.

Definition New (cfg : Config.t) : M (Config.t * option error) :=
  (* whether the root exists is the environment's answer to the query *)
  err ← os_call_ E (CStat (Config.Path cfg)) inr;
  if match err with Some e => os_IsNotExist L e | None => false end
  then mret (zero_config, err)
  else
    let cfg :=
      if String.eqb (Config.UploadFormName cfg) ""
      then {| Config.MaxFileSize := Config.MaxFileSize cfg;
              Config.Path := Config.Path cfg;
              Config.WebPath := Config.WebPath cfg;
              Config.Namespaces := Config.Namespaces cfg;
              Config.UploadFormName := "file";
              Config.SaltedFilenames := Config.SaltedFilenames cfg |}
      else cfg in
    mret (cfg, None).

Variable cfg : Config.t.

(** [func (v VFS) writeHashUploadResponse(w http.ResponseWriter,
    response UploadResponse) error] *)
Definition writeHashUploadResponse (w : ResponseWriter) (response : UploadResponse.t) :
    ResponseWriter * option error :=
  let w := WriteHeader (UploadResponse.Code response) w in
  match json_Marshal L response with
  | inl e => (w, Some e)
  | inr r => Write r w
  end.

(** The end of both handlers: write the response, and on an error of
    that, [http.Error] with the status 500. *)
Definition respond (w : ResponseWriter) (ur : UploadResponse.t) : ResponseWriter :=
  match writeHashUploadResponse w ur with
  | (w', Some e) => http_Error w' e http.StatusInternalServerError
  | (w', None) => w'
  end.

(** [func (v VFS) HashUploadHandler(w http.ResponseWriter, r *http.Request)] *)
Definition HashUploadHandler (w : ResponseWriter) (r : http.Request) : M ResponseWriter :=
  let ns := http.FormValue r "ns" in
  ur ← uploadFile E cfg r ns "";
  mret (respond w ur).

(** [func (v VFS) UploadHandler(repo db.VfsRepo) http.HandlerFunc] *)
Definition UploadHandler (repo : db.VfsRepo) (w : ResponseWriter) (r : http.Request) :
    M ResponseWriter :=
  let ns := http.FormValue r "ns" in
  match strconv_Atoi L (http.FormValue r "folderId") with
  | inl e => mret (http_Error w ("bad folder " +:+ e) http.StatusBadRequest)
  | inr folderId =>
      match db.VfsFolderByID repo folderId with
      | inl e => mret (http_Error w e http.StatusInternalServerError)
      | inr None => mret (http_Error w "not found" http.StatusInternalServerError)
      | inr (Some fl) =>
          (* generate temp filename *)
          s ← randSeq E 16;
          let tempFile := "temp" +:+ s in
          (* upload file *)
          ur ← uploadFile E cfg r ns tempFile;
          ur ← (if UploadResponse.Code ur =? http.StatusOK then
                  res ← createFile E cfg repo fl ns tempFile
                          (UploadResponse.Name ur) (UploadResponse.Extension ur);
                  match res with
                  | (_, Some e) =>
                      mret {| UploadResponse.Code := http.StatusInternalServerError;
                              UploadResponse.Error := e;
                              UploadResponse.Hash := UploadResponse.Hash ur;
                              UploadResponse.WebPath := UploadResponse.WebPath ur;
                              UploadResponse.FileID := UploadResponse.FileID ur;
                              UploadResponse.Extension := UploadResponse.Extension ur;
                              UploadResponse.Name := UploadResponse.Name ur |}
                  | (id, None) =>
                      mret {| UploadResponse.Code := UploadResponse.Code ur;
                              UploadResponse.Error := UploadResponse.Error ur;
                              UploadResponse.Hash := UploadResponse.Hash ur;
                              UploadResponse.WebPath := UploadResponse.WebPath ur;
                              UploadResponse.FileID := id;
                              UploadResponse.Extension := UploadResponse.Extension ur;
                              UploadResponse.Name := UploadResponse.Name ur |}
                  end
                else mret ur);
          mret (respond w ur)
      end
  end.

End Server.

(** ** Predicates of the statements *)

(** A lower-case hexadecimal digit. *)
Definition is_hex (c : ascii) : bool :=
  let n := N_of_ascii c in
  ((48 <=? n) && (n <=? 57) || (97 <=? n) && (n <=? 102))%N.

Fixpoint all_chars (P : ascii → bool) (s : string) : bool :=
  match s with
  | EmptyString => true
  | String c r => P c && all_chars P r
  end.

(** A content hash as the data model has it: thirty-two lower-case
    hexadecimal digits, the digest of sixteen bytes. *)
Definition valid_hash (h : FileHash) : bool :=
  (String.length h =? 32)%nat && all_chars is_hex h.

(** A path component that [Clean] keeps as it is: not empty, not a dot or
    a double-dot, and without a slash. *)
Definition component (s : string) : bool :=
  negb (String.eqb s "") && negb (String.eqb s ".") && negb (String.eqb s "..")
  && all_chars (λ c, negb (Filepath.is_sep c)) s.

(** What [createFile] records of a file with the bytes [c] under [name]:
    the size is zero when the file cannot be opened or its status cannot
    be read, and the length of [c] otherwise; the dimensions are left out
    when the file cannot be opened or is not an image; the MIME type is
    empty when the file cannot be opened or rewound or the sniffing
    fails. *)
Definition best_effort (E : env) (name c : string) (md : metadata) : Prop :=
  (fault E (COpen name) ≠ None ∨ fault E (CStat name) ≠ None → md_fs md = 0) ∧
  (fault E (COpen name) = None → fault E (CStat name) = None →
   md_fs md = Z.of_nat (String.length c)) ∧
  (fault E (COpen name) ≠ None ∨ (∃ e, image_config E c = inl e) →
   md_params md = None) ∧
  (fault E (COpen name) ≠ None ∨ fault E (CSeek name) ≠ None ∨
   (∃ e, mime_detect E c = inl e) → md_mType md = "").

(** The salt of a file name: none, or an underscore and eight letters. *)
Definition salt_of (cfg : Config.t) (salt : string) : Prop :=
  if Config.SaltedFilenames cfg
  then ∃ s, salt = "_" +:+ s ∧ String.length s = 8%nat
  else salt = "".

(** A lower-case letter or a digit: the alphabet of [randSeq]. *)
Definition is_alnum (c : ascii) : bool :=
  let n := N_of_ascii c in
  ((48 <=? n) && (n <=? 57) || (97 <=? n) && (n <=? 122))%N.

(** Neither a slash nor a dot. *)
Definition plain_char (c : ascii) : bool :=
  negb (Filepath.is_sep c) && negb (Ascii.eqb c ".").

(** ** A concrete environment, for running the code *)

Module Run.

(** A stand-in for the digest: the first sixteen bytes of the input,
    padded with zero bytes.  (The theorems hold for every digest
    function of sixteen bytes; this one only serves to run examples.) *)
Fixpoint first_bytes (n : nat) (b : string) : string :=
  match n with
  | O => ""
  | S n' =>
      match b with
      | EmptyString => String zero (first_bytes n' "")
      | String c r => String c (first_bytes n' r)
      end
  end.

Fixpoint first_bytes_length (n : nat) :
    ∀ b, String.length (first_bytes n b) = n :=
  match n with
  | O => λ _, eq_refl
  | S n' => λ b,
      match b with
      | EmptyString => f_equal S (first_bytes_length n' "")
      | String _ r => f_equal S (first_bytes_length n' r)
      end
  end.

(** The environment in which the calls listed in [faults] fail and every
    other call succeeds. *)
Definition call_eqb (c d : call) : bool :=
  match c, d with
  | CTempFile a b, CTempFile a' b' => String.eqb a a' && String.eqb b b'
  | CSync a, CSync a' => String.eqb a a'
  | CCopy a _, CCopy a' _ => String.eqb a a'
  | CMkdirAll a, CMkdirAll a' => String.eqb a a'
  | CRename a b, CRename a' b' => String.eqb a a' && String.eqb b b'
  | CClose a, CClose a' => String.eqb a a'
  | CRemove a, CRemove a' => String.eqb a a'
  | CCreate a, CCreate a' => String.eqb a a'
  | COpen a, COpen a' => String.eqb a a'
  | CStat a, CStat a' => String.eqb a a'
  | CSeek a, CSeek a' => String.eqb a a'
  | _, _ => false
  end.

Fixpoint fault_of (faults : list (call * error)) (c : call) : option error :=
  match faults with
  | [] => None
  | (d, e) :: rest => if call_eqb c d then Some e else fault_of rest c
  end.

Definition env_with (faults : list (call * error)) : env :=
  {| fault := fault_of faults;
     temp_name := λ dir pattern, Filepath.Join [dir; pattern +:+ "123456"];
     rand_source := λ k, (7 * k + 3)%nat;
     year_month := "201907";
     created_at := 1561939200;
     image_config := λ data,
       if String.prefix "GIF8" data then inr (4, 3) else inl "image: unknown format";
     mime_detect := λ data,
       if String.prefix "GIF8" data then inr "image/gif"
       else inr "application/octet-stream";
     md5_sum := first_bytes 16;
     md5_size := first_bytes_length 16;
     StatusEnabled := 1 |}.

Definition cfg : Config.t :=
  {| Config.MaxFileSize := 32;
     Config.Path := "/data/vfs";
     Config.WebPath := "/media";
     Config.Namespaces := ["items"; "users"];
     Config.UploadFormName := "file";
     Config.SaltedFilenames := false |}.

Definition w0 : world := {| files := ∅; records := []; log := []; draws := 0 |}.

Definition stream (data : string) : option reader :=
  Some {| rd_data := data; rd_err := None |}.

Definition repo_ok : db.VfsRepo :=
  {| db.VfsFolderByID := λ id, inr (Some {| db.VfsFolder.ID := id |});
     db.NextFileID := inr 9;
     db.AddVfsFile := λ f, inr f |}.

Definition repo_add_fails : db.VfsRepo :=
  {| db.VfsFolderByID := λ id, inr (Some {| db.VfsFolder.ID := id |});
     db.NextFileID := inr 9;
     db.AddVfsFile := λ f, inl "pg: connection refused" |}.

(** A PUT request with the body [data] and the length [declared] in its
    header, and a POST request with one file in its form. *)
Definition put (data : string) (declared : Z) : http.Request :=
  {| http.Method := "PUT";
     http.Body := {| rd_data := data; rd_err := None |};
     http.ContentLength := declared;
     http.ParseMultipartForm := λ _, Some "request Content-Type isn't multipart/form-data";
     http.FormFile := λ _, inl "request Content-Type isn't multipart/form-data";
     http.FormValue := λ _, "" |}.

Definition post (filename data : string) : http.Request :=
  {| http.Method := "POST";
     http.Body := {| rd_data := ""; rd_err := None |};
     http.ContentLength := -1;
     http.ParseMultipartForm := λ _, None;
     http.FormFile := λ field,
       if String.eqb field "file"
       then inr ({| rd_data := data; rd_err := None |},
                 {| http.Filename := filename;
                    http.Size := Z.of_nat (String.length data) |})
       else inl "http: no such file";
     http.FormValue := λ _, "" |}.

(** The world in which the one file [name] holds [data]. *)
Definition stored (name data : string) : world :=
  {| files := {[ name := data ]}; records := []; log := []; draws := 0 |}.

(** What a run leaves: the result, the files by name, and the calls in
    the order they were made. *)
Definition outcome {A} (r : res A * world) : res A * list (string * string) * list call :=
  (fst r, map_to_list (files (snd r)), rev (log (snd r))).

End Run.


(** ** A concrete server, for running the handlers *)

Module RunServer.

(** A stand-in for [strconv.Atoi]: unsigned decimal numbers only. *)
Fixpoint digits (acc : Z) (s : string) : option Z :=
  match s with
  | EmptyString => Some acc
  | String c r =>
      let n := Z.of_N (N_of_ascii c) in
      if (48 <=? n) && (n <=? 57) then digits (10 * acc + (n - 48)) r else None
  end.

Definition atoi (s : string) : error + Z :=
  match s with
  | EmptyString => inl "strconv.Atoi: invalid syntax"
  | _ => match digits 0 s with
         | Some n => inr n
         | None => inl "strconv.Atoi: invalid syntax"
         end
  end.

(** A stand-in for [json.Marshal]: the status and the message only. *)
Definition marshal (r : UploadResponse.t) : error + string :=
  inr ("{" +:+ fmt_d (UploadResponse.Code r) +:+ ":" +:+ UploadResponse.Error r +:+ "}").

Definition L : lib :=
  {| os_IsNotExist := String.eqb ENOENT;
     strconv_Atoi := atoi;
     json_Marshal := marshal |}.

(** A writer to which nothing was written yet, and one whose writes fail. *)
Definition fresh : ResponseWriter :=
  {| rw_status := None; rw_body := ""; rw_write_error := λ _, None |}.

Definition broken : ResponseWriter :=
  {| rw_status := None; rw_body := "";
     rw_write_error := λ _, Some "write: broken pipe" |}.

(** A PUT request with the form values [ns] and [folderId]. *)
Definition put_in (ns folderId data : string) : http.Request :=
  {| http.Method := "PUT";
     http.Body := {| rd_data := data; rd_err := None |};
     http.ContentLength := Z.of_nat (String.length data);
     http.ParseMultipartForm := λ _, Some "request Content-Type isn't multipart/form-data";
     http.FormFile := λ _, inl "request Content-Type isn't multipart/form-data";
     http.FormValue := λ key,
       if String.eqb key "ns" then ns
       else if String.eqb key "folderId" then folderId else "" |}.

(** A GET request. *)
Definition get : http.Request :=
  {| http.Method := "GET";
     http.Body := {| rd_data := ""; rd_err := None |};
     http.ContentLength := 0;
     http.ParseMultipartForm := λ _, Some "request Content-Type isn't multipart/form-data";
     http.FormFile := λ _, inl "request Content-Type isn't multipart/form-data";
     http.FormValue := λ _, "" |}.

(** A repository that knows the folder 1 only. *)
Definition repo : db.VfsRepo :=
  {| db.VfsFolderByID := λ id,
       if id =? 1 then inr (Some {| db.VfsFolder.ID := id |}) else inr None;
     db.NextFileID := inr 9;
     db.AddVfsFile := λ f, inr f |}.

Definition repo_no_id : db.VfsRepo :=
  {| db.VfsFolderByID := λ id, inr (Some {| db.VfsFolder.ID := id |});
     db.NextFileID := inl "pg: sequence exhausted";
     db.AddVfsFile := λ f, inr f |}.

End RunServer.

(** * Properties *)

(** ** The address codec *)

Section AddressCodec.

(** [Dir] is defined exactly on the hashes of three bytes or more. *)
Lemma Dir_defined (h : FileHash) : is_Some (Dir h) ↔ (3 ≤ String.length h)%nat.
Proof.
  destruct h as [|a [|b [|c r]]]; simpl.
  - split; [intros [x Hx]; discriminate | lia].
  - split; [intros [x Hx]; discriminate | lia].
  - split; [intros [x Hx]; discriminate | lia].
  - split; [lia | intros _; eexists; reflexivity].
Qed.

Lemma File_defined (h : FileHash) : is_Some (File h) ↔ is_Some (Dir h).
Proof.
  unfold File. destruct (Dir h) as [d|]; simpl.
  - split; intros _; eexists; reflexivity.
  - split; intros [x Hx]; discriminate.
Qed.

End AddressCodec.

(** C10.  [FileHash.Dir] and [FileHash.File] index the hash at the
    positions 0 to 2 without a length check: they return a path exactly
    when the hash has at least three bytes, and for every shorter hash,
    the empty string included, they end in the run-time panic of an index
    out of range. *)
Theorem C10_Dir_File_need_three_bytes (h : FileHash) :
  (is_Some (Dir h) ↔ (3 ≤ String.length h)%nat) ∧
  (is_Some (File h) ↔ (3 ≤ String.length h)%nat) ∧
  ((String.length h < 3)%nat ↔ Dir h = None ∧ File h = None) ∧
  Dir "" = None ∧ File "" = None.
Proof.
  pose proof (Dir_defined h) as HD.
  pose proof (File_defined h) as HF.
  assert (Dir h = None ↔ (String.length h < 3)%nat) as HN.
  { destruct (Dir h) as [d|] eqn:Heq.
    - assert (is_Some (Some d)) as Hs by (eexists; reflexivity).
      apply HD in Hs. split; [discriminate | lia].
    - split; [intros _ | reflexivity].
      destruct (le_lt_dec 3 (String.length h)) as [Hle|Hlt]; [|exact Hlt].
      apply HD in Hle. destruct Hle as [x Hx]. discriminate. }
  assert (Dir h = None → File h = None) as HNF.
  { intros Hd. unfold File. rewrite Hd. reflexivity. }
  split; [exact HD|].
  split; [rewrite HF; exact HD|].
  split; [|split; reflexivity].
  split.
  - intros Hlt. apply HN in Hlt. auto.
  - intros [Hd _]. apply HN. exact Hd.
Qed.

(** ** [Clean] and [Join] on paths that are already clean *)

Section CleanPaths.

Abbreviation no_sep := (all_chars (λ c, negb (Filepath.is_sep c))).

Lemma component_no_sep s : component s = true → no_sep s = true.
Proof. unfold component. intros H. apply andb_true_iff in H. tauto. Qed.

Lemma component_inv s :
  component s = true ↔ s ≠ "" ∧ s ≠ "." ∧ s ≠ ".." ∧ no_sep s = true.
Proof.
  unfold component.
  rewrite !andb_true_iff, !negb_true_iff, !String.eqb_neq. tauto.
Qed.

Lemma split_no_sep s : no_sep s = true → Filepath.split s = [s].
Proof.
  induction s as [|c r IH]; simpl; [reflexivity|].
  intros H. apply andb_true_iff in H as [Hc Hr].
  apply negb_true_iff in Hc. rewrite Hc, (IH Hr). reflexivity.
Qed.

Lemma split_app s t :
  no_sep s = true → Filepath.split (s +:+ "/" +:+ t) = s :: Filepath.split t.
Proof.
  induction s as [|c r IH]; simpl; [reflexivity|].
  intros H. apply andb_true_iff in H as [Hc Hr].
  apply negb_true_iff in Hc. rewrite Hc.
  change (String "/" t) with ("/" +:+ t). rewrite (IH Hr). reflexivity.
Qed.

Lemma split_join l :
  l ≠ [] → Forall (λ c, no_sep c = true) l →
  Filepath.split (GoString.join "/" l) = l.
Proof.
  induction l as [|c [|d rest] IH]; intros Hne Hall; [congruence| |].
  - simpl. apply split_no_sep. now inversion Hall.
  - inversion Hall as [|? ? Hc Hrest]; subst.
    change (GoString.join "/" (c :: d :: rest))
      with (c +:+ "/" +:+ GoString.join "/" (d :: rest)).
    rewrite split_app by exact Hc.
    rewrite IH; [reflexivity | congruence | exact Hrest].
Qed.

Lemma clean_step_component rooted out c :
  component c = true → Filepath.clean_step rooted out c = c :: out.
Proof.
  intros H. apply component_inv in H as (H1 & H2 & H3 & _).
  unfold Filepath.clean_step.
  apply String.eqb_neq in H1, H2, H3. now rewrite H1, H2, H3.
Qed.

Lemma fold_clean_components rooted l out :
  Forall (λ c, component c = true) l →
  fold_left (Filepath.clean_step rooted) l out = rev l ++ out.
Proof.
  revert out; induction l as [|c rest IH]; intros out Hall; [reflexivity|].
  inversion Hall as [|? ? Hc Hrest]; subst. simpl.
  rewrite clean_step_component by exact Hc.
  rewrite IH by exact Hrest. now rewrite <- app_assoc.
Qed.

(** A path made of components that [Clean] keeps is left as it is. *)
Lemma Clean_join_components l :
  l ≠ [] → Forall (λ c, component c = true) l →
  Filepath.Clean (GoString.join "/" l) = GoString.join "/" l.
Proof.
  intros Hne Hall.
  assert (Forall (λ c, no_sep c = true) l) as Hsep.
  { eapply Forall_impl; [exact Hall | intros c; apply component_no_sep]. }
  pose proof (split_join l Hne Hsep) as Hsplit.
  destruct l as [|c rest]; [congruence|].
  assert (∃ a s, GoString.join "/" (c :: rest) = String a s ∧
                 Filepath.is_sep a = false) as (a & s & Hj & Ha).
  { inversion Hall as [|? ? Hc _]; subst.
    apply component_inv in Hc as (Hc1 & _ & _ & Hc4).
    destruct c as [|a c']; [congruence|].
    simpl in Hc4. apply andb_true_iff in Hc4 as [Ha _].
    apply negb_true_iff in Ha.
    destruct rest; simpl; eauto. }
  rewrite Hj in Hsplit |- *.
  unfold Filepath.Clean. rewrite Ha, Hsplit.
  rewrite fold_clean_components by exact Hall.
  rewrite app_nil_r, rev_involutive, Hj. reflexivity.
Qed.

Lemma Join_components l :
  l ≠ [] → Forall (λ c, component c = true) l →
  Filepath.Join l = GoString.join "/" l.
Proof.
  intros Hne Hall. unfold Filepath.Join.
  destruct l as [|c rest]; [congruence|].
  assert (String.eqb c "" = false) as Hc.
  { inversion Hall as [|? ? Hc _]; subst.
    apply component_inv in Hc as (Hc1 & _). now apply String.eqb_neq. }
  simpl Filepath.drop_empty. rewrite Hc.
  now apply Clean_join_components.
Qed.

Lemma append_cons c (r t : string) : String c r +:+ t = String c (r +:+ t).
Proof. reflexivity. Qed.

Lemma append_assoc (s t u : string) : (s +:+ t) +:+ u = s +:+ t +:+ u.
Proof.
  induction s as [|c r IH]; [reflexivity|].
  now rewrite !append_cons, IH.
Qed.

Lemma substring_0_0 s : String.substring 0 0 s = "".
Proof. destruct s; reflexivity. Qed.

(** Strings of hexadecimal digits are such components. *)
Lemma is_hex_plain c :
  is_hex c = true →
  Filepath.is_sep c = false ∧ Ascii.eqb c "." = false ∧ (N_of_ascii c < 128)%N.
Proof.
  intros H.
  assert (c ≠ "/"%char ∧ c ≠ "."%char ∧ (N_of_ascii c < 128)%N) as (H1 & H2 & H3).
  { unfold is_hex in H. cbv zeta in H.
    repeat split; try (intros ->; vm_compute in H; discriminate).
    apply orb_true_iff in H.
    rewrite !andb_true_iff, !N.leb_le in H. lia. }
  unfold Filepath.is_sep. now rewrite <- !Ascii.eqb_neq in H1, H2.
Qed.

Lemma hex_component s :
  s ≠ "" → all_chars is_hex s = true → component s = true.
Proof.
  intros Hne Hall. apply component_inv. repeat split; try exact Hne.
  - intros ->. vm_compute in Hall. discriminate.
  - intros ->. vm_compute in Hall. discriminate.
  - clear Hne. induction s as [|c r IH]; [reflexivity|].
    simpl in Hall |- *. apply andb_true_iff in Hall as [Hc Hr].
    apply is_hex_plain in Hc as (Hc & _). now rewrite Hc, (IH Hr).
Qed.

End CleanPaths.

(** C4.  For every valid hash [h] (thirty-two lower-case hexadecimal
    digits), the shard directory is [h[0] + "/" + h[1:3]] and the storage
    path is the shard directory, a slash, [h], a dot and the fixed
    extension; both are values of pure functions of [h]. *)
Theorem C4_storage_path_of_valid_hash (h : FileHash) :
  valid_hash h = true →
  ∃ c shardDir,
    String.get 0 h = Some c ∧
    shardDir = String c "" +:+ "/" +:+ String.substring 1 2 h ∧
    Dir h = Some shardDir ∧
    File h = Some (shardDir +:+ "/" +:+ h +:+ "." +:+ DefaultHashExtension).
Proof.
  intros Hv. unfold valid_hash in Hv.
  apply andb_true_iff in Hv as [Hlen Hhex].
  apply Nat.eqb_eq in Hlen.
  destruct h as [|a [|b [|c r]]]; try discriminate.
  assert (Hhex' := Hhex). simpl in Hhex'.
  apply andb_true_iff in Hhex' as [Ha Hr].
  apply andb_true_iff in Hr as [Hb Hr].
  apply andb_true_iff in Hr as [Hc Hr].
  exists a, (String a "" +:+ "/" +:+ String b (String c "")).
  assert (Dir (String a (String b (String c r))) =
          Some (String a "" +:+ "/" +:+ String b (String c ""))) as HDir.
  { unfold Dir, GoString.index, GoString.slice, GoString.of_byte. simpl.
    pose proof (is_hex_plain _ Ha) as (_ & _ & Ha').
    apply N.ltb_lt in Ha'. rewrite Ha', substring_0_0. reflexivity. }
  split; [reflexivity|].
  split; [simpl; now rewrite substring_0_0|].
  split; [exact HDir|].
  set (h := String a (String b (String c r))) in *.
  set (d := String a "" +:+ "/" +:+ String b (String c "")) in *.
  assert (Filepath.Join [d; h] = d +:+ "/" +:+ h) as HJoin.
  { change (Filepath.Join [d; h]) with
      (Filepath.Clean (GoString.join "/" [String a ""; String b (String c ""); h])).
    change (d +:+ "/" +:+ h) with
      (GoString.join "/" [String a ""; String b (String c ""); h]).
    apply Clean_join_components; [congruence|].
    repeat constructor.
    - apply hex_component; [congruence|]. simpl. now rewrite Ha.
    - apply hex_component; [congruence|]. simpl. now rewrite Hb, Hc.
    - apply hex_component; [subst h; congruence | exact Hhex]. }
  unfold File. rewrite HDir.
  change (Some (Filepath.Join [d; h] +:+ "." +:+ DefaultHashExtension) =
          Some (d +:+ "/" +:+ h +:+ "." +:+ DefaultHashExtension)).
  rewrite HJoin. now rewrite !append_assoc.
Qed.

Lemma C4_witness :
  valid_hash "900150983cd24fb0d6963f7d28e17f72" = true ∧
  ∃ c shardDir,
    String.get 0 "900150983cd24fb0d6963f7d28e17f72" = Some c ∧
    shardDir = String c "" +:+ "/" +:+
               String.substring 1 2 "900150983cd24fb0d6963f7d28e17f72" ∧
    Dir "900150983cd24fb0d6963f7d28e17f72" = Some shardDir ∧
    File "900150983cd24fb0d6963f7d28e17f72" =
      Some (shardDir +:+ "/" +:+ "900150983cd24fb0d6963f7d28e17f72" +:+ "." +:+
            DefaultHashExtension).
Proof.
  split; [reflexivity|].
  apply (C4_storage_path_of_valid_hash "900150983cd24fb0d6963f7d28e17f72").
  reflexivity.
Defined.

(** ** The namespace check *)

Section Namespace.
Variable cfg : Config.t.

Lemma in_namespaces_spec l ns : in_namespaces l ns = true ↔ ns ∈ l.
Proof.
  induction l as [|n rest IH]; simpl.
  - split; [discriminate | intros H; inversion H].
  - destruct (String.eqb_spec n ns) as [->|Hne].
    + split; [intros _; left | reflexivity].
    + rewrite IH. split; [intros H; now right|].
      intros H. inversion H; subst; [congruence | assumption].
Qed.

(** [IsValidNamespace] accepts the public namespace and the configured
    ones, and no other. *)
Lemma IsValidNamespace_spec ns :
  IsValidNamespace cfg ns = true ↔ ns = NamespacePublic ∨ ns ∈ Config.Namespaces cfg.
Proof.
  unfold IsValidNamespace.
  destruct (String.eqb_spec ns NamespacePublic) as [->|Hne].
  - split; [intros _; now left | reflexivity].
  - rewrite in_namespaces_spec. split; [intros H; now right|].
    intros [H|H]; [congruence | assumption].
Qed.

End Namespace.

(** C6.  For every input stream and every namespace that is neither the
    empty string nor in the configured list, [HashUpload] returns the
    invalid-namespace error and leaves the world as it found it: no call
    to the operating system is made, so no destination file is written
    and no temp file is left behind. *)
Theorem C6_invalid_namespace_no_io
    (E : env) (cfg : Config.t) (r : option reader) (ns : string) (w : world) :
  ns ≠ NamespacePublic →
  ns ∉ Config.Namespaces cfg →
  HashUpload E cfg r ns w = (Val ("", Some ErrInvalidNamespace), w).
Proof.
  intros Hpub Hlist.
  assert (IsValidNamespace cfg ns = false) as Hinv.
  { destruct (IsValidNamespace cfg ns) eqn:Hv; [|reflexivity].
    apply IsValidNamespace_spec in Hv. tauto. }
  unfold HashUpload. rewrite Hinv. reflexivity.
Qed.

Lemma C6_witness :
  "bogus" ≠ NamespacePublic ∧
  ("bogus" ∉ Config.Namespaces Run.cfg) ∧
  HashUpload (Run.env_with []) Run.cfg (Run.stream "abc") "bogus" Run.w0 =
    (Val ("", Some ErrInvalidNamespace), Run.w0).
Proof.
  assert ("bogus" ≠ NamespacePublic) as H1 by discriminate.
  assert ("bogus" ∉ Config.Namespaces Run.cfg) as H2.
  { intros H. apply in_namespaces_spec in H. discriminate. }
  split; [exact H1|]. split; [exact H2|].
  apply (C6_invalid_namespace_no_io (Run.env_with []) Run.cfg (Run.stream "abc")
           "bogus" Run.w0 H1 H2).
Defined.

(** ** Runs of the calls *)

Section CallRuns.
Variable E : env.

Lemma os_call__run c eff w :
  os_call_ E c eff w =
  match fault E c with
  | Some e => (Val (Some e), logged c w)
  | None =>
      match eff (files w) with
      | inl e => (Val (Some e), logged c w)
      | inr fs => (Val None, with_files fs (logged c w))
      end
  end.
Proof.
  unfold os_call_, os_call, mbind, M_bind, mret, M_ret.
  destruct (fault E c); [reflexivity|].
  destruct (eff (files w)); reflexivity.
Qed.

(** Every call is logged, whether it fails or not, and nothing else is. *)
Lemma os_call__log c eff w err w' :
  os_call_ E c eff w = (Val err, w') → log w' = c :: log w.
Proof.
  rewrite os_call__run. intros H.
  destruct (fault E c); [injection H as <- <-; reflexivity|].
  destruct (eff (files w)); injection H as <- <-; reflexivity.
Qed.

End CallRuns.

(** ** The digest and its hexadecimal form *)

Section Digest.

Lemma substring_all s : String.substring 0 (String.length s) s = s.
Proof. induction s as [|c r IH]; simpl; [reflexivity | now rewrite IH]. Qed.

(** [hash.Sum(nil)[:16]] is the whole digest. *)
Lemma md5_slice (E : env) b :
  GoString.slice (md5_sum E b) 0 16 = Some (md5_sum E b).
Proof.
  unfold GoString.slice, GoString.len. rewrite (md5_size E b). simpl.
  rewrite <- (md5_size E b) at 1. now rewrite substring_all.
Qed.

Lemma digit_is_hex n : (n < 16)%N → is_hex (hex.digit n) = true.
Proof.
  intros H. unfold hex.digit.
  assert (N.to_nat n < 16)%nat as Hk by lia.
  destruct (N.to_nat n) as [|k]; [reflexivity|].
  do 15 (destruct k as [|k]; [reflexivity|]). lia.
Qed.

Lemma EncodeToString_length s :
  String.length (hex.EncodeToString s) = (2 * String.length s)%nat.
Proof. induction s as [|b r IH]; simpl; [reflexivity | rewrite IH; lia]. Qed.

Lemma EncodeToString_hex s : all_chars is_hex (hex.EncodeToString s) = true.
Proof.
  induction s as [|b r IH]; [reflexivity|].
  pose proof (N_ascii_bounded b) as Hb.
  cbn [hex.EncodeToString all_chars].
  rewrite IH, !digit_is_hex; [reflexivity | |].
  - apply N.mod_lt. discriminate.
  - apply N.Div0.div_lt_upper_bound. exact Hb.
Qed.

(** The hexadecimal form of a digest is a valid hash. *)
Lemma digest_valid_hash (E : env) b :
  valid_hash (hex.EncodeToString (md5_sum E b)) = true.
Proof.
  unfold valid_hash.
  rewrite EncodeToString_length, (md5_size E b), EncodeToString_hex. reflexivity.
Qed.

Lemma valid_hash_File h : valid_hash h = true → is_Some (File h) ∧ is_Some (Dir h).
Proof.
  intros H.
  pose proof (Dir_defined h) as HD. pose proof (File_defined h) as HF.
  unfold valid_hash in H. apply andb_true_iff in H as [Hlen _].
  apply Nat.eqb_eq in Hlen.
  split; [apply HF|]; apply HD; lia.
Qed.

End Digest.

(** ** [HashUpload] *)

Section HashUploadRuns.
Variable E : env.
Variable cfg : Config.t.

Ltac unfold_body :=
  unfold HashUpload_body, File_Sync, io_Copy, os_MkdirAll, os_Rename,
    mbind, M_bind, mret, M_ret, checked, panic.

(** What the statements after the [defer] leave when they return: a
    failure, with the temp file still to be deleted, or the hash, after
    the calls Sync, Copy, MkdirAll and Rename in this order. *)
Lemma HashUpload_body_run tmp r ns w st w' :
  HashUpload_body E cfg tmp r ns w = (Val st, w') →
  (∃ e, st = failed e) ∨
  (∃ rd dir file,
     let fh := hex.EncodeToString (md5_sum E (rd_data rd)) in
     r = Some rd ∧ rd_err rd = None ∧
     st = {| st_fh := fh; st_err := None; st_deleteTempFile := false |} ∧
     FullDir cfg ns fh = Some dir ∧ FullFile cfg ns fh = Some file ∧
     log w' = CRename tmp file :: CMkdirAll dir :: CCopy tmp (rd_data rd) ::
              CSync tmp :: log w).
Proof.
  unfold_body. unfold mret, M_ret. intros H.
  destruct r as [rd|]; simpl in H; [rewrite md5_slice in H|].
  all: repeat case_match; simplify_eq; try (left; eexists; reflexivity).
  right; exists rd; do 2 eexists; cbn zeta.
  repeat match goal with
         | Hc : os_call_ _ _ _ _ = _ |- _ => apply os_call__log in Hc
         end.
  repeat split; try eassumption.
  congruence.
Qed.

(** The deferred function after a failure: close, then remove; the
    error stays the one of the failure. *)
Lemma HashUpload_deferred_failed tmp e w :
  ∃ w', HashUpload_deferred E tmp (failed e) w = (Val (failed e), w') ∧
        log w' = CRemove tmp :: CClose tmp :: log w ∧
        (fault E (CRemove tmp) = None → files w' !! tmp = None).
Proof.
  unfold HashUpload_deferred, File_Close, os_Remove, mbind, M_bind, mret, M_ret.
  rewrite os_call__run.
  destruct (fault E (CClose tmp)); simpl; rewrite os_call__run;
    destruct (fault E (CRemove tmp)); simpl;
    try (destruct (files w !! tmp) eqn:Hf; simpl);
    eexists; (split; [reflexivity|]); (split; [reflexivity|]);
    intros Hno; try discriminate; simpl;
    try apply lookup_delete_eq; assumption.
Qed.

(** The deferred function after the rename: close, and nothing else; an
    error of the close becomes the error of the call. *)
Lemma HashUpload_deferred_published tmp fh w :
  ∃ w', HashUpload_deferred E tmp
          {| st_fh := fh; st_err := None; st_deleteTempFile := false |} w =
        (Val {| st_fh := fh; st_err := fault E (CClose tmp);
                st_deleteTempFile := false |}, w') ∧
        log w' = CClose tmp :: log w ∧ files w' = files w.
Proof.
  unfold HashUpload_deferred, File_Close, mbind, M_bind, mret, M_ret.
  rewrite !os_call__run. simpl.
  destruct (fault E (CClose tmp)); eexists; repeat split; reflexivity.
Qed.

Lemma HashUpload_valid r ns w :
  IsValidNamespace cfg ns = true →
  HashUpload E cfg r ns w =
  match ioutil_TempFile E (Config.Path cfg) "vfs" w with
  | (Val (_, Some e), w1) => (Val ("", Some e), w1)
  | (Val (tmp, None), w1) =>
      match defer (HashUpload_body E cfg tmp r ns) (HashUpload_deferred E tmp)
              {| st_fh := ""; st_err := None; st_deleteTempFile := true |} w1 with
      | (Val st, w3) => (Val (st_fh st, st_err st), w3)
      | (Panic msg, w3) => (Panic msg, w3)
      end
  | (Panic msg, w1) => (Panic msg, w1)
  end.
Proof.
  intros Hv. unfold HashUpload. rewrite Hv. simpl.
  unfold mbind, M_bind, mret, M_ret.
  destruct (ioutil_TempFile E (Config.Path cfg) "vfs" w) as [[[tmp [e|]]|msg] w1];
    reflexivity.
Qed.

Lemma TempFile_run dir pattern w tmp err w1 :
  ioutil_TempFile E dir pattern w = (Val (tmp, err), w1) →
  log w1 = CTempFile dir pattern :: log w ∧
  (err = None → tmp = temp_name E dir pattern).
Proof.
  unfold ioutil_TempFile, os_call. intros H.
  repeat case_match; simplify_eq; split; try reflexivity; discriminate.
Qed.

(** A call that returns without an error has made its six calls in this
    order: the temp file is synced before anything is copied into it,
    and no sync follows the copy. *)
Lemma HashUpload_calls_in_order r ns w fh w' :
  HashUpload E cfg r ns w = (Val (fh, None), w') →
  ∃ rd dir file,
    let tmp := temp_name E (Config.Path cfg) "vfs" in
    r = Some rd ∧ rd_err rd = None ∧
    fh = hex.EncodeToString (md5_sum E (rd_data rd)) ∧
    FullDir cfg ns fh = Some dir ∧ FullFile cfg ns fh = Some file ∧
    rev (log w') =
      rev (log w) ++
      [CTempFile (Config.Path cfg) "vfs"; CSync tmp; CCopy tmp (rd_data rd);
       CMkdirAll dir; CRename tmp file; CClose tmp].
Proof.
  intros H.
  destruct (IsValidNamespace cfg ns) eqn:Hv;
    [|unfold HashUpload in H; rewrite Hv in H; discriminate].
  rewrite (HashUpload_valid _ _ _ Hv) in H.
  destruct (ioutil_TempFile E (Config.Path cfg) "vfs" w)
    as [[[tmp [e|]]|msg] w1] eqn:Htf; try discriminate.
  apply TempFile_run in Htf as [Hlog1 Htmp]. specialize (Htmp eq_refl).
  unfold defer in H.
  destruct (HashUpload_body E cfg tmp r ns w1) as [[st|msg] w2] eqn:Hbody;
    [|discriminate].
  apply HashUpload_body_run in Hbody as [[e ->]|(rd & dir & file & Hrun)].
  - destruct (HashUpload_deferred_failed tmp e w2) as (w3 & Hd & _).
    rewrite Hd in H. discriminate.
  - cbn zeta in Hrun. destruct Hrun as (-> & Herr & -> & Hdir & Hfile & Hlog2).
    destruct (HashUpload_deferred_published tmp
                (hex.EncodeToString (md5_sum E (rd_data rd))) w2)
      as (w3 & Hd & Hlog3 & _).
    rewrite Hd in H. simpl in H. injection H as <- Hclose <-.
    exists rd, dir, file. cbn zeta. subst tmp.
    repeat split; try assumption.
    rewrite Hlog3, Hlog2, Hlog1. simpl. rewrite <- !app_assoc. reflexivity.
Qed.

End HashUploadRuns.

Section HashUploadSuccess.
Variable E : env.
Variable cfg : Config.t.

(** When no call fails and the temp name is free, [HashUpload] returns
    the hexadecimal digest of the input, and the input is what the file
    at the sharded path holds. *)
Lemma HashUpload_succeeds B ns w :
  IsValidNamespace cfg ns = true →
  (∀ c, fault E c = None) →
  files w !! temp_name E (Config.Path cfg) "vfs" = None →
  let fh := hex.EncodeToString (md5_sum E B) in
  ∃ w' file,
    HashUpload E cfg (Some {| rd_data := B; rd_err := None |}) ns w =
      (Val (fh, None), w') ∧
    FullFile cfg ns fh = Some file ∧
    files w' !! file = Some B.
Proof.
  intros Hv Hok Hfree fh.
  destruct (valid_hash_File fh (digest_valid_hash E B)) as [[f Hf] [d Hd]].
  assert (FullDir cfg ns fh = Some (Path cfg ns d)) as HFD.
  { unfold FullDir. now rewrite Hd. }
  assert (FullFile cfg ns fh = Some (Path cfg ns f)) as HFF.
  { unfold FullFile. now rewrite Hf. }
  rewrite (HashUpload_valid _ _ _ _ _ Hv).
  unfold ioutil_TempFile, os_call. rewrite Hok, Hfree.
  set (tmp := temp_name E (Config.Path cfg) "vfs").
  unfold defer, HashUpload_body, File_Sync, io_Copy, os_MkdirAll, os_Rename,
    mbind, M_bind, mret, M_ret, checked.
  rewrite os_call__run, Hok. cbn [with_files logged files log].
  rewrite os_call__run, Hok. cbn [with_files logged files log rd_data rd_err fmap option_fmap option_map default].
  rewrite md5_slice. unfold mret, M_ret, id. cbn beta iota.
  fold fh. rewrite HFD, HFF. cbn beta iota.
  rewrite os_call__run, Hok. cbn [with_files logged files log].
  rewrite os_call__run, Hok. cbn [with_files logged files log].
  rewrite !lookup_insert_eq. cbn [default].
  unfold HashUpload_deferred, File_Close, os_call_, os_call, mbind, M_bind, mret, M_ret.
  rewrite Hok. cbn [st_err st_fh st_deleteTempFile with_files logged files log snd].
  do 2 eexists. split; [reflexivity|]. split; [reflexivity|].
  cbn [files with_files]. apply lookup_insert_eq.
Qed.

End HashUploadSuccess.

(** C5.  Publishing is deterministic.  Two calls of [HashUpload] on the
    same bytes [B], in any two valid namespaces, in any two stores,
    worlds and fault patterns (the digest function being the same), that
    both return a hash return the same hash, the hexadecimal digest of
    [B], a valid hash, and so the same path relative to the namespace;
    and a call does return the hash when no call to the system fails and
    the temp name is free. *)
Theorem C5_publish_deterministic
    (E1 E2 : env) (cfg1 cfg2 : Config.t) (B : string) (ns1 ns2 : string)
    (w1 w2 : world) :
  IsValidNamespace cfg1 ns1 = true →
  IsValidNamespace cfg2 ns2 = true →
  (∀ b, md5_sum E1 b = md5_sum E2 b) →
  let input := Some {| rd_data := B; rd_err := None |} in
  (∀ fh1 fh2 w1' w2',
     HashUpload E1 cfg1 input ns1 w1 = (Val (fh1, None), w1') →
     HashUpload E2 cfg2 input ns2 w2 = (Val (fh2, None), w2') →
     fh1 = fh2 ∧ File fh1 = File fh2 ∧ is_Some (File fh1) ∧
     valid_hash fh1 = true ∧ fh1 = hex.EncodeToString (md5_sum E1 B)) ∧
  ((∀ c, fault E1 c = None) →
   files w1 !! temp_name E1 (Config.Path cfg1) "vfs" = None →
   ∃ w1', HashUpload E1 cfg1 input ns1 w1 =
            (Val (hex.EncodeToString (md5_sum E1 B), None), w1')).
Proof.
  intros Hv1 Hv2 Hmd5 input. split.
  - intros fh1 fh2 w1' w2' H1 H2.
    apply HashUpload_calls_in_order in H1 as (rd1 & d1 & f1 & Hr1).
    apply HashUpload_calls_in_order in H2 as (rd2 & d2 & f2 & Hr2).
    cbn zeta in Hr1, Hr2.
    destruct Hr1 as (Hrd1 & _ & Hfh1 & _). destruct Hr2 as (Hrd2 & _ & Hfh2 & _).
    injection Hrd1 as <-. injection Hrd2 as <-. simpl in Hfh1, Hfh2.
    rewrite <- Hmd5 in Hfh2. subst fh1 fh2.
    repeat split.
    + apply valid_hash_File, digest_valid_hash.
    + apply digest_valid_hash.
  - intros Hok Hfree.
    destruct (HashUpload_succeeds E1 cfg1 B ns1 w1 Hv1 Hok Hfree) as (w' & f & H & _).
    exists w'. exact H.
Qed.

Lemma C5_witness :
  let input := Some {| rd_data := "abc"; rd_err := None |} in
  (∀ fh1 fh2 w1' w2',
     HashUpload (Run.env_with []) Run.cfg input "items" Run.w0 = (Val (fh1, None), w1') →
     HashUpload (Run.env_with []) Run.cfg input "users" Run.w0 = (Val (fh2, None), w2') →
     fh1 = fh2 ∧ File fh1 = File fh2 ∧ is_Some (File fh1) ∧
     valid_hash fh1 = true ∧
     fh1 = hex.EncodeToString (md5_sum (Run.env_with []) "abc")) ∧
  ((∀ c, fault (Run.env_with []) c = None) →
   files Run.w0 !! temp_name (Run.env_with []) (Config.Path Run.cfg) "vfs" = None →
   ∃ w1', HashUpload (Run.env_with []) Run.cfg input "items" Run.w0 =
            (Val (hex.EncodeToString (md5_sum (Run.env_with []) "abc"), None), w1')).
Proof.
  apply (C5_publish_deterministic (Run.env_with []) (Run.env_with []) Run.cfg Run.cfg
           "abc" "items" "users" Run.w0 Run.w0);
    [reflexivity | reflexivity | intros b; reflexivity].
Defined.

(** C7.  In [HashUpload], once the temp file exists: when one of the steps
    (sync, copy, mkdir, rename) fails with [e], the temp file is closed
    and then removed, and the call returns [e] whatever the close and the
    removal answer, so a failing cleanup never masks the cause; when no
    step fails, nothing is left to remove and an error of the close is
    the error returned. *)
Theorem C7_first_failure_wins
    (E : env) (cfg : Config.t) (r : option reader) (ns : string)
    (w : world) (tmp : string) (w1 : world) (st : hash_upload_state) (w2 : world) :
  IsValidNamespace cfg ns = true →
  ioutil_TempFile E (Config.Path cfg) "vfs" w = (Val (tmp, None), w1) →
  HashUpload_body E cfg tmp r ns w1 = (Val st, w2) →
  ∃ w3,
    match st_err st with
    | Some e =>
        HashUpload E cfg r ns w = (Val ("", Some e), w3) ∧
        log w3 = CRemove tmp :: CClose tmp :: log w2 ∧
        (fault E (CRemove tmp) = None → files w3 !! tmp = None)
    | None =>
        HashUpload E cfg r ns w = (Val (st_fh st, fault E (CClose tmp)), w3) ∧
        log w3 = CClose tmp :: log w2
    end.
Proof.
  intros Hv Htf Hbody.
  rewrite (HashUpload_valid _ _ _ _ _ Hv), Htf.
  unfold defer. rewrite Hbody.
  apply HashUpload_body_run in Hbody as [[e ->]|(rd & dir & file & Hrun)].
  - destruct (HashUpload_deferred_failed E tmp e w2) as (w3 & Hd & Hlog & Hgone).
    exists w3. simpl. rewrite Hd. simpl. auto.
  - cbn zeta in Hrun. destruct Hrun as (_ & _ & -> & _).
    destruct (HashUpload_deferred_published E tmp
                (hex.EncodeToString (md5_sum E (rd_data rd))) w2)
      as (w3 & Hd & Hlog & _).
    exists w3. simpl. rewrite Hd. simpl. auto.
Qed.

Lemma C7_witness :
  let E := Run.env_with [(CMkdirAll "/data/vfs/items/6/16", "mkdir: permission denied");
                         (CClose "/data/vfs/vfs123456", "close: bad file descriptor");
                         (CRemove "/data/vfs/vfs123456", "remove: permission denied")] in
  let tmp := "/data/vfs/vfs123456" in
  let w1 := snd (ioutil_TempFile E (Config.Path Run.cfg) "vfs" Run.w0) in
  let w2 := snd (HashUpload_body E Run.cfg tmp (Run.stream "abc") "items" w1) in
  ∃ w3,
    HashUpload E Run.cfg (Run.stream "abc") "items" Run.w0 =
      (Val ("", Some "mkdir: permission denied"), w3) ∧
    log w3 = CRemove tmp :: CClose tmp :: log w2 ∧
    (fault E (CRemove tmp) = None → files w3 !! tmp = None).
Proof.
  intros E tmp w1 w2.
  exact (C7_first_failure_wins E Run.cfg (Run.stream "abc") "items" Run.w0 tmp w1
           (failed "mkdir: permission denied") w2
           eq_refl eq_refl eq_refl).
Defined.

(** C1.  A run of [HashUpload] in which every call succeeds: the temp
    file is synced while it is still empty, the input is copied into it
    afterwards, and it is renamed onto the sharded path with no sync
    between the copy and the rename. *)
Theorem C1_sync_precedes_copy :
  Run.outcome (HashUpload (Run.env_with []) Run.cfg (Run.stream "abc") "items" Run.w0) =
  (Val ("61626300000000000000000000000000", None),
   [("/data/vfs/items/6/16/61626300000000000000000000000000.jpg", "abc")],
   [CTempFile "/data/vfs" "vfs";
    CSync "/data/vfs/vfs123456";
    CCopy "/data/vfs/vfs123456" "abc";
    CMkdirAll "/data/vfs/items/6/16";
    CRename "/data/vfs/vfs123456"
            "/data/vfs/items/6/16/61626300000000000000000000000000.jpg";
    CClose "/data/vfs/vfs123456"]).
Proof. vm_compute. reflexivity. Qed.

(** ** [uploadFile] *)

Section UploadFileRuns.
Variable E : env.
Variable cfg : Config.t.

(** The declared size of a PUT request is the length its header gives;
    that of a POST request is the size of the file in its form. *)
Lemma request_file_put r :
  http.Method r = http.MethodPut →
  request_file cfg r = inr (Some (http.Body r), http.ContentLength r, "", "").
Proof. intros H. unfold request_file. rewrite H. reflexivity. Qed.

Lemma request_file_post r file handler :
  http.Method r = http.MethodPost →
  http.ParseMultipartForm r (Config.MaxFileSize cfg) = None →
  http.FormFile r (Config.UploadFormName cfg) = inr (file, handler) →
  ∃ ext name,
    request_file cfg r = inr (Some file, http.Size handler, ext, name).
Proof.
  intros Hm Hp Hf. unfold request_file. rewrite Hm, Hp, Hf. simpl.
  do 2 eexists. reflexivity.
Qed.

Lemma uploadFile_run r ns vfsFilename rd fileSize ext name :
  request_file cfg r = inr (rd, fileSize, ext, name) →
  uploadFile E cfg r ns vfsFilename =
  uploadFile_store E cfg rd fileSize ext name ns vfsFilename.
Proof. intros H. unfold uploadFile. rewrite H. reflexivity. Qed.

End UploadFileRuns.

(** C8.  A request whose declared size exceeds the configured maximum is
    answered with the status 413 and the world is left as it was: neither
    [Upload] nor [HashUpload] is called, and no file is created. *)
Theorem C8_oversized_rejected_before_store
    (E : env) (cfg : Config.t) (r : http.Request) (ns vfsFilename : string)
    (w : world) (rd : option reader) (fileSize : Z) (ext name : string) :
  request_file cfg r = inr (rd, fileSize, ext, name) →
  Config.MaxFileSize cfg < fileSize →
  ∃ resp,
    uploadFile E cfg r ns vfsFilename w = (Val resp, w) ∧
    UploadResponse.Code resp = http.StatusRequestEntityTooLarge ∧
    UploadResponse.Code resp = 413.
Proof.
  intros Hreq Hbig.
  rewrite (uploadFile_run E cfg _ _ _ _ _ _ _ Hreq).
  unfold uploadFile_store.
  apply Z.ltb_lt in Hbig. rewrite Hbig.
  eexists. split; [reflexivity|]. split; reflexivity.
Qed.

Lemma C8_witness :
  ∃ resp,
    uploadFile (Run.env_with []) Run.cfg (Run.put "abc" 33) "items" "" Run.w0 =
      (Val resp, Run.w0) ∧
    UploadResponse.Code resp = http.StatusRequestEntityTooLarge ∧
    UploadResponse.Code resp = 413.
Proof.
  apply (C8_oversized_rejected_before_store (Run.env_with []) Run.cfg (Run.put "abc" 33)
           "items" "" Run.w0 (Some {| rd_data := "abc"; rd_err := None |}) 33 "" "");
    reflexivity.
Defined.

(** C3, as the code has it.  A failure of [Upload] or of [HashUpload], an
    error of the operating system and the invalid namespace alike, is
    answered with the status 400 and the message of the error; a declared
    size above the maximum is answered with 413. *)
Theorem C3_store_failure_is_bad_request
    (E : env) (cfg : Config.t) (r : http.Request) (ns vfsFilename : string)
    (w : world) (rd : option reader) (fileSize : Z) (ext name : string) :
  request_file cfg r = inr (rd, fileSize, ext, name) →
  (fileSize ≤ Config.MaxFileSize cfg → vfsFilename ≠ "" →
   ∀ e w', Upload E cfg rd vfsFilename ns w = (Val (Some e), w') →
           uploadFile E cfg r ns vfsFilename w =
             (Val (response http.StatusBadRequest e), w')) ∧
  (fileSize ≤ Config.MaxFileSize cfg →
   ∀ fh e w', HashUpload E cfg rd ns w = (Val (fh, Some e), w') →
              uploadFile E cfg r ns "" w =
                (Val (response http.StatusBadRequest e), w')) ∧
  (fileSize ≤ Config.MaxFileSize cfg → IsValidNamespace cfg ns = false →
   uploadFile E cfg r ns "" w =
     (Val (response http.StatusBadRequest ErrInvalidNamespace), w)) ∧
  (Config.MaxFileSize cfg < fileSize →
   uploadFile E cfg r ns vfsFilename w =
     (Val (response http.StatusRequestEntityTooLarge
             ("file size exceed " +:+ fmt_d (Config.MaxFileSize cfg) +:+ " bytes")), w)).
Proof.
  intros Hreq.
  rewrite !(uploadFile_run E cfg _ _ _ _ _ _ _ Hreq).
  unfold uploadFile_store, mbind, M_bind, mret, M_ret.
  repeat split.
  - intros Hsize Hname e w' Hup.
    assert ((Config.MaxFileSize cfg <? fileSize) = false) as -> by (apply Z.ltb_ge; lia).
    apply String.eqb_neq in Hname. rewrite Hname. simpl.
    rewrite Hup. reflexivity.
  - intros Hsize fh e w' Hup.
    assert ((Config.MaxFileSize cfg <? fileSize) = false) as -> by (apply Z.ltb_ge; lia).
    simpl. rewrite Hup. reflexivity.
  - intros Hsize Hns.
    assert ((Config.MaxFileSize cfg <? fileSize) = false) as -> by (apply Z.ltb_ge; lia).
    simpl. unfold HashUpload. rewrite Hns. reflexivity.
  - intros Hbig. apply Z.ltb_lt in Hbig. rewrite Hbig. reflexivity.
Qed.

Lemma C3_witness :
  let E := Run.env_with [(CTempFile "/data/vfs" "vfs", "no space left on device")] in
  let r := Run.put "abc" 3 in
  let rd := Some {| rd_data := "abc"; rd_err := None |} in
  (3 ≤ Config.MaxFileSize Run.cfg → "temp0123" ≠ "" →
   ∀ e w', Upload E Run.cfg rd "temp0123" "items" Run.w0 = (Val (Some e), w') →
           uploadFile E Run.cfg r "items" "temp0123" Run.w0 =
             (Val (response http.StatusBadRequest e), w')) ∧
  (3 ≤ Config.MaxFileSize Run.cfg →
   ∀ fh e w', HashUpload E Run.cfg rd "items" Run.w0 = (Val (fh, Some e), w') →
              uploadFile E Run.cfg r "items" "" Run.w0 =
                (Val (response http.StatusBadRequest e), w')) ∧
  (3 ≤ Config.MaxFileSize Run.cfg → IsValidNamespace Run.cfg "items" = false →
   uploadFile E Run.cfg r "items" "" Run.w0 =
     (Val (response http.StatusBadRequest ErrInvalidNamespace), Run.w0)) ∧
  (Config.MaxFileSize Run.cfg < 3 →
   uploadFile E Run.cfg r "items" "temp0123" Run.w0 =
     (Val (response http.StatusRequestEntityTooLarge
             ("file size exceed " +:+ fmt_d (Config.MaxFileSize Run.cfg) +:+ " bytes")),
      Run.w0)).
Proof.
  intros E r rd.
  exact (C3_store_failure_is_bad_request E Run.cfg r "items" "temp0123" Run.w0
           rd 3 "" "" eq_refl).
Defined.

(** C3 as stated fails: an upload that cannot create its file for lack of
    permission, and a hash upload that cannot create its temp file on a
    full disk, are both answered with the status 400, not 500. *)
Lemma C3_counterexample :
  let denied := "open /data/vfs/items/temp0123: permission denied" in
  let full := "open /data/vfs/vfs123456: no space left on device" in
  let E1 := Run.env_with [(CCreate "/data/vfs/items/temp0123", denied)] in
  let E2 := Run.env_with [(CTempFile "/data/vfs" "vfs", full)] in
  fst (Upload E1 Run.cfg (Run.stream "abc") "temp0123" "items" Run.w0) =
    Val (Some denied) ∧
  fst (uploadFile E1 Run.cfg (Run.put "abc" 3) "items" "temp0123" Run.w0) =
    Val (response 400 denied) ∧
  fst (HashUpload E2 Run.cfg (Run.stream "abc") "items" Run.w0) =
    Val ("", Some full) ∧
  fst (uploadFile E2 Run.cfg (Run.put "abc" 3) "items" "" Run.w0) =
    Val (response 400 full) ∧
  UploadResponse.Code (response 400 full) ≠ http.StatusInternalServerError.
Proof. vm_compute. repeat split; discriminate. Qed.

(** ** [createFile] *)

Section CreateFileRuns.
Variable E : env.
Variable cfg : Config.t.

(** The metadata block always returns, changes no file, and records what
    it could find. *)
Lemma extract_run name w c :
  files w !! name = Some c →
  ∃ md w' calls,
    extract E name w = (Val md, w') ∧
    files w' = files w ∧ records w' = records w ∧ draws w' = draws w ∧
    log w' = calls ++ log w ∧
    best_effort E name c md.
Proof.
  intros Hc.
  unfold extract, os_Open, File_Stat, File_Seek, File_Close, contents,
    os_call_, os_call, best_effort, mbind, M_bind, mret, M_ret.
  cbn [files logged with_files].
  rewrite Hc. cbn [default].
  destruct (fault E (COpen name)) as [e1|] eqn:Ho; cbn [snd].
  { do 2 eexists. exists [COpen name].
    repeat split; try reflexivity; intros; try congruence. }
  destruct (fault E (CStat name)) as [e2|] eqn:Hs;
    destruct (fault E (CSeek name)) as [e3|] eqn:Hk;
    destruct (fault E (CClose name)) as [e4|] eqn:Hcl; cbn [snd files logged with_files];
    rewrite ?Hc; cbn [snd files logged with_files].
  all: do 2 eexists; exists [CClose name; CSeek name; CStat name; COpen name].
  all: repeat split; try reflexivity; cbn [md_fs md_params md_mType].
  all: cbn [default]; unfold id.
  all: try (intros [?|?]; congruence).
  all: try (intros [?|[e He]]; [congruence | rewrite He; reflexivity]).
  all: try (intros [?|[?|[e He]]]; try congruence; rewrite He; reflexivity).
  all: try congruence.
Qed.

Lemma string_of_list_ascii_length l :
  String.length (String.string_of_list_ascii l) = length l.
Proof. induction l as [|a l IH]; simpl; [reflexivity | now rewrite IH]. Qed.

(** [randSeq n] gives [n] letters and touches the random source only. *)
Lemma randSeq_run n w :
  ∃ s w',
    randSeq E n w = (Val s, w') ∧ String.length s = n ∧
    files w' = files w ∧ records w' = records w ∧ log w' = log w.
Proof.
  unfold randSeq. do 2 eexists. repeat split.
  rewrite string_of_list_ascii_length, length_fmap, length_seq. reflexivity.
Qed.

(** [Move] succeeds when its two calls are not made to fail and the file
    is there: the file is then under the new name, and no longer under
    the old one unless the names are the same. *)
Lemma Move_run ns cur new w c :
  (∀ d, fault E (CMkdirAll d) = None) →
  (∀ s d, fault E (CRename s d) = None) →
  files w !! Path cfg ns cur = Some c →
  ∃ w',
    Move E cfg ns cur new w = (Val None, w') ∧
    files w' = <[Path cfg ns new := c]> (delete (Path cfg ns cur) (files w)) ∧
    records w' = records w ∧ draws w' = draws w ∧
    log w' = CRename (Path cfg ns cur) (Path cfg ns new) ::
             CMkdirAll (Filepath.Dir (Path cfg ns new)) :: log w.
Proof.
  intros Hm Hr Hc.
  unfold Move, os_MkdirAll, os_Rename, mbind, M_bind, mret, M_ret.
  fold (Path cfg ns cur). fold (Path cfg ns new).
  rewrite os_call__run, Hm. cbn [files logged with_files].
  rewrite os_call__run, Hr. cbn [files logged with_files].
  rewrite Hc. eexists. repeat split.
Qed.

(** A run of [createFile] in which the identifier is allocated and the
    move is not made to fail: the file is moved to its final name, the
    record is built from what the metadata block found and handed to the
    repository, and the answer of the repository decides the result.
    After the rename no call to the operating system is made. *)
Lemma createFile_run repo folder ns rel name ext w c id :
  db.NextFileID repo = inr id →
  (∀ d, fault E (CMkdirAll d) = None) →
  (∀ s d, fault E (CRename s d) = None) →
  files w !! Path cfg ns rel = Some c →
  ∃ md salt w1 before,
    let filename :=
      fmt_d (db.VfsFolder.ID folder) +:+ "_" +:+ fmt_d id +:+ salt +:+ "." +:+ ext in
    let final := Filepath.Join [year_month E; filename] in
    let vfsFile :=
      {| db.VfsFile.ID := id;
         db.VfsFile.FolderID := db.VfsFolder.ID folder;
         db.VfsFile.Title := name;
         db.VfsFile.Path := final;
         db.VfsFile.Params := md_params md;
         db.VfsFile.MimeType := md_mType md;
         db.VfsFile.FileSize := Some (md_fs md);
         db.VfsFile.FileExists := true;
         db.VfsFile.StatusID := StatusEnabled E;
         db.VfsFile.CreatedAt := created_at E |} in
    salt_of cfg salt ∧
    best_effort E (Path cfg ns rel) c md ∧
    files w1 = <[Path cfg ns final := c]> (delete (Path cfg ns rel) (files w)) ∧
    records w1 = records w ∧
    log w1 = CAddVfsFile vfsFile ::
             CRename (Path cfg ns rel) (Path cfg ns final) ::
             CMkdirAll (Filepath.Dir (Path cfg ns final)) :: CNextFileID :: before ∧
    createFile E cfg repo folder ns rel name ext w =
      match db.AddVfsFile repo vfsFile with
      | inl e => (Val (0, Some e), w1)
      | inr vf => (Val (db.VfsFile.ID vf, None), with_record vf w1)
      end.
Proof.
  intros Hid Hm Hr Hc.
  destruct (extract_run _ _ _ Hc) as (md & wa & calls & Hex & Hfa & Hra & _ & Hla & Hmd).
  assert (∃ salt wb,
            (if Config.SaltedFilenames cfg
             then s ← randSeq E 8; mret ("_" +:+ s)
             else mret "") (logged CNextFileID wa) = (Val salt, wb) ∧
            salt_of cfg salt ∧ files wb = files wa ∧ records wb = records wa ∧
            log wb = CNextFileID :: log wa) as (salt & wb & Hsalt & Hso & Hfb & Hrb & Hlb).
  { unfold salt_of. destruct (Config.SaltedFilenames cfg).
    - destruct (randSeq_run 8 (logged CNextFileID wa)) as (s & wb & Hs & Hlen & Hf & Hrec & Hl).
      exists ("_" +:+ s), wb. unfold mbind, M_bind, mret, M_ret. rewrite Hs.
      repeat split; eauto.
    - do 2 eexists. repeat split. }
  set (filename :=
         fmt_d (db.VfsFolder.ID folder) +:+ "_" +:+ fmt_d id +:+ salt +:+ "." +:+ ext).
  set (final := Filepath.Join [year_month E; filename]).
  assert (files wb !! Path cfg ns rel = Some c) as Hcb by (rewrite Hfb, Hfa; exact Hc).
  destruct (Move_run ns rel final wb c Hm Hr Hcb) as (wc & Hmove & Hfc & Hrc & _ & Hlc).
  exists md, salt.
  eexists (logged (CAddVfsFile _) wc), (calls ++ log w).
  cbn zeta. fold filename. fold final.
  split; [exact Hso|]. split; [exact Hmd|].
  split; [cbn [files logged]; rewrite Hfc, Hfb, Hfa; reflexivity|].
  split; [cbn [records logged]; rewrite Hrc, Hrb, Hra; reflexivity|].
  split; [cbn [log logged]; rewrite Hlc, Hlb, Hla; reflexivity|].
  unfold createFile.
  unfold mbind at 1. unfold M_bind at 1. rewrite Hex.
  unfold mbind at 1. unfold M_bind at 1.
  unfold repo_NextFileID at 1. rewrite Hid.
  unfold mbind at 1. unfold M_bind at 1. rewrite Hsalt.
  fold filename. fold final.
  unfold mbind at 1. unfold M_bind at 1. rewrite Hmove.
  unfold mbind at 1. unfold M_bind at 1.
  unfold repo_AddVfsFile.
  destruct (db.AddVfsFile repo _); reflexivity.
Qed.

End CreateFileRuns.

(** C9.  A foldered upload in which the identifier is allocated and the
    move is made, and the repository then refuses the record: [createFile]
    returns the repository's error, and the file stays where the move put
    it, at the final path [<YYYYMM>/<folderID>_<fileID>[_<salt>].<ext>]
    under the namespace; the rename is the last call to the operating
    system, nothing removes the file, and no record is kept. *)
Theorem C9_orphan_after_failed_persist
    (E : env) (cfg : Config.t) (repo : db.VfsRepo) (folder : db.VfsFolder.t)
    (ns rel name ext : string) (w : world) (c : string) (id : Z) (e : error) :
  db.NextFileID repo = inr id →
  (∀ d, fault E (CMkdirAll d) = None) →
  (∀ s d, fault E (CRename s d) = None) →
  files w !! Path cfg ns rel = Some c →
  (∀ f, db.AddVfsFile repo f = inl e) →
  ∃ salt w' vfsFile before,
    let filename :=
      fmt_d (db.VfsFolder.ID folder) +:+ "_" +:+ fmt_d id +:+ salt +:+ "." +:+ ext in
    let final := Filepath.Join [year_month E; filename] in
    salt_of cfg salt ∧
    createFile E cfg repo folder ns rel name ext w = (Val (0, Some e), w') ∧
    files w' !! Path cfg ns final = Some c ∧
    records w' = records w ∧
    log w' = CAddVfsFile vfsFile ::
             CRename (Path cfg ns rel) (Path cfg ns final) :: before ∧
    db.VfsFile.Path vfsFile = final ∧
    (component (year_month E) = true → component filename = true →
     final = year_month E +:+ "/" +:+ filename).
Proof.
  intros Hid Hm Hr Hc Hadd.
  destruct (createFile_run E cfg repo folder ns rel name ext w c id Hid Hm Hr Hc)
    as (md & salt & w1 & before & Hrun).
  cbn zeta in Hrun.
  destruct Hrun as (Hsalt & _ & Hfiles & Hrec & Hlog & Hres).
  rewrite Hadd in Hres.
  exists salt, w1. do 2 eexists. cbn zeta.
  split; [exact Hsalt|]. split; [exact Hres|].
  split; [rewrite Hfiles; apply lookup_insert_eq|].
  split; [exact Hrec|]. split; [exact Hlog|]. split; [reflexivity|].
  intros Hym Hfn. apply (Join_components [year_month E; _]); [congruence|].
  repeat constructor; assumption.
Qed.

Lemma C9_witness :
  let E := Run.env_with [] in
  let w := Run.stored "/data/vfs/items/temp0123" "GIF89a" in
  ∃ salt w' vfsFile before,
    let filename := fmt_d 1 +:+ "_" +:+ fmt_d 9 +:+ salt +:+ "." +:+ "gif" in
    let final := Filepath.Join [year_month E; filename] in
    salt_of Run.cfg salt ∧
    createFile E Run.cfg Run.repo_add_fails {| db.VfsFolder.ID := 1 |}
      "items" "temp0123" "cat" "gif" w =
      (Val (0, Some "pg: connection refused"), w') ∧
    files w' !! Path Run.cfg "items" final = Some "GIF89a" ∧
    records w' = records w ∧
    log w' = CAddVfsFile vfsFile ::
             CRename (Path Run.cfg "items" "temp0123") (Path Run.cfg "items" final) ::
             before ∧
    db.VfsFile.Path vfsFile = final ∧
    (component (year_month E) = true → component filename = true →
     final = year_month E +:+ "/" +:+ filename).
Proof.
  intros E w.
  exact (C9_orphan_after_failed_persist E Run.cfg Run.repo_add_fails
           {| db.VfsFolder.ID := 1 |} "items" "temp0123" "cat" "gif" w "GIF89a" 9
           "pg: connection refused"
           eq_refl (λ _, eq_refl) (λ _ _, eq_refl) eq_refl (λ _, eq_refl)).
Defined.

(** C2, as the code has it.  In [createFile] no failure of the metadata
    block aborts the creation of the record: when the file cannot be
    opened or its status query fails the size recorded is zero, when the
    image decode fails the dimensions are left out, when the sniffing (or
    the rewind before it) fails the MIME type is empty; once the
    identifier is allocated and the move is made, the record is built and
    handed to the repository, whose answer alone decides the result. *)
Theorem C2_metadata_failures_never_abort
    (E : env) (cfg : Config.t) (repo : db.VfsRepo) (folder : db.VfsFolder.t)
    (ns rel name ext : string) (w : world) (c : string) (id : Z) :
  db.NextFileID repo = inr id →
  (∀ d, fault E (CMkdirAll d) = None) →
  (∀ s d, fault E (CRename s d) = None) →
  files w !! Path cfg ns rel = Some c →
  let p := Path cfg ns rel in
  ∃ vfsFile w' before,
    (fault E (COpen p) ≠ None ∨ fault E (CStat p) ≠ None →
     db.VfsFile.FileSize vfsFile = Some 0) ∧
    (fault E (COpen p) = None → fault E (CStat p) = None →
     db.VfsFile.FileSize vfsFile = Some (Z.of_nat (String.length c))) ∧
    (fault E (COpen p) ≠ None ∨ (∃ e, image_config E c = inl e) →
     db.VfsFile.Params vfsFile = None) ∧
    (fault E (COpen p) ≠ None ∨ fault E (CSeek p) ≠ None ∨
     (∃ e, mime_detect E c = inl e) → db.VfsFile.MimeType vfsFile = "") ∧
    db.VfsFile.ID vfsFile = id ∧
    db.VfsFile.FileExists vfsFile = true ∧
    log w' = CAddVfsFile vfsFile :: before ∧
    records w' = records w ∧
    createFile E cfg repo folder ns rel name ext w =
      match db.AddVfsFile repo vfsFile with
      | inl e => (Val (0, Some e), w')
      | inr vf => (Val (db.VfsFile.ID vf, None), with_record vf w')
      end.
Proof.
  intros Hid Hm Hr Hc p.
  destruct (createFile_run E cfg repo folder ns rel name ext w c id Hid Hm Hr Hc)
    as (md & salt & w1 & before & Hrun).
  cbn zeta in Hrun.
  destruct Hrun as (_ & (Hfs0 & Hfs & Hpar & Hmime) & _ & Hrec & Hlog & Hres).
  do 2 eexists. eexists (_ :: _ :: _ :: before).
  split; [|split; [|split; [|split; [|split; [|split; [|split; [exact Hlog|
    split; [exact Hrec | exact Hres]]]]]]]]; cbn [db.VfsFile.FileSize
    db.VfsFile.Params db.VfsFile.MimeType db.VfsFile.ID db.VfsFile.FileExists].
  - intros H. now rewrite (Hfs0 H).
  - intros H1 H2. now rewrite (Hfs H1 H2).
  - exact Hpar.
  - exact Hmime.
  - reflexivity.
  - reflexivity.
Qed.

Lemma C2_witness :
  let p := "/data/vfs/items/temp0123" in
  let E := Run.env_with [(CStat p, "stat: input/output error")] in
  let w := Run.stored p "not an image" in
  ∃ vfsFile w' before,
    (fault E (COpen p) ≠ None ∨ fault E (CStat p) ≠ None →
     db.VfsFile.FileSize vfsFile = Some 0) ∧
    (fault E (COpen p) = None → fault E (CStat p) = None →
     db.VfsFile.FileSize vfsFile = Some (Z.of_nat (String.length "not an image"))) ∧
    (fault E (COpen p) ≠ None ∨ (∃ e, image_config E "not an image" = inl e) →
     db.VfsFile.Params vfsFile = None) ∧
    (fault E (COpen p) ≠ None ∨ fault E (CSeek p) ≠ None ∨
     (∃ e, mime_detect E "not an image" = inl e) → db.VfsFile.MimeType vfsFile = "") ∧
    db.VfsFile.ID vfsFile = 9 ∧
    db.VfsFile.FileExists vfsFile = true ∧
    log w' = CAddVfsFile vfsFile :: before ∧
    records w' = records w ∧
    createFile E Run.cfg Run.repo_ok {| db.VfsFolder.ID := 1 |}
      "items" "temp0123" "note" "txt" w =
      match db.AddVfsFile Run.repo_ok vfsFile with
      | inl e => (Val (0, Some e), w')
      | inr vf => (Val (db.VfsFile.ID vf, None), with_record vf w')
      end.
Proof.
  intros p E w.
  exact (C2_metadata_failures_never_abort E Run.cfg Run.repo_ok
           {| db.VfsFolder.ID := 1 |} "items" "temp0123" "note" "txt" w
           "not an image" 9
           eq_refl (λ _, eq_refl) (λ _ _, eq_refl) eq_refl).
Defined.

(** C2 as stated fails: with the status query of the stored file failing,
    and likewise with the file not to be opened at all, [createFile] does
    not abort: it returns the new identifier without an error, and the
    record the repository keeps has the size zero. *)
Lemma C2_counterexample :
  let p := "/data/vfs/items/temp0123" in
  let E1 := Run.env_with [(CStat p, "stat: input/output error")] in
  let E2 := Run.env_with [(COpen p, "open: permission denied")] in
  let w := Run.stored p "GIF89a" in
  let run E :=
    createFile E Run.cfg Run.repo_ok {| db.VfsFolder.ID := 1 |}
      "items" "temp0123" "cat" "gif" w in
  fault E1 (CStat p) = Some "stat: input/output error" ∧
  fst (run E1) = Val (9, None) ∧
  db.VfsFile.FileSize <$> records (snd (run E1)) = [Some 0] ∧
  fault E2 (COpen p) = Some "open: permission denied" ∧
  fst (run E2) = Val (9, None) ∧
  db.VfsFile.FileSize <$> records (snd (run E2)) = [Some 0].
Proof. vm_compute. repeat split. Qed.

(** * Further properties of the code *)

(** ** The sharded paths under a store *)

Section ShardedPaths.

Lemma split_nonempty p : Filepath.split p ≠ [].
Proof.
  induction p as [|c r IH]; simpl; [discriminate|].
  destruct (Filepath.is_sep c); [discriminate|].
  destruct (Filepath.split r); discriminate.
Qed.

(** The components of two paths joined by a slash. *)
Lemma split_slash a b :
  Filepath.split (a +:+ "/" +:+ b) = Filepath.split a ++ Filepath.split b.
Proof.
  induction a as [|c r IH]; [reflexivity|].
  rewrite append_cons. simpl. rewrite IH.
  destruct (Filepath.is_sep c); [reflexivity|].
  pose proof (split_nonempty r) as Hne.
  destruct (Filepath.split r); [congruence | reflexivity].
Qed.

Lemma clean_step_nonempty rooted out c :
  Forall (λ x, x ≠ "") out → Forall (λ x, x ≠ "") (Filepath.clean_step rooted out c).
Proof.
  intros Hout. unfold Filepath.clean_step.
  destruct (String.eqb_spec c ""); [exact Hout|].
  destruct (String.eqb_spec c "."); [exact Hout|].
  destruct (String.eqb_spec c "..").
  - destruct out as [|top rest].
    + destruct rooted; [constructor | repeat constructor; congruence].
    + destruct (String.eqb top "..").
      * destruct rooted; [exact Hout | constructor; [congruence | exact Hout]].
      * now inversion Hout.
  - constructor; assumption.
Qed.

Lemma fold_clean_nonempty rooted l out :
  Forall (λ x, x ≠ "") out →
  Forall (λ x, x ≠ "") (fold_left (Filepath.clean_step rooted) l out).
Proof.
  revert out; induction l as [|c l IH]; intros out H; [exact H|].
  simpl. apply IH, clean_step_nonempty, H.
Qed.

Lemma join_snoc l x :
  l ≠ [] → GoString.join "/" (l ++ [x]) = GoString.join "/" l +:+ "/" +:+ x.
Proof.
  induction l as [|a [|b rest] IH]; intros Hne; [congruence|reflexivity|].
  change (GoString.join "/" ((a :: b :: rest) ++ [x]))
    with (a +:+ "/" +:+ GoString.join "/" ((b :: rest) ++ [x])).
  rewrite IH by congruence.
  change (GoString.join "/" (a :: b :: rest))
    with (a +:+ "/" +:+ GoString.join "/" (b :: rest)).
  now rewrite !append_assoc.
Qed.

Lemma join_nonempty l :
  l ≠ [] → Forall (λ x, x ≠ "") l → GoString.join "/" l ≠ "".
Proof.
  intros Hne Hall. destruct l as [|a rest]; [congruence|].
  inversion Hall as [|? ? Ha _]; subst.
  destruct a as [|c a']; [congruence|].
  destruct rest; simpl; discriminate.
Qed.

Lemma rev_nil_inv {A} (l : list A) : rev l = [] → l = [].
Proof. intros H. rewrite <- (rev_involutive l), H. reflexivity. Qed.

(** [Clean] of a path and one more component: the component is appended,
    unless the path cleans to nothing. *)
Lemma Clean_push s nm :
  s ≠ "" → component nm = true →
  (∀ rooted, fold_left (Filepath.clean_step rooted) (Filepath.split s) [] ≠ []) →
  Filepath.Clean (s +:+ "/" +:+ nm) = Filepath.Clean s +:+ "/" +:+ nm.
Proof.
  intros Hs Hnm Hout.
  destruct s as [|c r]; [congruence|].
  rewrite append_cons. unfold Filepath.Clean.
  rewrite <- append_cons, split_slash, fold_left_app.
  rewrite (split_no_sep nm) by (apply component_no_sep, Hnm).
  cbn [fold_left]. rewrite clean_step_component by exact Hnm.
  set (out := fold_left (Filepath.clean_step (Filepath.is_sep c))
                (Filepath.split (String c r)) []).
  assert (out ≠ []) as Hne by apply Hout.
  assert (Forall (λ x, x ≠ "") out) as Hall by (apply fold_clean_nonempty; constructor).
  cbn [rev]. rewrite join_snoc by (intros H; apply Hne; now apply rev_nil_inv in H).
  assert (GoString.join "/" (rev out) ≠ "") as Hbody.
  { apply join_nonempty.
    - intros H. apply Hne. now apply rev_nil_inv in H.
    - now apply Forall_rev. }
  destruct (Filepath.is_sep c).
  - now rewrite <- !append_assoc.
  - apply String.eqb_neq in Hbody. rewrite Hbody.
    destruct (String.eqb_spec (GoString.join "/" (rev out) +:+ "/" +:+ nm) "") as [He|_];
      [|reflexivity].
    destruct (GoString.join "/" (rev out)); discriminate.
Qed.

End ShardedPaths.

Section StorePaths.
Variable cfg : Config.t.

Lemma all_chars_app P s t :
  all_chars P (s +:+ t) = all_chars P s && all_chars P t.
Proof.
  induction s as [|c r IH]; [reflexivity|].
  rewrite append_cons. simpl. rewrite IH. now rewrite andb_assoc.
Qed.

Lemma append_slash_nonempty a b : a +:+ "/" +:+ b ≠ "".
Proof. destruct a; discriminate. Qed.

(** The string that [Join] cleans, for a last element that is not empty:
    a prefix that the first two elements decide, and the last element. *)
Lemma Join3_prefix root ns :
  ∃ pre, ∀ x, x ≠ "" → Filepath.Join [root; ns; x] = Filepath.Clean (pre +:+ x).
Proof.
  destruct (String.eqb_spec root "") as [->|Hr].
  - destruct (String.eqb_spec ns "") as [->|Hn].
    + exists "". intros x Hx. unfold Filepath.Join. simpl.
      apply String.eqb_neq in Hx. rewrite Hx. reflexivity.
    + exists (ns +:+ "/"). intros x Hx. unfold Filepath.Join. simpl.
      apply String.eqb_neq in Hn. rewrite Hn.
      cbn [GoString.join]. now rewrite append_assoc.
  - exists (root +:+ "/" +:+ ns +:+ "/"). intros x Hx. unfold Filepath.Join. simpl.
    apply String.eqb_neq in Hr. rewrite Hr.
    cbn [GoString.join]. now rewrite !append_assoc.
Qed.

(** A path of at least two components under a store, and one component
    more: the component is appended to the path under the store. *)
Lemma Join3_push root ns a b nm :
  component b = true → component nm = true →
  Filepath.Join [root; ns; a +:+ "/" +:+ b +:+ "/" +:+ nm] =
  Filepath.Join [root; ns; a +:+ "/" +:+ b] +:+ "/" +:+ nm.
Proof.
  intros Hb Hnm.
  destruct (Join3_prefix root ns) as [pre Hpre].
  rewrite !Hpre by apply append_slash_nonempty.
  replace (pre +:+ a +:+ "/" +:+ b +:+ "/" +:+ nm)
    with (((pre +:+ a) +:+ "/" +:+ b) +:+ "/" +:+ nm) by now rewrite !append_assoc.
  replace (pre +:+ a +:+ "/" +:+ b)
    with ((pre +:+ a) +:+ "/" +:+ b) by now rewrite !append_assoc.
  apply Clean_push; [apply append_slash_nonempty | exact Hnm |].
  intros rooted. rewrite split_slash, fold_left_app.
  rewrite (split_no_sep b) by (apply component_no_sep, Hb).
  cbn [fold_left]. rewrite clean_step_component by exact Hb. discriminate.
Qed.

(** The shard directory and the file name of a valid hash. *)
Lemma valid_hash_parts h :
  valid_hash h = true →
  ∃ a b,
    component a = true ∧ component b = true ∧
    component (h +:+ "." +:+ DefaultHashExtension) = true ∧
    Dir h = Some (a +:+ "/" +:+ b) ∧
    File h = Some (a +:+ "/" +:+ b +:+ "/" +:+ h +:+ "." +:+ DefaultHashExtension).
Proof.
  intros Hv. unfold valid_hash in Hv.
  apply andb_true_iff in Hv as [Hlen Hhex].
  apply Nat.eqb_eq in Hlen.
  destruct h as [|x [|y [|z r]]]; try discriminate.
  assert (Hhex' := Hhex). simpl in Hhex'.
  apply andb_true_iff in Hhex' as [Hx Hr].
  apply andb_true_iff in Hr as [Hy Hr].
  apply andb_true_iff in Hr as [Hz Hr].
  set (h := String x (String y (String z r))) in *.
  assert (component (String x "") = true) as Ca.
  { apply hex_component; [congruence|]. simpl. now rewrite Hx. }
  assert (component (String y (String z "")) = true) as Cb.
  { apply hex_component; [congruence|]. simpl. now rewrite Hy, Hz. }
  assert (component h = true) as Ch.
  { apply hex_component; [subst h; congruence | exact Hhex]. }
  assert (component (h +:+ "." +:+ DefaultHashExtension) = true) as Cn.
  { apply component_inv. repeat split; try (subst h; discriminate).
    rewrite all_chars_app. rewrite (component_no_sep _ Ch). reflexivity. }
  assert (Dir h = Some (String x "" +:+ "/" +:+ String y (String z ""))) as HDir.
  { subst h. unfold Dir, GoString.index, GoString.slice, GoString.of_byte. simpl.
    pose proof (is_hex_plain _ Hx) as (_ & _ & Hx').
    apply N.ltb_lt in Hx'. rewrite Hx', substring_0_0. reflexivity. }
  exists (String x ""), (String y (String z "")).
  repeat split; try assumption.
  unfold File. rewrite HDir.
  change (Some (Filepath.Join [String x "" +:+ "/" +:+ String y (String z ""); h]
                +:+ "." +:+ DefaultHashExtension) =
          Some (String x "" +:+ "/" +:+ String y (String z "") +:+ "/" +:+ h
                +:+ "." +:+ DefaultHashExtension)).
  change (Filepath.Join [String x "" +:+ "/" +:+ String y (String z ""); h])
    with (Filepath.Clean (GoString.join "/" [String x ""; String y (String z ""); h])).
  rewrite Clean_join_components; [|congruence|repeat constructor; assumption].
  cbn [GoString.join]. now rewrite !append_assoc.
Qed.

End StorePaths.

(** X1.  For a valid hash, whatever the root of the store and the
    namespace are, the file that [HashUpload] renames to lies directly in
    the directory that it creates before: [FullFile] is [FullDir], a
    slash, the hash, a dot and the extension; and the web path ends in the
    same way. *)
Theorem FullFile_in_FullDir (cfg : Config.t) (ns : string) (h : FileHash) :
  valid_hash h = true →
  ∃ dir shard,
    Dir h = Some shard ∧
    FullDir cfg ns h = Some dir ∧
    FullFile cfg ns h = Some (dir +:+ "/" +:+ h +:+ "." +:+ DefaultHashExtension) ∧
    WebHashPath cfg ns h =
      Some (Filepath.Join [Config.WebPath cfg; ns; shard]
            +:+ "/" +:+ h +:+ "." +:+ DefaultHashExtension).
Proof.
  intros Hv.
  destruct (valid_hash_parts h Hv) as (a & b & Ca & Cb & Cn & HDir & HFile).
  exists (Path cfg ns (a +:+ "/" +:+ b)), (a +:+ "/" +:+ b).
  unfold FullDir, FullFile, WebHashPath, Path. rewrite HDir, HFile. simpl.
  repeat split.
  - f_equal. apply Join3_push; assumption.
  - f_equal. apply Join3_push; assumption.
Qed.

Lemma FullFile_in_FullDir_witness :
  ∃ dir shard,
    Dir "900150983cd24fb0d6963f7d28e17f72" = Some shard ∧
    FullDir Run.cfg "items" "900150983cd24fb0d6963f7d28e17f72" = Some dir ∧
    FullFile Run.cfg "items" "900150983cd24fb0d6963f7d28e17f72" =
      Some (dir +:+ "/" +:+ "900150983cd24fb0d6963f7d28e17f72" +:+ "." +:+
            DefaultHashExtension) ∧
    WebHashPath Run.cfg "items" "900150983cd24fb0d6963f7d28e17f72" =
      Some (Filepath.Join [Config.WebPath Run.cfg; "items"; shard]
            +:+ "/" +:+ "900150983cd24fb0d6963f7d28e17f72" +:+ "." +:+
            DefaultHashExtension).
Proof.
  exact (FullFile_in_FullDir Run.cfg "items" "900150983cd24fb0d6963f7d28e17f72" eq_refl).
Defined.

(** ** [randSeq] *)

Section RandSeq.
Variable E : env.

Lemma letter_alnum j :
  is_alnum (default "a"%char (String.get j letters)) = true.
Proof.
  unfold letters.
  do 36 (destruct j as [|j]; [reflexivity|]). reflexivity.
Qed.

Lemma all_chars_of_list P l :
  all_chars P (String.string_of_list_ascii l) = forallb P l.
Proof. induction l as [|c l IH]; simpl; [reflexivity | now rewrite IH]. Qed.

End RandSeq.

(** X2.  [randSeq n] returns [n] characters, each a lower-case letter or
    a digit; it takes [n] draws from the random source and touches
    nothing else. *)
Theorem randSeq_alphabet (E : env) (n : nat) (w : world) :
  ∃ s w',
    randSeq E n w = (Val s, w') ∧
    String.length s = n ∧ all_chars is_alnum s = true ∧
    draws w' = (draws w + n)%nat ∧
    files w' = files w ∧ records w' = records w ∧ log w' = log w.
Proof.
  unfold randSeq. do 2 eexists. split; [reflexivity|].
  split; [|split; [|repeat split]].
  - now rewrite string_of_list_ascii_length, length_fmap, length_seq.
  - rewrite all_chars_of_list. apply forallb_forall.
    intros c Hc. apply in_map_iff in Hc as (i & <- & _). apply letter_alnum.
Qed.

(** ** The file name of a multipart upload *)

Section FileNames.

Lemma append_nil_r s : s +:+ "" = s.
Proof. induction s as [|c r IH]; [reflexivity | now rewrite append_cons, IH]. Qed.

Lemma length_append s t :
  String.length (s +:+ t) = (String.length s + String.length t)%nat.
Proof. induction s as [|c r IH]; [reflexivity | rewrite append_cons; simpl; now rewrite IH]. Qed.

Lemma substring_app_l a b : String.substring 0 (String.length a) (a +:+ b) = a.
Proof.
  induction a as [|c r IH]; [apply substring_0_0|].
  rewrite append_cons. simpl. now rewrite IH.
Qed.

Lemma substring_app_r a b :
  String.substring (String.length a) (String.length b) (a +:+ b) = b.
Proof.
  induction a as [|c r IH]; [apply substring_all|].
  rewrite append_cons. simpl. exact IH.
Qed.

Lemma trim_suffix_app pre e : GoString.trim_suffix (pre +:+ e) e = pre.
Proof.
  unfold GoString.trim_suffix, GoString.has_suffix, GoString.len.
  rewrite length_append.
  replace (String.length pre + String.length e - String.length e)%nat
    with (String.length pre) by lia.
  rewrite substring_app_r, String.eqb_refl, substring_app_l.
  replace (String.length e <=? String.length pre + String.length e)%nat with true
    by (symmetry; apply Nat.leb_le; lia).
  reflexivity.
Qed.

Lemma trim_prefix_dot x : GoString.trim_prefix (String "." x) "." = x.
Proof.
  unfold GoString.trim_prefix, GoString.has_prefix, GoString.len.
  assert (String.prefix "." (String "." x) = true) as -> by (destruct x; reflexivity).
  cbn [String.length Nat.sub String.substring]. rewrite Nat.sub_0_r.
  apply substring_all.
Qed.

Lemma no_sep_dot_plain r :
  existsb (λ d, Filepath.is_sep d || Ascii.eqb d ".") (String.list_ascii_of_string r) = false →
  all_chars plain_char r = true.
Proof.
  induction r as [|c r IH]; [reflexivity|]. simpl. intros H.
  apply orb_false_iff in H as [Hc Hr]. apply orb_false_iff in Hc as [H1 H2].
  rewrite (IH Hr). unfold plain_char. now rewrite H1, H2.
Qed.

(** [Ext] gives a suffix of the path: nothing, or a dot and characters
    that are neither dots nor slashes. *)
Lemma Ext_suffix p : ∃ pre, p = pre +:+ Filepath.Ext p.
Proof.
  induction p as [|c r [pre IH]]; [exists ""; reflexivity|]. simpl.
  destruct (existsb _ _).
  - exists (String c pre). now rewrite append_cons, <- IH.
  - destruct (Ascii.eqb c "."); [exists ""; reflexivity|].
    exists (String c r). now rewrite append_nil_r.
Qed.

Lemma Ext_shape p :
  Filepath.Ext p = "" ∨
  ∃ x, Filepath.Ext p = String "." x ∧ all_chars plain_char x = true.
Proof.
  induction p as [|c r IH]; [now left|]. simpl.
  destruct (existsb _ _) eqn:Hex; [exact IH|].
  destruct (Ascii.eqb_spec c ".") as [->|_]; [|now left].
  right. exists r. split; [reflexivity | now apply no_sep_dot_plain].
Qed.

End FileNames.

(** X3.  For a multipart upload, [uploadFile] splits the file name of the
    form into a base name and an extension without losing anything: the
    file name is the base name followed by [Ext] of the file name, which
    is empty, with an empty extension, or a dot and the extension; and
    the extension holds neither a dot nor a slash. *)
Theorem request_file_splits_filename
    (cfg : Config.t) (r : http.Request) (file : reader) (handler : http.FileHeader) :
  http.Method r = http.MethodPost →
  http.ParseMultipartForm r (Config.MaxFileSize cfg) = None →
  http.FormFile r (Config.UploadFormName cfg) = inr (file, handler) →
  ∃ ext name,
    request_file cfg r = inr (Some file, http.Size handler, ext, name) ∧
    http.Filename handler = name +:+ Filepath.Ext (http.Filename handler) ∧
    (Filepath.Ext (http.Filename handler) = "" ∧ ext = "" ∨
     Filepath.Ext (http.Filename handler) = "." +:+ ext) ∧
    all_chars plain_char ext = true.
Proof.
  intros Hm Hp Hf. unfold request_file. rewrite Hm, Hp, Hf. simpl.
  do 2 eexists. split; [reflexivity|].
  destruct (Ext_suffix (http.Filename handler)) as [pre Hpre].
  split.
  - rewrite Hpre at 2. rewrite trim_suffix_app. exact Hpre.
  - destruct (Ext_shape (http.Filename handler)) as [->|(x & -> & Hx)].
    + split; [left; split; reflexivity | reflexivity].
    + rewrite trim_prefix_dot. split; [right; reflexivity | exact Hx].
Qed.

Lemma request_file_splits_filename_witness :
  ∃ ext name,
    request_file Run.cfg (Run.post "holiday.2019.JPG" "GIF89a") =
      inr (Some {| rd_data := "GIF89a"; rd_err := None |}, 6, ext, name) ∧
    "holiday.2019.JPG" = name +:+ Filepath.Ext "holiday.2019.JPG" ∧
    (Filepath.Ext "holiday.2019.JPG" = "" ∧ ext = "" ∨
     Filepath.Ext "holiday.2019.JPG" = "." +:+ ext) ∧
    all_chars plain_char ext = true.
Proof.
  exact (request_file_splits_filename Run.cfg (Run.post "holiday.2019.JPG" "GIF89a")
           {| rd_data := "GIF89a"; rd_err := None |}
           {| http.Filename := "holiday.2019.JPG"; http.Size := 6 |}
           eq_refl eq_refl eq_refl).
Defined.

(** ** [Upload] and [Move] *)

Section PlainStore.
Variable E : env.
Variable cfg : Config.t.

Lemma insert_truncated (fs : gmap string string) name data :
  <[name := default "" (<[name := ""]> fs !! name) +:+ data]> (<[name := ""]> fs) =
  <[name := data]> fs.
Proof. rewrite lookup_insert_eq, insert_insert_eq. reflexivity. Qed.

End PlainStore.

(** A run of [Upload] in which no call but the final Close may fail. *)
Lemma Upload_run_ok
    (E : env) (cfg : Config.t) (rd : reader) (relFilename ns : string) (w : world) :
  let name := Filepath.Join [Config.Path cfg; ns; relFilename] in
  rd_err rd = None →
  fault E (CMkdirAll (Filepath.Dir name)) = None →
  fault E (CCreate name) = None →
  fault E (CCopy name (rd_data rd)) = None →
  fault E (CSync name) = None →
  ∃ w',
    Upload E cfg (Some rd) relFilename ns w = (Val None, w') ∧
    files w' = <[name := rd_data rd]> (files w) ∧
    records w' = records w ∧
    rev (log w') =
      rev (log w) ++
      [CMkdirAll (Filepath.Dir name); CCreate name; CCopy name (rd_data rd);
       CSync name; CClose name].
Proof.
  intros name Hrd Hm Hc Hw Hs.
  unfold Upload, os_MkdirAll, os_Create, io_Copy, File_Sync, File_Close, defer,
    mbind, M_bind, mret, M_ret.
  fold name.
  rewrite os_call__run, Hm. cbn [files logged with_files].
  rewrite os_call__run, Hc. cbn [files logged with_files].
  rewrite os_call__run, Hw. cbn [files logged with_files].
  rewrite Hrd.
  rewrite os_call__run, Hs. cbn [files logged with_files].
  rewrite os_call__run.
  destruct (fault E (CClose name)); cbn [files logged with_files];
    eexists; (split; [reflexivity|]); cbn [files records log logged with_files];
    (split; [apply insert_truncated|]); (split; [reflexivity|]);
    cbn [rev]; now rewrite <- !app_assoc.
Qed.

(** X4.  [Upload] of a stream that reads to its end, when creating the
    directories, creating the file, writing and syncing do not fail:
    it returns no error, the file at [root/ns/relFilename] holds exactly
    the bytes of the stream (whatever it held before) and no other file
    changes; the calls are MkdirAll of the parent directory, Create, Copy,
    Sync, Close in this order, and an error of the final Close is not
    reported. *)
Theorem Upload_stores_stream
    (E : env) (cfg : Config.t) (rd : reader) (relFilename ns : string) (w : world) :
  let name := Filepath.Join [Config.Path cfg; ns; relFilename] in
  rd_err rd = None →
  fault E (CMkdirAll (Filepath.Dir name)) = None →
  fault E (CCreate name) = None →
  fault E (CCopy name (rd_data rd)) = None →
  fault E (CSync name) = None →
  ∃ w',
    Upload E cfg (Some rd) relFilename ns w = (Val None, w') ∧
    files w' = <[name := rd_data rd]> (files w) ∧
    records w' = records w ∧
    rev (log w') =
      rev (log w) ++
      [CMkdirAll (Filepath.Dir name); CCreate name; CCopy name (rd_data rd);
       CSync name; CClose name].
Proof.
  intros name Hrd Hm Hc Hw Hs.
  exact (Upload_run_ok E cfg rd relFilename ns w Hrd Hm Hc Hw Hs).
Qed.

Lemma Upload_stores_stream_witness :
  let E := Run.env_with [(CClose "/data/vfs/items/temp0123", "close: input/output error")] in
  let w := Run.stored "/data/vfs/items/temp0123" "old bytes, longer than the new" in
  ∃ w',
    Upload E Run.cfg (Some {| rd_data := "abc"; rd_err := None |}) "temp0123" "items" w =
      (Val None, w') ∧
    files w' = <["/data/vfs/items/temp0123" := "abc"]> (files w) ∧
    records w' = records w ∧
    rev (log w') =
      rev (log w) ++
      [CMkdirAll "/data/vfs/items"; CCreate "/data/vfs/items/temp0123";
       CCopy "/data/vfs/items/temp0123" "abc"; CSync "/data/vfs/items/temp0123";
       CClose "/data/vfs/items/temp0123"].
Proof.
  intros E w.
  exact (Upload_stores_stream E Run.cfg {| rd_data := "abc"; rd_err := None |}
           "temp0123" "items" w eq_refl eq_refl eq_refl eq_refl eq_refl).
Defined.

(** X5.  [Upload] has no cleanup: when the stream fails with [e] after
    delivering some bytes, [Upload] returns [e], closes the file, and the
    bytes delivered so far stay at the destination as its content. *)
Theorem Upload_keeps_partial_file
    (E : env) (cfg : Config.t) (rd : reader) (relFilename ns : string)
    (w : world) (e : error) :
  let name := Filepath.Join [Config.Path cfg; ns; relFilename] in
  rd_err rd = Some e →
  fault E (CMkdirAll (Filepath.Dir name)) = None →
  fault E (CCreate name) = None →
  fault E (CCopy name (rd_data rd)) = None →
  ∃ w',
    Upload E cfg (Some rd) relFilename ns w = (Val (Some e), w') ∧
    files w' = <[name := rd_data rd]> (files w) ∧
    log w' = CClose name :: CCopy name (rd_data rd) :: CCreate name ::
             CMkdirAll (Filepath.Dir name) :: log w.
Proof.
  intros name Hrd Hm Hc Hw.
  unfold Upload, os_MkdirAll, os_Create, io_Copy, File_Sync, File_Close, defer,
    mbind, M_bind, mret, M_ret.
  fold name.
  rewrite os_call__run, Hm. cbn [files logged with_files].
  rewrite os_call__run, Hc. cbn [files logged with_files].
  rewrite os_call__run, Hw. cbn [files logged with_files].
  rewrite Hrd.
  rewrite os_call__run.
  destruct (fault E (CClose name)); cbn [files logged with_files];
    eexists; (split; [reflexivity|]); cbn [files records log logged with_files];
    (split; [apply insert_truncated | reflexivity]).
Qed.

Lemma Upload_keeps_partial_file_witness :
  let rd := {| rd_data := "first half"; rd_err := Some "unexpected EOF" |} in
  ∃ w',
    Upload (Run.env_with []) Run.cfg (Some rd) "temp0123" "items" Run.w0 =
      (Val (Some "unexpected EOF"), w') ∧
    files w' = <["/data/vfs/items/temp0123" := "first half"]> (files Run.w0) ∧
    log w' = CClose "/data/vfs/items/temp0123" ::
             CCopy "/data/vfs/items/temp0123" "first half" ::
             CCreate "/data/vfs/items/temp0123" ::
             CMkdirAll "/data/vfs/items" :: log Run.w0.
Proof.
  intros rd.
  exact (Upload_keeps_partial_file (Run.env_with []) Run.cfg rd "temp0123" "items"
           Run.w0 "unexpected EOF" eq_refl eq_refl eq_refl eq_refl).
Defined.

(** What a run of [Move] returns and does to the files. *)
Lemma Move_outcomes
    (E : env) (cfg : Config.t) (ns currentPath newPath : string) (w : world) :
  let cur := Path cfg ns currentPath in
  let new := Path cfg ns newPath in
  ∃ err w',
    Move E cfg ns currentPath newPath w = (Val err, w') ∧
    (err = None ↔
       fault E (CMkdirAll (Filepath.Dir new)) = None ∧
       fault E (CRename cur new) = None ∧ is_Some (files w !! cur)) ∧
    (err = None →
     ∃ c, files w !! cur = Some c ∧
          files w' = <[new := c]> (delete cur (files w)) ∧
          files w' !! new = Some c ∧ (cur ≠ new → files w' !! cur = None)) ∧
    (err ≠ None → files w' = files w) ∧
    (fault E (CMkdirAll (Filepath.Dir new)) = None →
     fault E (CRename cur new) = None →
     files w !! cur = None → err = Some ENOENT).
Proof.
  intros cur new.
  unfold Move, os_MkdirAll, os_Rename, mbind, M_bind, mret, M_ret.
  fold (Path cfg ns currentPath). fold (Path cfg ns newPath). fold cur. fold new.
  rewrite os_call__run.
  destruct (fault E (CMkdirAll (Filepath.Dir new))) as [e1|] eqn:Hm;
    cbn [files logged with_files].
  { do 2 eexists. split; [reflexivity|]. cbn [files logged].
    repeat split; try congruence; intros; try discriminate.
    destruct H as [H _]; discriminate. }
  rewrite os_call__run.
  destruct (fault E (CRename cur new)) as [e2|] eqn:Hr;
    cbn [files logged with_files].
  { do 2 eexists. split; [reflexivity|]. cbn [files logged].
    repeat split; try congruence; intros; try discriminate.
    destruct H as (_ & H & _); discriminate. }
  destruct (files w !! cur) as [c|] eqn:Hc.
  - do 2 eexists. split; [reflexivity|]. cbn [files logged with_files].
    repeat split; try congruence; eauto.
    intros _. exists c. repeat split.
    + apply lookup_insert_eq.
    + intros Hne. rewrite lookup_insert_ne by congruence. apply lookup_delete_eq.
  - do 2 eexists. split; [reflexivity|]. cbn [files logged].
    repeat split; try congruence; intros; try discriminate.
    destruct H as (_ & _ & [x Hx]); discriminate.
Qed.

(** X6.  [Move] returns no error exactly when creating the directories
    and the rename are not made to fail and the source file exists; then
    the new path holds what the source held and the source path is gone
    (unless the two are the same path), and no other file changes.  A
    call that returns an error changes no file; a missing source is the
    error "no such file or directory". *)
Theorem Move_moves_or_changes_nothing
    (E : env) (cfg : Config.t) (ns currentPath newPath : string) (w : world) :
  let cur := Path cfg ns currentPath in
  let new := Path cfg ns newPath in
  ∃ err w',
    Move E cfg ns currentPath newPath w = (Val err, w') ∧
    (err = None ↔
       fault E (CMkdirAll (Filepath.Dir new)) = None ∧
       fault E (CRename cur new) = None ∧ is_Some (files w !! cur)) ∧
    (err = None →
     ∃ c, files w !! cur = Some c ∧
          files w' = <[new := c]> (delete cur (files w)) ∧
          files w' !! new = Some c ∧ (cur ≠ new → files w' !! cur = None)) ∧
    (err ≠ None → files w' = files w) ∧
    (fault E (CMkdirAll (Filepath.Dir new)) = None →
     fault E (CRename cur new) = None →
     files w !! cur = None → err = Some ENOENT).
Proof.
  intros cur new. exact (Move_outcomes E cfg ns currentPath newPath w).
Qed.

(** ** [HashUpload] and the files *)

Section HashUploadFiles.
Variable E : env.
Variable cfg : Config.t.

Lemma os_call__files c eff w err w' :
  os_call_ E c eff w = (Val err, w') →
  records w' = records w ∧ draws w' = draws w ∧
  match err with
  | Some _ => files w' = files w
  | None => eff (files w) = inr (files w')
  end.
Proof.
  rewrite os_call__run. intros H.
  destruct (fault E c); [injection H as <- <-; auto|].
  destruct (eff (files w)) eqn:He; injection H as <- <-; auto.
Qed.

(** The statements after the [defer], on a temp file that is there: when
    they return the hash, the temp file has become the destination file
    and holds the input; otherwise the temp file is still there, and no
    other file has changed. *)
Ltac still :=
  let H := fresh in
  intros H; injection H as <- <-;
  cbn [files records logged with_files st_err failed];
  split; [reflexivity | repeat split; first [assumption | reflexivity]].

Lemma HashUpload_body_files tmp r ns w res w' :
  files w !! tmp = Some "" →
  HashUpload_body E cfg tmp r ns w = (res, w') →
  records w' = records w ∧
  match res with
  | Val st =>
      match st_err st with
      | None =>
          st_deleteTempFile st = false ∧
          ∃ rd file,
            r = Some rd ∧
            st_fh st = hex.EncodeToString (md5_sum E (rd_data rd)) ∧
            FullFile cfg ns (st_fh st) = Some file ∧
            files w' = <[file := rd_data rd]> (delete tmp (files w))
      | Some e =>
          st = failed e ∧
          is_Some (files w' !! tmp) ∧ delete tmp (files w') = delete tmp (files w)
      end
  | Panic _ =>
      is_Some (files w' !! tmp) ∧ delete tmp (files w') = delete tmp (files w)
  end.
Proof.
  intros Hempty.
  assert (is_Some (files w !! tmp)) as Hsome by (rewrite Hempty; eauto).
  unfold HashUpload_body, File_Sync, io_Copy, os_MkdirAll, os_Rename,
    mbind, M_bind, checked, panic.
  unfold mret, M_ret.
  rewrite os_call__run.
  destruct (fault E (CSync tmp)); cbn [files logged with_files]; [still|].
  destruct r as [rd|]; cbn [fmap option_fmap option_map default]; [|still].
  rewrite os_call__run.
  destruct (fault E (CCopy tmp (rd_data rd))); cbn [files logged with_files]; [still|].
  rewrite Hempty. cbn [default]. unfold id.
  remember (<[tmp := "" +:+ rd_data rd]> (files w)) as fs1 eqn:Hdef.
  assert (is_Some (fs1 !! tmp)) as Hsome1
    by (subst fs1; rewrite lookup_insert_eq; eauto).
  assert (delete tmp fs1 = delete tmp (files w)) as Hdel1
    by (subst fs1; apply delete_insert_eq).
  assert (fs1 !! tmp = Some (rd_data rd)) as Htmp
    by (subst fs1; apply lookup_insert_eq).
  clear Hdef.
  destruct (rd_err rd); [still|].
  rewrite md5_slice.
  set (fh := hex.EncodeToString (md5_sum E (rd_data rd))).
  destruct (FullDir cfg ns fh) as [dir|]; [|still].
  rewrite os_call__run.
  destruct (fault E (CMkdirAll dir)); cbn [files logged with_files]; [still|].
  destruct (FullFile cfg ns fh) as [file|] eqn:Hfile; [|still].
  rewrite os_call__run.
  destruct (fault E (CRename tmp file)); cbn [files logged with_files]; [still|].
  rewrite Htmp.
  intros H; injection H as <- <-.
  cbn [files records logged with_files st_err st_fh st_deleteTempFile].
  split; [reflexivity|]. split; [reflexivity|].
  exists rd, file. rewrite Hdel1. auto.
Qed.

End HashUploadFiles.

Section HashUploadOutcomes.
Variable E : env.
Variable cfg : Config.t.

(** Every run of [HashUpload] ends in one of two ways: the file is
    published, with the bytes of the input, and the error returned is
    that of the final Close; or nothing is returned but an error or a
    panic, and then no file has changed, provided the Close and the
    Remove of the cleanup are not made to fail. *)
Lemma HashUpload_outcomes r ns w res w' :
  HashUpload E cfg r ns w = (res, w') →
  let tmp := temp_name E (Config.Path cfg) "vfs" in
  records w' = records w ∧
  ((∃ rd file fh,
      r = Some rd ∧ fh = hex.EncodeToString (md5_sum E (rd_data rd)) ∧
      FullFile cfg ns fh = Some file ∧
      res = Val (fh, fault E (CClose tmp)) ∧
      files w' = <[file := rd_data rd]> (files w)) ∨
   (((∃ e, res = Val ("", Some e)) ∨ (∃ msg, res = Panic msg)) ∧
    (fault E (CClose tmp) = None → fault E (CRemove tmp) = None →
     files w' = files w))).
Proof.
  intros H tmp.
  unfold HashUpload in H.
  destruct (IsValidNamespace cfg ns); cbn [negb] in H;
    [|injection H as <- <-; split; [reflexivity|]; right; split; eauto].
  unfold mbind, M_bind, mret, M_ret, ioutil_TempFile, os_call in H.
  fold tmp in H.
  destruct (fault E (CTempFile (Config.Path cfg) "vfs"));
    [injection H as <- <-; split; [reflexivity|]; right; split; eauto|].
  destruct (files w !! tmp) eqn:Hfree;
    [injection H as <- <-; split; [reflexivity|]; right; split; eauto|].
  unfold defer in H.
  remember (with_files (<[tmp := ""]> (files w))
              (logged (CTempFile (Config.Path cfg) "vfs") w)) as w1 eqn:Hw1def.
  assert (files w1 !! tmp = Some "") as Hw1 by (subst w1; apply lookup_insert_eq).
  assert (delete tmp (files w1) = files w) as Hdel1.
  { subst w1. cbn [files with_files]. rewrite delete_insert_eq. now apply delete_id. }
  assert (records w1 = records w) as Hrec1 by (subst w1; reflexivity).
  clear Hw1def.
  destruct (HashUpload_body E cfg tmp r ns w1) as [bres w2] eqn:Hbody.
  apply (HashUpload_body_files E cfg _ _ _ _ _ _ Hw1) in Hbody as [Hrec Hfiles].
  rewrite Hrec1 in Hrec.
  unfold HashUpload_deferred, File_Close, os_Remove, mbind, M_bind, mret, M_ret in H.
  destruct bres as [st|msg].
  - destruct (st_err st) as [e|] eqn:Herr.
    + (* a step failed *)
      destruct Hfiles as (-> & [c Hc] & Hdel).
      cbn [st_err st_fh st_deleteTempFile failed] in H.
      rewrite os_call__run in H.
      assert (∃ w3, (res, w') = (Val ("", Some e), w3) ∧ records w3 = records w ∧
                (fault E (CRemove tmp) = None → files w3 = files w)) as (w3 & Heq & Hr3 & Hf3).
      { destruct (fault E (CClose tmp)); cbn [files logged with_files] in H;
          rewrite os_call__run in H; cbn [files logged with_files] in H;
          destruct (fault E (CRemove tmp)); rewrite ?Hc in H;
          cbn [st_err st_fh failed] in H;
          eexists; (split; [symmetry; exact H|]);
          cbn [files records logged with_files];
          (split; [exact Hrec|]); intros; try discriminate;
          now rewrite Hdel. }
      injection Heq as -> ->.
      split; [exact Hr3|]. right. split; [left; eauto | auto].
    + (* published *)
      destruct Hfiles as (Hdelf & rd & file & -> & Hfh & Hfile & Hfs).
      rewrite Hdelf in H.
      rewrite os_call__run in H. cbn [files logged with_files] in H.
      destruct (fault E (CClose tmp)); cbn [st_err st_fh] in H;
        rewrite ?Herr in H; injection H as <- <-;
        cbn [files records logged with_files];
        (split; [exact Hrec|]); left;
        exists rd, file, (st_fh st); rewrite Hfs, Hdel1; auto.
  - (* a panic *)
    destruct Hfiles as ([c Hc] & Hdel).
    cbn [st_err st_fh st_deleteTempFile snd] in H.
    rewrite os_call__run in H.
    destruct (fault E (CClose tmp)) eqn:Hcl; cbn [files logged with_files snd] in H.
    + injection H as <- <-. cbn [records logged].
      split; [exact Hrec|]. right. split; [right; eauto | discriminate].
    + rewrite os_call__run in H. cbn [files logged with_files] in H.
      destruct (fault E (CRemove tmp)) eqn:Hrm; rewrite ?Hc in H;
        cbn [snd] in H; injection H as <- <-;
        cbn [files records logged with_files];
        (split; [exact Hrec|]); right; (split; [right; eauto|]);
        intros; try discriminate.
      now rewrite Hdel.
Qed.

End HashUploadOutcomes.

(** X7.  Every call of [HashUpload] that returns without an error has
    published its input: the hash returned is the hexadecimal digest of
    the bytes read, the file at the sharded path of that hash under the
    namespace holds exactly these bytes, and every other file, the temp
    file included, is as it was before the call. *)
Theorem HashUpload_round_trip
    (E : env) (cfg : Config.t) (r : option reader) (ns : string)
    (w w' : world) (fh : FileHash) :
  HashUpload E cfg r ns w = (Val (fh, None), w') →
  ∃ rd file,
    r = Some rd ∧ fh = hex.EncodeToString (md5_sum E (rd_data rd)) ∧
    FullFile cfg ns fh = Some file ∧
    files w' !! file = Some (rd_data rd) ∧
    files w' = <[file := rd_data rd]> (files w) ∧
    records w' = records w.
Proof.
  intros H. apply HashUpload_outcomes in H as [Hrec [Hpub|[[[e He]|[msg He]] _]]];
    try discriminate.
  destruct Hpub as (rd & file & fh' & -> & -> & Hfile & Hres & Hfs).
  injection Hres as -> _.
  exists rd, file. rewrite Hfs. repeat split; auto. apply lookup_insert_eq.
Qed.

Lemma HashUpload_round_trip_witness :
  let run := HashUpload (Run.env_with []) Run.cfg (Run.stream "abc") "items"
               (Run.stored "/data/vfs/other" "kept") in
  ∃ rd file,
    Run.stream "abc" = Some rd ∧
    "61626300000000000000000000000000" =
      hex.EncodeToString (md5_sum (Run.env_with []) (rd_data rd)) ∧
    FullFile Run.cfg "items" "61626300000000000000000000000000" = Some file ∧
    files (snd run) !! file = Some (rd_data rd) ∧
    files (snd run) =
      <[file := rd_data rd]> (files (Run.stored "/data/vfs/other" "kept")) ∧
    records (snd run) = records (Run.stored "/data/vfs/other" "kept").
Proof.
  intros run.
  assert (run = (Val ("61626300000000000000000000000000", None), snd run)) as Hrun
    by (vm_compute; reflexivity).
  exact (HashUpload_round_trip (Run.env_with []) Run.cfg (Run.stream "abc") "items"
           (Run.stored "/data/vfs/other" "kept") (snd run)
           "61626300000000000000000000000000" Hrun).
Defined.

(** X8.  A call of [HashUpload] that returns an error, when the Close and
    the Remove of its cleanup are not made to fail, leaves every file as
    it was: no destination file is written and no temp file stays behind;
    the hash returned is empty. *)
Theorem HashUpload_failure_leaves_no_file
    (E : env) (cfg : Config.t) (r : option reader) (ns : string)
    (w w' : world) (fh : FileHash) (e : error) :
  let tmp := temp_name E (Config.Path cfg) "vfs" in
  fault E (CClose tmp) = None →
  fault E (CRemove tmp) = None →
  HashUpload E cfg r ns w = (Val (fh, Some e), w') →
  fh = "" ∧ files w' = files w ∧ records w' = records w.
Proof.
  intros tmp Hc Hr H.
  apply HashUpload_outcomes in H as [Hrec [Hpub|[[[e' He]|[msg He]] Hfs]]];
    try discriminate.
  - destruct Hpub as (rd & file & fh' & _ & _ & _ & Hres & _).
    fold tmp in Hres. rewrite Hc in Hres. discriminate.
  - injection He as -> _. auto.
Qed.

Lemma HashUpload_failure_leaves_no_file_witness :
  let E := Run.env_with [(CRename "/data/vfs/vfs123456"
                            "/data/vfs/items/6/16/61626300000000000000000000000000.jpg",
                          "rename: invalid cross-device link")] in
  let w := Run.stored "/data/vfs/other" "kept" in
  let run := HashUpload E Run.cfg (Run.stream "abc") "items" w in
  "" = "" ∧ files (snd run) = files w ∧ records (snd run) = records w.
Proof.
  intros E w run.
  assert (run = (Val ("", Some "rename: invalid cross-device link"), snd run)) as Hrun
    by (vm_compute; reflexivity).
  exact (HashUpload_failure_leaves_no_file E Run.cfg (Run.stream "abc") "items" w
           (snd run) "" "rename: invalid cross-device link" eq_refl eq_refl Hrun).
Defined.

(** X9.  [HashUpload] can return a hash together with an error: when it
    returns an error and a hash that is not empty, the error is that of
    the final Close, and the file has been published all the same, at the
    sharded path of the hash and with the bytes of the input. *)
Theorem HashUpload_close_error_after_publish
    (E : env) (cfg : Config.t) (r : option reader) (ns : string)
    (w w' : world) (fh : FileHash) (e : error) :
  HashUpload E cfg r ns w = (Val (fh, Some e), w') →
  fh ≠ "" →
  ∃ rd file,
    r = Some rd ∧ fh = hex.EncodeToString (md5_sum E (rd_data rd)) ∧
    fault E (CClose (temp_name E (Config.Path cfg) "vfs")) = Some e ∧
    FullFile cfg ns fh = Some file ∧
    files w' = <[file := rd_data rd]> (files w).
Proof.
  intros H Hfh.
  apply HashUpload_outcomes in H as [Hrec [Hpub|[[[e' He]|[msg He]] _]]];
    try discriminate.
  - destruct Hpub as (rd & file & fh' & -> & -> & Hfile & Hres & Hfs).
    injection Hres as -> Hcl.
    exists rd, file. repeat split; auto.
  - injection He as -> _. congruence.
Qed.

Lemma HashUpload_close_error_after_publish_witness :
  let E := Run.env_with [(CClose "/data/vfs/vfs123456", "close: input/output error")] in
  let run := HashUpload E Run.cfg (Run.stream "abc") "items" Run.w0 in
  ∃ rd file,
    Run.stream "abc" = Some rd ∧
    "61626300000000000000000000000000" = hex.EncodeToString (md5_sum E (rd_data rd)) ∧
    fault E (CClose (temp_name E (Config.Path Run.cfg) "vfs")) =
      Some "close: input/output error" ∧
    FullFile Run.cfg "items" "61626300000000000000000000000000" = Some file ∧
    files (snd run) = <[file := rd_data rd]> (files Run.w0).
Proof.
  intros E run.
  assert ("61626300000000000000000000000000" ≠ "") as Hne by discriminate.
  assert (run = (Val ("61626300000000000000000000000000",
                       Some "close: input/output error"), snd run)) as Hrun
    by (vm_compute; reflexivity).
  exact (HashUpload_close_error_after_publish E Run.cfg (Run.stream "abc") "items"
           Run.w0 (snd run) "61626300000000000000000000000000"
           "close: input/output error" Hrun Hne).
Defined.

(** ** [uploadFile] and the files *)

Section UploadFileFiles.
Variable E : env.
Variable cfg : Config.t.

(** [Upload] never touches the records; when it returns no error, the
    stream was read to its end and the destination holds its bytes. *)
Lemma Upload_outcomes r relFilename ns w res w' :
  Upload E cfg r relFilename ns w = (res, w') →
  let name := Filepath.Join [Config.Path cfg; ns; relFilename] in
  records w' = records w ∧
  (res = Val None →
   ∃ rd, r = Some rd ∧ rd_err rd = None ∧
         files w' = <[name := rd_data rd]> (files w)).
Proof.
  intros H name.
  unfold Upload, os_MkdirAll, os_Create, io_Copy, File_Sync, File_Close, defer,
    mbind, M_bind, mret, M_ret, panic in H.
  fold name in H.
  rewrite os_call__run in H.
  destruct (fault E (CMkdirAll (Filepath.Dir name))); cbn [files logged with_files] in H;
    [injection H as <- <-; split; [reflexivity | discriminate]|].
  rewrite os_call__run in H.
  destruct (fault E (CCreate name)); cbn [files logged with_files] in H;
    [injection H as <- <-; split; [reflexivity | discriminate]|].
  destruct r as [rd|].
  - rewrite os_call__run in H.
    destruct (fault E (CCopy name (rd_data rd))); cbn [files logged with_files] in H.
    + rewrite os_call__run in H.
      destruct (fault E (CClose name)); injection H as <- <-;
        (split; [reflexivity | discriminate]).
    + destruct (rd_err rd) eqn:Herr.
      * rewrite os_call__run in H.
        destruct (fault E (CClose name)); injection H as <- <-;
          (split; [reflexivity | discriminate]).
      * rewrite os_call__run in H.
        destruct (fault E (CSync name)); cbn [files logged with_files] in H;
          rewrite os_call__run in H;
          destruct (fault E (CClose name)); injection H as <- <-;
          (split; [reflexivity|]); intros Hres; try discriminate;
          exists rd; cbn [files logged with_files];
          (split; [reflexivity|]); (split; [exact Herr|]);
          apply insert_truncated.
  - cbn [snd] in H. rewrite os_call__run in H.
    destruct (fault E (CClose name)); injection H as <- <-;
      (split; [reflexivity | discriminate]).
Qed.

End UploadFileFiles.

(** What the status 200 of [uploadFile] tells. *)
Lemma uploadFile_ok_inv
    (E : env) (cfg : Config.t) (r : http.Request) (ns vfsFilename : string)
    (w w' : world) (resp : UploadResponse.t)
    (rd : option reader) (fileSize : Z) (ext name : string) :
  request_file cfg r = inr (rd, fileSize, ext, name) →
  uploadFile E cfg r ns vfsFilename w = (Val resp, w') →
  UploadResponse.Code resp = http.StatusOK →
  ∃ stream,
    rd = Some stream ∧ fileSize ≤ Config.MaxFileSize cfg ∧
    records w' = records w ∧
    (vfsFilename ≠ "" →
     files w' = <[Path cfg ns vfsFilename := rd_data stream]> (files w) ∧
     UploadResponse.Extension resp = ext ∧ UploadResponse.Name resp = name) ∧
    (vfsFilename = "" →
     ∃ file,
       UploadResponse.Hash resp = hex.EncodeToString (md5_sum E (rd_data stream)) ∧
       FullFile cfg ns (UploadResponse.Hash resp) = Some file ∧
       files w' = <[file := rd_data stream]> (files w) ∧
       WebHashPath cfg ns (UploadResponse.Hash resp) =
         Some (UploadResponse.WebPath resp)).
Proof.
  intros Hreq Hrun Hcode.
  rewrite (uploadFile_run E cfg _ _ _ _ _ _ _ Hreq) in Hrun.
  unfold uploadFile_store, mbind, M_bind, mret, M_ret, checked, panic in Hrun.
  destruct (Config.MaxFileSize cfg <? fileSize) eqn:Hsize.
  { injection Hrun as <- <-. discriminate. }
  apply Z.ltb_ge in Hsize.
  destruct (String.eqb_spec vfsFilename "") as [->|Hname]; cbn [negb] in Hrun.
  - destruct (HashUpload E cfg rd ns w) as [[[fh [e|]]|msg] w1] eqn:Hup;
      try (injection Hrun as <- <-; discriminate); try discriminate.
    apply HashUpload_outcomes in Hup as [Hrec [Hpub|[[[e He]|[msg He]] _]]];
      try discriminate.
    destruct Hpub as (stream & file & fh' & -> & Hfh & Hfile & Hres & Hfs).
    injection Hres as <- _.
    destruct (WebHashPath cfg ns fh) as [web|] eqn:Hweb; [|discriminate].
    injection Hrun as <- <-. cbn [UploadResponse.Hash UploadResponse.WebPath].
    exists stream. repeat split; auto; try congruence.
    intros _. exists file. auto.
  - destruct (Upload E cfg rd vfsFilename ns w) as [[[e|]|msg] w1] eqn:Hup;
      try (injection Hrun as <- <-; discriminate); try discriminate.
    apply Upload_outcomes in Hup as [Hrec Hfs].
    destruct (Hfs eq_refl) as (stream & -> & _ & Hfiles).
    injection Hrun as <- <-.
    exists stream. repeat split; auto; congruence.
Qed.

(** X10.  [uploadFile] answers with the status 200 only when the bytes
    have been stored.  For a plain upload the file at
    [root/ns/vfsFilename] then holds exactly the bytes of the request,
    and the response carries the extension and the base name; for a hash
    upload the file at the sharded path of the hash in the response holds
    them, the hash is their hexadecimal digest, and the web path of the
    response is the one of that hash.  The declared size was not above
    the maximum, and no record is touched. *)
Theorem uploadFile_ok_means_stored
    (E : env) (cfg : Config.t) (r : http.Request) (ns vfsFilename : string)
    (w w' : world) (resp : UploadResponse.t)
    (rd : option reader) (fileSize : Z) (ext name : string) :
  request_file cfg r = inr (rd, fileSize, ext, name) →
  uploadFile E cfg r ns vfsFilename w = (Val resp, w') →
  UploadResponse.Code resp = http.StatusOK →
  ∃ stream,
    rd = Some stream ∧ fileSize ≤ Config.MaxFileSize cfg ∧
    records w' = records w ∧
    (vfsFilename ≠ "" →
     files w' = <[Path cfg ns vfsFilename := rd_data stream]> (files w) ∧
     UploadResponse.Extension resp = ext ∧ UploadResponse.Name resp = name) ∧
    (vfsFilename = "" →
     ∃ file,
       UploadResponse.Hash resp = hex.EncodeToString (md5_sum E (rd_data stream)) ∧
       FullFile cfg ns (UploadResponse.Hash resp) = Some file ∧
       files w' = <[file := rd_data stream]> (files w) ∧
       WebHashPath cfg ns (UploadResponse.Hash resp) =
         Some (UploadResponse.WebPath resp)).
Proof.
  intros Hreq Hrun Hcode.
  exact (uploadFile_ok_inv E cfg r ns vfsFilename w w' resp rd fileSize ext name
           Hreq Hrun Hcode).
Qed.

Lemma uploadFile_ok_means_stored_witness :
  let run := uploadFile (Run.env_with []) Run.cfg (Run.post "cat.gif" "GIF89a")
               "items" "temp0123" Run.w0 in
  ∃ stream,
    Some {| rd_data := "GIF89a"; rd_err := None |} = Some stream ∧
    6 ≤ Config.MaxFileSize Run.cfg ∧
    records (snd run) = records Run.w0 ∧
    ("temp0123" ≠ "" →
     files (snd run) =
       <[Path Run.cfg "items" "temp0123" := rd_data stream]> (files Run.w0) ∧
     UploadResponse.Extension
       {| UploadResponse.Code := 200; UploadResponse.Error := "";
          UploadResponse.Hash := ""; UploadResponse.WebPath := "";
          UploadResponse.FileID := 0; UploadResponse.Extension := "gif";
          UploadResponse.Name := "cat" |} = "gif" ∧
     UploadResponse.Name
       {| UploadResponse.Code := 200; UploadResponse.Error := "";
          UploadResponse.Hash := ""; UploadResponse.WebPath := "";
          UploadResponse.FileID := 0; UploadResponse.Extension := "gif";
          UploadResponse.Name := "cat" |} = "cat") ∧
    ("temp0123" = "" →
     ∃ file,
       "" = hex.EncodeToString (md5_sum (Run.env_with []) (rd_data stream)) ∧
       FullFile Run.cfg "items" "" = Some file ∧
       files (snd run) = <[file := rd_data stream]> (files Run.w0) ∧
       WebHashPath Run.cfg "items" "" = Some "").
Proof.
  intros run.
  exact (uploadFile_ok_means_stored (Run.env_with []) Run.cfg (Run.post "cat.gif" "GIF89a")
           "items" "temp0123" Run.w0 (snd run)
           {| UploadResponse.Code := 200; UploadResponse.Error := "";
              UploadResponse.Hash := ""; UploadResponse.WebPath := "";
              UploadResponse.FileID := 0; UploadResponse.Extension := "gif";
              UploadResponse.Name := "cat" |}
           (Some {| rd_data := "GIF89a"; rd_err := None |}) 6 "gif" "cat"
           eq_refl eq_refl eq_refl).
Defined.

(** X11.  For a PUT request [uploadFile] checks the declared length only:
    when the Content-Length does not exceed the maximum and no call
    fails, the whole body is stored and the status is 200, however long
    the body is. *)
Theorem uploadFile_trusts_declared_size
    (E : env) (cfg : Config.t) (r : http.Request) (ns vfsFilename : string) (w : world) :
  let name := Path cfg ns vfsFilename in
  http.Method r = http.MethodPut →
  http.ContentLength r ≤ Config.MaxFileSize cfg →
  vfsFilename ≠ "" →
  rd_err (http.Body r) = None →
  fault E (CMkdirAll (Filepath.Dir name)) = None →
  fault E (CCreate name) = None →
  fault E (CCopy name (rd_data (http.Body r))) = None →
  fault E (CSync name) = None →
  ∃ resp w',
    uploadFile E cfg r ns vfsFilename w = (Val resp, w') ∧
    UploadResponse.Code resp = http.StatusOK ∧
    files w' = <[name := rd_data (http.Body r)]> (files w).
Proof.
  intros name Hm Hlen Hname Herr H1 H2 H3 H4.
  rewrite (uploadFile_run E cfg _ _ _ _ _ _ _ (request_file_put cfg r Hm)).
  unfold uploadFile_store, mbind, M_bind, mret, M_ret.
  assert ((Config.MaxFileSize cfg <? http.ContentLength r) = false) as ->
    by (apply Z.ltb_ge; lia).
  apply String.eqb_neq in Hname. rewrite Hname. cbn [negb].
  destruct (Upload_run_ok E cfg (http.Body r) vfsFilename ns w Herr H1 H2 H3 H4)
    as (w' & Hup & Hfs & _).
  rewrite Hup. do 2 eexists. split; [reflexivity|]. split; [reflexivity | exact Hfs].
Qed.

Lemma uploadFile_trusts_declared_size_witness :
  let body := "a body of forty bytes, which is too long" in
  let r := Run.put body 3 in
  ∃ resp w',
    uploadFile (Run.env_with []) Run.cfg r "items" "temp0123" Run.w0 = (Val resp, w') ∧
    UploadResponse.Code resp = http.StatusOK ∧
    files w' = <[Path Run.cfg "items" "temp0123" := rd_data (http.Body r)]> (files Run.w0).
Proof.
  intros body r.
  assert (http.ContentLength r ≤ Config.MaxFileSize Run.cfg) as Hlen by (vm_compute; discriminate).
  assert ("temp0123" ≠ "") as Hname by discriminate.
  exact (uploadFile_trusts_declared_size (Run.env_with []) Run.cfg r "items" "temp0123"
           Run.w0 eq_refl Hlen Hname eq_refl eq_refl eq_refl eq_refl eq_refl).
Defined.

(** X12.  A request that is neither a PUT nor a POST gives [uploadFile]
    no reader, and the copy panics on it (the maximum size not being
    negative).  A plain upload has created its file by then and leaves it
    behind, empty; a hash upload has created its temp file, and the
    deferred cleanup removes it again before the panic goes on. *)
Theorem uploadFile_without_reader_panics
    (E : env) (cfg : Config.t) (r : http.Request) (ns vfsFilename : string) (w : world) :
  http.Method r ≠ http.MethodPut →
  http.Method r ≠ http.MethodPost →
  0 ≤ Config.MaxFileSize cfg →
  (vfsFilename ≠ "" →
   let name := Path cfg ns vfsFilename in
   fault E (CMkdirAll (Filepath.Dir name)) = None →
   fault E (CCreate name) = None →
   ∃ msg w',
     uploadFile E cfg r ns vfsFilename w = (Panic msg, w') ∧
     files w' = <[name := ""]> (files w)) ∧
  (let tmp := temp_name E (Config.Path cfg) "vfs" in
   IsValidNamespace cfg ns = true →
   fault E (CTempFile (Config.Path cfg) "vfs") = None →
   files w !! tmp = None →
   fault E (CSync tmp) = None →
   fault E (CClose tmp) = None →
   fault E (CRemove tmp) = None →
   ∃ msg w',
     uploadFile E cfg r ns "" w = (Panic msg, w') ∧ files w' = files w).
Proof.
  intros Hput Hpost Hmax.
  assert (request_file cfg r = inr (None, 0, "", "")) as Hreq.
  { unfold request_file. apply String.eqb_neq in Hput, Hpost.
    now rewrite Hput, Hpost. }
  rewrite !(uploadFile_run E cfg _ _ _ _ _ _ _ Hreq).
  unfold uploadFile_store.
  assert ((Config.MaxFileSize cfg <? 0) = false) as -> by (apply Z.ltb_ge; lia).
  split.
  - intros Hname Hm Hc. set (name := Path cfg ns vfsFilename) in *.
    apply String.eqb_neq in Hname. rewrite Hname. cbn [negb].
    unfold Upload, os_MkdirAll, os_Create, io_Copy, File_Close, defer,
      mbind, M_bind, mret, M_ret, panic.
    fold (Path cfg ns vfsFilename). fold name.
    rewrite os_call__run, Hm. cbn [files logged with_files].
    rewrite os_call__run, Hc. cbn [files logged with_files snd].
    rewrite os_call__run.
    destruct (fault E (CClose name)); cbn [files logged with_files];
      do 2 eexists; split; reflexivity.
  - intros Hv Htf Hfree Hs Hcl Hrm.
    set (tmp := temp_name E (Config.Path cfg) "vfs") in *.
    cbn [String.eqb negb].
    destruct (HashUpload E cfg None ns w) as [res w1] eqn:Hup.
    assert (∃ msg, res = Panic msg) as [msg ->].
    { revert Hup. rewrite (HashUpload_valid _ _ _ _ _ Hv).
      unfold ioutil_TempFile, os_call. fold tmp. rewrite Htf, Hfree.
      unfold defer, HashUpload_body, File_Sync, io_Copy, mbind, M_bind, mret, M_ret, panic.
      rewrite os_call__run, Hs.
      intros H; injection H as <- _. eauto. }
    pose proof (HashUpload_outcomes _ _ _ _ _ _ _ Hup) as [_ [Hpub|[_ Hfs]]].
    + destruct Hpub as (rd & _ & _ & Hr & _). discriminate.
    + unfold mbind, M_bind. rewrite Hup.
      exists msg, w1. split; [reflexivity | exact (Hfs Hcl Hrm)].
Qed.

Lemma uploadFile_without_reader_panics_witness :
  let E := Run.env_with [] in
  ("temp0123" ≠ "" →
   let name := Path Run.cfg "items" "temp0123" in
   fault E (CMkdirAll (Filepath.Dir name)) = None →
   fault E (CCreate name) = None →
   ∃ msg w',
     uploadFile E Run.cfg RunServer.get "items" "temp0123" Run.w0 = (Panic msg, w') ∧
     files w' = <[name := ""]> (files Run.w0)) ∧
  (let tmp := temp_name E (Config.Path Run.cfg) "vfs" in
   IsValidNamespace Run.cfg "items" = true →
   fault E (CTempFile (Config.Path Run.cfg) "vfs") = None →
   files Run.w0 !! tmp = None →
   fault E (CSync tmp) = None →
   fault E (CClose tmp) = None →
   fault E (CRemove tmp) = None →
   ∃ msg w',
     uploadFile E Run.cfg RunServer.get "items" "" Run.w0 = (Panic msg, w') ∧
     files w' = files Run.w0).
Proof.
  intros E.
  assert (http.Method RunServer.get ≠ http.MethodPut) as H1 by discriminate.
  assert (http.Method RunServer.get ≠ http.MethodPost) as H2 by discriminate.
  assert (0 ≤ Config.MaxFileSize Run.cfg) as H3 by (vm_compute; discriminate).
  exact (uploadFile_without_reader_panics E Run.cfg RunServer.get "items" "temp0123"
           Run.w0 H1 H2 H3).
Defined.

(** ** [createFile] and the records *)

Section CreateFileOutcomes.
Variable E : env.
Variable cfg : Config.t.

(** The metadata block returns on every file, there or not, and changes
    neither the files nor the records. *)
Lemma extract_total name w :
  ∃ md w' calls,
    extract E name w = (Val md, w') ∧
    files w' = files w ∧ records w' = records w ∧ log w' = calls ++ log w.
Proof.
  destruct (files w !! name) as [c|] eqn:Hc.
  - destruct (extract_run E name w c Hc) as (md & w' & calls & H & Hf & Hr & _ & Hl & _).
    exists md, w', calls. auto.
  - unfold extract, os_Open, os_call_, os_call, mbind, M_bind, mret, M_ret.
    cbn [files logged]. rewrite Hc.
    destruct (fault E (COpen name)); cbn [snd];
      do 2 eexists; exists [COpen name]; repeat split.
Qed.

(** The salt of the file name. *)
Lemma salt_run w :
  ∃ salt w',
    (if Config.SaltedFilenames cfg
     then s ← randSeq E 8; mret ("_" +:+ s)
     else mret "") w = (Val salt, w') ∧
    salt_of cfg salt ∧ files w' = files w ∧ records w' = records w ∧ log w' = log w.
Proof.
  unfold salt_of. destruct (Config.SaltedFilenames cfg).
  - destruct (randSeq_run E 8 w) as (s & w' & Hs & Hlen & Hf & Hrec & Hl).
    exists ("_" +:+ s), w'. unfold mbind, M_bind, mret, M_ret. rewrite Hs.
    repeat split; eauto.
  - do 2 eexists. repeat split.
Qed.

(** Every run of [createFile] returns.  With an error, the identifier
    returned is zero and no record is kept; when the error is that of
    the allocation of the identifier, no file has changed.  Without an
    error, the repository has answered with a record, whose identifier
    is returned and which is kept; the record handed to it carries the
    allocated identifier and the final path, and the file that was under
    the temp name is under that path. *)
Lemma createFile_outcomes repo folder ns rel name ext w res w' :
  createFile E cfg repo folder ns rel name ext w = (res, w') →
  ∃ rid err,
    res = Val (rid, err) ∧
    match err with
    | Some e =>
        rid = 0 ∧ records w' = records w ∧
        (files w' = files w ∨
         ∃ vfsFile c,
           db.AddVfsFile repo vfsFile = inl e ∧
           files w !! Path cfg ns rel = Some c ∧
           files w' = <[Path cfg ns (db.VfsFile.Path vfsFile) := c]>
                        (delete (Path cfg ns rel) (files w)))
    | None =>
        ∃ id vfsFile vf c,
          db.NextFileID repo = inr id ∧
          db.AddVfsFile repo vfsFile = inr vf ∧
          rid = db.VfsFile.ID vf ∧
          records w' = vf :: records w ∧
          db.VfsFile.ID vfsFile = id ∧
          db.VfsFile.FolderID vfsFile = db.VfsFolder.ID folder ∧
          files w !! Path cfg ns rel = Some c ∧
          files w' = <[Path cfg ns (db.VfsFile.Path vfsFile) := c]>
                       (delete (Path cfg ns rel) (files w)) ∧
          ∃ before, log w' = CAddVfsFile vfsFile ::
                             CRename (Path cfg ns rel)
                               (Path cfg ns (db.VfsFile.Path vfsFile)) :: before
    end.
Proof.
  intros H. unfold createFile in H.
  destruct (extract_total (Path cfg ns rel) w) as (md & wa & calls & Hex & Hfa & Hra & Hla).
  unfold mbind at 1 in H. unfold M_bind at 1 in H. rewrite Hex in H.
  unfold mbind at 1 in H. unfold M_bind at 1 in H.
  unfold repo_NextFileID at 1 in H.
  destruct (db.NextFileID repo) as [e|id] eqn:Hid.
  { injection H as <- <-. exists 0, (Some e). cbn [records files logged].
    repeat split; auto. }
  destruct (salt_run (logged CNextFileID wa)) as (salt & wb & Hsalt & _ & Hfb & Hrb & Hlb).
  unfold mbind at 1 in H. unfold M_bind at 1 in H. rewrite Hsalt in H.
  cbn [files records logged] in Hfb, Hrb.
  set (final := Filepath.Join
                  [year_month E;
                   fmt_d (db.VfsFolder.ID folder) +:+ "_" +:+ fmt_d id +:+ salt
                   +:+ "." +:+ ext]) in *.
  destruct (Move_outcomes E cfg ns rel final wb)
    as (err & wc & Hmove & _ & Hok & Hfail & _).
  unfold mbind at 1 in H. unfold M_bind at 1 in H. rewrite Hmove in H.
  assert (records wc = records w ∧
          (err = None → ∃ before,
             log wc = CRename (Path cfg ns rel) (Path cfg ns final) :: before))
    as [Hrc Hlc].
  { rewrite <- Hra, <- Hrb.
    revert Hmove. unfold Move, os_MkdirAll, os_Rename, mbind, M_bind, mret, M_ret.
    fold (Path cfg ns rel). fold (Path cfg ns final).
    intros Hm.
    repeat case_match; simplify_eq;
      repeat match goal with
             | Hc : os_call_ _ (CRename _ _) _ _ = _ |- _ =>
                 pose proof (os_call__log _ _ _ _ _ _ Hc);
                 apply os_call__files in Hc as (? & _ & _)
             | Hc : os_call_ _ _ _ _ = _ |- _ =>
                 apply os_call__files in Hc as (? & _ & _)
             end; (split; [congruence|]); intros; try discriminate; eauto. }
  destruct err as [e|].
  { injection H as <- <-. exists 0, (Some e).
    repeat split; auto. left. rewrite (Hfail ltac:(discriminate)). congruence. }
  destruct (Hok eq_refl) as (c & Hc & Hfc & _).
  destruct (Hlc eq_refl) as [before Hlog].
  rewrite Hfb, Hfa in Hc, Hfc.
  unfold mbind at 1 in H. unfold M_bind at 1 in H.
  unfold repo_AddVfsFile in H.
  match type of H with
  | context [db.AddVfsFile repo ?f] => set (vfsFile := f) in *
  end.
  destruct (db.AddVfsFile repo vfsFile) as [e|vf] eqn:Hadd.
  { injection H as <- <-. exists 0, (Some e). cbn [records files logged].
    repeat split; auto. right. exists vfsFile, c. auto. }
  injection H as <- <-. exists (db.VfsFile.ID vf), None.
  split; [reflexivity|].
  exists id, vfsFile, vf, c. cbn [records files log logged with_record].
  repeat split; auto; try congruence.
  exists before. now rewrite Hlog.
Qed.

End CreateFileOutcomes.

(** X13.  [createFile] keeps a record only of a file that is in place:
    when it returns without an error, the identifier was allocated, the
    file that was under the temp name is under the path written in the
    record (and was renamed before the record was handed over), the
    record handed to the repository carries the allocated identifier and
    the folder, the repository's record is kept, and the identifier
    returned is the one of the repository's record. *)
Theorem createFile_success_means_recorded
    (E : env) (cfg : Config.t) (repo : db.VfsRepo) (folder : db.VfsFolder.t)
    (ns rel name ext : string) (w w' : world) (rid : Z) :
  createFile E cfg repo folder ns rel name ext w = (Val (rid, None), w') →
  ∃ id vfsFile vf c before,
    db.NextFileID repo = inr id ∧
    db.VfsFile.ID vfsFile = id ∧
    db.VfsFile.FolderID vfsFile = db.VfsFolder.ID folder ∧
    db.AddVfsFile repo vfsFile = inr vf ∧
    rid = db.VfsFile.ID vf ∧
    records w' = vf :: records w ∧
    files w !! Path cfg ns rel = Some c ∧
    files w' !! Path cfg ns (db.VfsFile.Path vfsFile) = Some c ∧
    log w' = CAddVfsFile vfsFile ::
             CRename (Path cfg ns rel) (Path cfg ns (db.VfsFile.Path vfsFile)) :: before.
Proof.
  intros H. apply createFile_outcomes in H as (rid' & err & Hres & Hout).
  injection Hres as <- <-.
  destruct Hout as (id & vfsFile & vf & c & Hid & Hadd & Hrid & Hrec & Hvid & Hfid & Hc
                    & Hfs & before & Hlog).
  exists id, vfsFile, vf, c, before. repeat split; auto.
  rewrite Hfs. apply lookup_insert_eq.
Qed.

Lemma createFile_success_means_recorded_witness :
  let run := createFile (Run.env_with []) Run.cfg Run.repo_ok {| db.VfsFolder.ID := 1 |}
               "items" "temp0123" "cat" "gif"
               (Run.stored "/data/vfs/items/temp0123" "GIF89a") in
  ∃ id vfsFile vf c before,
    db.NextFileID Run.repo_ok = inr id ∧
    db.VfsFile.ID vfsFile = id ∧
    db.VfsFile.FolderID vfsFile = 1 ∧
    db.AddVfsFile Run.repo_ok vfsFile = inr vf ∧
    9 = db.VfsFile.ID vf ∧
    records (snd run) = vf :: records (Run.stored "/data/vfs/items/temp0123" "GIF89a") ∧
    files (Run.stored "/data/vfs/items/temp0123" "GIF89a")
      !! Path Run.cfg "items" "temp0123" = Some c ∧
    files (snd run) !! Path Run.cfg "items" (db.VfsFile.Path vfsFile) = Some c ∧
    log (snd run) =
      CAddVfsFile vfsFile ::
      CRename (Path Run.cfg "items" "temp0123")
              (Path Run.cfg "items" (db.VfsFile.Path vfsFile)) :: before.
Proof.
  intros run.
  assert (run = (Val (9, None), snd run)) as Hrun by (vm_compute; reflexivity).
  exact (createFile_success_means_recorded (Run.env_with []) Run.cfg Run.repo_ok
           {| db.VfsFolder.ID := 1 |} "items" "temp0123" "cat" "gif"
           (Run.stored "/data/vfs/items/temp0123" "GIF89a") (snd run) 9 Hrun).
Defined.

(** X14.  [createFile] always returns (it never panics).  When it returns
    an error the identifier is zero and no record is kept.  It has no
    cleanup: when the allocation of the identifier fails, that error is
    returned and every file is as it was, so the uploaded file stays
    under its temporary name. *)
Theorem createFile_error_keeps_no_record
    (E : env) (cfg : Config.t) (repo : db.VfsRepo) (folder : db.VfsFolder.t)
    (ns rel name ext : string) (w : world) :
  ∃ rid err w',
    createFile E cfg repo folder ns rel name ext w = (Val (rid, err), w') ∧
    (err ≠ None → rid = 0 ∧ records w' = records w) ∧
    (∀ e, db.NextFileID repo = inl e → err = Some e ∧ files w' = files w).
Proof.
  destruct (createFile E cfg repo folder ns rel name ext w) as [res w'] eqn:H.
  pose proof (createFile_outcomes E cfg _ _ _ _ _ _ _ _ _ H) as (rid & err & -> & Hout).
  exists rid, err, w'. split; [reflexivity|]. split.
  - intros Herr. destruct err as [e|]; [|congruence].
    destruct Hout as (Hrid & Hrec & _). auto.
  - intros e Hid. revert H. unfold createFile.
    destruct (extract_total E (Path cfg ns rel) w) as (md & wa & calls & Hex & Hfa & Hra & Hla).
    unfold mbind at 1. unfold M_bind at 1. rewrite Hex.
    unfold mbind at 1. unfold M_bind at 1. unfold repo_NextFileID at 1. rewrite Hid.
    intros Heq. injection Heq as _ <- <-. cbn [files logged].
    split; [reflexivity | exact Hfa].
Qed.

(** ** The handlers *)

Section HandlerRuns.
Variable E : env.
Variable L : lib.
Variable cfg : Config.t.

(** The status sent is the one of the first [WriteHeader]: for a writer
    to which nothing was written yet, the status is the code of the
    response, whether marshalling and writing the body fail or not. *)
Lemma respond_status rw ur :
  rw_status rw = None →
  rw_status (respond L rw ur) = Some (UploadResponse.Code ur).
Proof.
  intros Hfresh.
  unfold respond, writeHashUploadResponse, http_Error, Write, WriteHeader.
  rewrite Hfresh. cbn [rw_status rw_body rw_write_error].
  destruct (json_Marshal L ur) as [e|body]; cbn [rw_status rw_body rw_write_error fst].
  - destruct (rw_write_error rw _); reflexivity.
  - destruct (rw_write_error rw body); cbn [rw_status rw_body rw_write_error fst];
      [|reflexivity].
    destruct (rw_write_error rw _); reflexivity.
Qed.

Lemma http_Error_status rw msg code :
  rw_status rw = None → rw_status (http_Error rw msg code) = Some code.
Proof.
  intros Hfresh. unfold http_Error, Write, WriteHeader.
  rewrite Hfresh. cbn [rw_status rw_body rw_write_error].
  destruct (rw_write_error rw _); reflexivity.
Qed.

(** A request that [uploadFile] answers before looking for a place to
    store is not answered with 200, and nothing happens. *)
Lemma request_file_refused r resp :
  request_file cfg r = inl resp →
  UploadResponse.Code resp ≠ http.StatusOK ∧
  ∀ ns vfsFilename w, uploadFile E cfg r ns vfsFilename w = (Val resp, w).
Proof.
  intros H. split.
  - unfold request_file in H.
    repeat case_match; simplify_eq; discriminate.
  - intros ns f w. unfold uploadFile. rewrite H. reflexivity.
Qed.

(** [uploadFile] never touches the records. *)
Lemma uploadFile_records r ns vfsFilename w res w' :
  uploadFile E cfg r ns vfsFilename w = (res, w') → records w' = records w.
Proof.
  unfold uploadFile.
  destruct (request_file cfg r) as [resp|[[[rd size] ext] name]];
    [intros H; injection H as <- <-; reflexivity|].
  unfold uploadFile_store, mbind, M_bind, mret, M_ret, checked, panic.
  destruct (Config.MaxFileSize cfg <? size);
    [intros H; injection H as <- <-; reflexivity|].
  destruct (negb (String.eqb vfsFilename "")).
  - destruct (Upload E cfg rd vfsFilename ns w) as [ures w1] eqn:Hup.
    apply Upload_outcomes in Hup as [Hrec _].
    intros H. repeat case_match; simplify_eq; exact Hrec.
  - destruct (HashUpload E cfg rd ns w) as [ures w1] eqn:Hup.
    apply HashUpload_outcomes in Hup as [Hrec _].
    intros H. repeat case_match; unfold mret, M_ret in *; simplify_eq; exact Hrec.
Qed.

End HandlerRuns.

(** X15.  [UploadHandler] does nothing without a folder.  When the form
    value [folderId] is not a number the answer has the status 400, and
    when the repository fails to look the folder up, or has no such
    folder, the status 500; in all three cases the world is left as it
    was: nothing is stored, no random name is drawn and no record is
    kept. *)
Theorem UploadHandler_needs_folder
    (E : env) (L : lib) (cfg : Config.t) (repo : db.VfsRepo)
    (rw : ResponseWriter) (r : http.Request) (w : world) :
  rw_status rw = None →
  (∀ e, strconv_Atoi L (http.FormValue r "folderId") = inl e →
        ∃ rw', UploadHandler E L cfg repo rw r w = (Val rw', w) ∧
               rw_status rw' = Some http.StatusBadRequest) ∧
  (∀ id, strconv_Atoi L (http.FormValue r "folderId") = inr id →
         (db.VfsFolderByID repo id = inr None ∨
          ∃ e, db.VfsFolderByID repo id = inl e) →
         ∃ rw', UploadHandler E L cfg repo rw r w = (Val rw', w) ∧
                rw_status rw' = Some http.StatusInternalServerError).
Proof.
  intros Hfresh. split.
  - intros e He. unfold UploadHandler. rewrite He.
    eexists. split; [reflexivity|]. now apply http_Error_status.
  - intros id Hid Hno. unfold UploadHandler. rewrite Hid.
    destruct Hno as [->|[e ->]];
      (eexists; split; [reflexivity|]; now apply http_Error_status).
Qed.

Lemma UploadHandler_needs_folder_witness :
  (∀ e, strconv_Atoi RunServer.L
          (http.FormValue (RunServer.put_in "items" "seven" "abc") "folderId") = inl e →
        ∃ rw', UploadHandler (Run.env_with []) RunServer.L Run.cfg RunServer.repo
                 RunServer.fresh (RunServer.put_in "items" "seven" "abc") Run.w0 =
                 (Val rw', Run.w0) ∧
               rw_status rw' = Some http.StatusBadRequest) ∧
  (∀ id, strconv_Atoi RunServer.L
           (http.FormValue (RunServer.put_in "items" "seven" "abc") "folderId") = inr id →
         (db.VfsFolderByID RunServer.repo id = inr None ∨
          ∃ e, db.VfsFolderByID RunServer.repo id = inl e) →
         ∃ rw', UploadHandler (Run.env_with []) RunServer.L Run.cfg RunServer.repo
                  RunServer.fresh (RunServer.put_in "items" "seven" "abc") Run.w0 =
                  (Val rw', Run.w0) ∧
                rw_status rw' = Some http.StatusInternalServerError).
Proof.
  exact (UploadHandler_needs_folder (Run.env_with []) RunServer.L Run.cfg RunServer.repo
           RunServer.fresh (RunServer.put_in "items" "seven" "abc") Run.w0 eq_refl).
Defined.

(** X16.  [UploadHandler] answers with the status 200 exactly when a
    record has been kept.  With the status 200 the folder was found, the
    request carried a stream, the file at the path written in the record
    (under the namespace of the form value [ns]) holds the bytes of that
    stream, the record belongs to the folder, and the repository's record
    is kept; with any other status the records are as they were. *)
Theorem UploadHandler_ok_means_recorded
    (E : env) (L : lib) (cfg : Config.t) (repo : db.VfsRepo)
    (rw rw' : ResponseWriter) (r : http.Request) (w w' : world) :
  rw_status rw = None →
  UploadHandler E L cfg repo rw r w = (Val rw', w') →
  let ns := http.FormValue r "ns" in
  ∃ code,
    rw_status rw' = Some code ∧
    (code ≠ http.StatusOK → records w' = records w) ∧
    (code = http.StatusOK →
     ∃ id fl stream size ext name vfsFile vf,
       strconv_Atoi L (http.FormValue r "folderId") = inr id ∧
       db.VfsFolderByID repo id = inr (Some fl) ∧
       request_file cfg r = inr (Some stream, size, ext, name) ∧
       db.VfsFile.FolderID vfsFile = db.VfsFolder.ID fl ∧
       db.AddVfsFile repo vfsFile = inr vf ∧
       records w' = vf :: records w ∧
       files w' !! Path cfg ns (db.VfsFile.Path vfsFile) = Some (rd_data stream)).
Proof.
  intros Hfresh H ns. unfold UploadHandler in H. fold ns in H.
  destruct (strconv_Atoi L (http.FormValue r "folderId")) as [e|id] eqn:Hid.
  { injection H as <- <-. exists http.StatusBadRequest.
    split; [now apply http_Error_status|]. split; [reflexivity | discriminate]. }
  destruct (db.VfsFolderByID repo id) as [e|[fl|]] eqn:Hfl.
  { injection H as <- <-. exists http.StatusInternalServerError.
    split; [now apply http_Error_status|]. split; [reflexivity | discriminate]. }
  2:{ injection H as <- <-. exists http.StatusInternalServerError.
      split; [now apply http_Error_status|]. split; [reflexivity | discriminate]. }
  destruct (randSeq_run E 16 w) as (s & w1 & Hs & _ & Hf1 & Hr1 & _).
  unfold mbind at 1 in H. unfold M_bind at 1 in H. rewrite Hs in H.
  set (tempFile := "temp" +:+ s) in *.
  unfold mbind at 1 in H. unfold M_bind at 1 in H.
  destruct (uploadFile E cfg r ns tempFile w1) as [[ur|msg] w2] eqn:Hup; [|discriminate].
  pose proof (uploadFile_records E cfg _ _ _ _ _ _ Hup) as Hr2.
  unfold mbind at 1 in H. unfold M_bind at 1 in H.
  destruct (UploadResponse.Code ur =? http.StatusOK) eqn:Hcode.
  - apply Z.eqb_eq in Hcode.
    unfold mbind at 1 in H. unfold M_bind at 1 in H.
    destruct (createFile E cfg repo fl ns tempFile
                (UploadResponse.Name ur) (UploadResponse.Extension ur) w2)
      as [cres w3] eqn:Hcf.
    apply createFile_outcomes in Hcf as (rid & err & -> & Hout).
    destruct err as [e|].
    + destruct Hout as (_ & Hr3 & _).
      unfold mret, M_ret in H. injection H as <- <-.
      exists http.StatusInternalServerError.
      split; [now apply respond_status|].
      split; [intros _; congruence | discriminate].
    + destruct Hout as (id' & vfsFile & vf & c & _ & Hadd & _ & Hr3 & _ & Hfid & Hc & Hfs & _).
      unfold mret, M_ret in H. injection H as <- <-.
      exists http.StatusOK.
      split; [rewrite respond_status by exact Hfresh; cbn; now rewrite Hcode|].
      split; [congruence|]. intros _.
      destruct (request_file cfg r) as [resp|[[[rd size] ext] name]] eqn:Hreq.
      { destruct (request_file_refused E cfg r resp Hreq) as [Hne Hrun].
        rewrite Hrun in Hup. injection Hup as <- _. congruence. }
      assert (tempFile ≠ "") as Htemp by (subst tempFile; discriminate).
      destruct (uploadFile_ok_inv E cfg r ns tempFile w1 w2 ur rd size ext name
                  Hreq Hup Hcode) as (stream & -> & _ & _ & Hplain & _).
      destruct (Hplain Htemp) as (Hfs2 & _).
      exists id, fl, stream, size, ext, name, vfsFile, vf.
      rewrite Hfs2, lookup_insert_eq in Hc. injection Hc as <-.
      repeat split; auto; try congruence.
      rewrite Hfs. apply lookup_insert_eq.
  - apply Z.eqb_neq in Hcode.
    unfold mret, M_ret in H. injection H as <- <-.
    exists (UploadResponse.Code ur).
    split; [now apply respond_status|].
    split; [intros _; congruence | congruence].
Qed.

Lemma UploadHandler_ok_means_recorded_witness :
  let r := RunServer.put_in "items" "1" "GIF89a" in
  let run := UploadHandler (Run.env_with []) RunServer.L Run.cfg RunServer.repo
               RunServer.fresh r Run.w0 in
  let rw' := match fst run with Val x => x | Panic _ => RunServer.fresh end in
  let ns := http.FormValue r "ns" in
  ∃ code,
    rw_status rw' = Some code ∧
    (code ≠ http.StatusOK → records (snd run) = records Run.w0) ∧
    (code = http.StatusOK →
     ∃ id fl stream size ext name vfsFile vf,
       strconv_Atoi RunServer.L (http.FormValue r "folderId") = inr id ∧
       db.VfsFolderByID RunServer.repo id = inr (Some fl) ∧
       request_file Run.cfg r = inr (Some stream, size, ext, name) ∧
       db.VfsFile.FolderID vfsFile = db.VfsFolder.ID fl ∧
       db.AddVfsFile RunServer.repo vfsFile = inr vf ∧
       records (snd run) = vf :: records Run.w0 ∧
       files (snd run) !! Path Run.cfg ns (db.VfsFile.Path vfsFile) =
         Some (rd_data stream)).
Proof.
  intros r run rw' ns.
  assert (run = (Val rw', snd run)) as Hrun by (vm_compute; reflexivity).
  exact (UploadHandler_ok_means_recorded (Run.env_with []) RunServer.L Run.cfg
           RunServer.repo RunServer.fresh rw' r Run.w0 (snd run) eq_refl Hrun).
Defined.

(** X17.  [HashUploadHandler] sends the status that [uploadFile] gives
    for the namespace of the form value [ns], whether writing the body
    fails or not, and touches no record; with the status 200 the request
    carried a stream, and the file at the sharded path of the digest of
    its bytes holds these bytes. *)
Theorem HashUploadHandler_ok_means_published
    (E : env) (L : lib) (cfg : Config.t)
    (rw rw' : ResponseWriter) (r : http.Request) (w w' : world) :
  rw_status rw = None →
  HashUploadHandler E L cfg rw r w = (Val rw', w') →
  let ns := http.FormValue r "ns" in
  ∃ resp,
    uploadFile E cfg r ns "" w = (Val resp, w') ∧
    rw_status rw' = Some (UploadResponse.Code resp) ∧
    records w' = records w ∧
    (UploadResponse.Code resp = http.StatusOK →
     ∃ stream size ext name file,
       request_file cfg r = inr (Some stream, size, ext, name) ∧
       UploadResponse.Hash resp = hex.EncodeToString (md5_sum E (rd_data stream)) ∧
       FullFile cfg ns (UploadResponse.Hash resp) = Some file ∧
       files w' = <[file := rd_data stream]> (files w)).
Proof.
  intros Hfresh H ns. unfold HashUploadHandler in H. fold ns in H.
  unfold mbind, M_bind, mret, M_ret in H.
  destruct (uploadFile E cfg r ns "" w) as [[resp|msg] w1] eqn:Hup; [|discriminate].
  injection H as <- <-. exists resp.
  split; [reflexivity|]. split; [now apply respond_status|].
  split; [exact (uploadFile_records E cfg _ _ _ _ _ _ Hup)|].
  intros Hcode.
  destruct (request_file cfg r) as [resp'|[[[rd size] ext] name]] eqn:Hreq.
  { destruct (request_file_refused E cfg r resp' Hreq) as [Hne Hrun].
    rewrite Hrun in Hup. injection Hup as <- _. congruence. }
  destruct (uploadFile_ok_inv E cfg r ns "" w w1 resp rd size ext name
              Hreq Hup Hcode) as (stream & -> & _ & _ & _ & Hhash).
  destruct (Hhash eq_refl) as (file & Hh & Hfile & Hfs & _).
  exists stream, size, ext, name, file. auto.
Qed.

Lemma HashUploadHandler_ok_means_published_witness :
  let r := RunServer.put_in "items" "" "abc" in
  let run := HashUploadHandler (Run.env_with []) RunServer.L Run.cfg RunServer.broken
               r Run.w0 in
  let rw' := match fst run with Val x => x | Panic _ => RunServer.fresh end in
  let ns := http.FormValue r "ns" in
  ∃ resp,
    uploadFile (Run.env_with []) Run.cfg r ns "" Run.w0 = (Val resp, snd run) ∧
    rw_status rw' = Some (UploadResponse.Code resp) ∧
    records (snd run) = records Run.w0 ∧
    (UploadResponse.Code resp = http.StatusOK →
     ∃ stream size ext name file,
       request_file Run.cfg r = inr (Some stream, size, ext, name) ∧
       UploadResponse.Hash resp =
         hex.EncodeToString (md5_sum (Run.env_with []) (rd_data stream)) ∧
       FullFile Run.cfg ns (UploadResponse.Hash resp) = Some file ∧
       files (snd run) = <[file := rd_data stream]> (files Run.w0)).
Proof.
  intros r run rw' ns.
  assert (run = (Val rw', snd run)) as Hrun by (vm_compute; reflexivity).
  exact (HashUploadHandler_ok_means_published (Run.env_with []) RunServer.L Run.cfg
           RunServer.broken rw' r Run.w0 (snd run) eq_refl Hrun).
Defined.

(** ** [New] *)

(** X18.  [New] refuses a configuration only when the status query of
    the root says that it does not exist: then it returns the zero store
    and that error.  Any other error of the query is ignored.  The store
    returned has the configuration given, except that an empty form field
    name has become "file", so the name is never empty; no file is
    touched. *)
Theorem New_checks_root_and_form_name
    (E : env) (L : lib) (cfg : Config.t) (w : world) :
  ∃ v err w',
    New E L cfg w = (Val (v, err), w') ∧
    files w' = files w ∧ records w' = records w ∧
    (err ≠ None ↔
       ∃ e, fault E (CStat (Config.Path cfg)) = Some e ∧ os_IsNotExist L e = true) ∧
    (∀ e, err = Some e →
          fault E (CStat (Config.Path cfg)) = Some e ∧ v = zero_config) ∧
    (err = None →
     Config.UploadFormName v ≠ "" ∧
     Config.UploadFormName v =
       (if String.eqb (Config.UploadFormName cfg) "" then "file"
        else Config.UploadFormName cfg) ∧
     Config.Path v = Config.Path cfg ∧
     Config.WebPath v = Config.WebPath cfg ∧
     Config.MaxFileSize v = Config.MaxFileSize cfg ∧
     Config.Namespaces v = Config.Namespaces cfg ∧
     Config.SaltedFilenames v = Config.SaltedFilenames cfg).
Proof.
  unfold New, mbind, M_bind, mret, M_ret. rewrite os_call__run.
  destruct (fault E (CStat (Config.Path cfg))) as [e|] eqn:Hst;
    cbn [files logged with_files];
    [destruct (os_IsNotExist L e) eqn:Hne|];
    do 3 eexists; (split; [reflexivity|]); cbn [files records logged with_files];
    repeat split; try congruence; try discriminate; eauto;
    try (intros [e' [He' Hx]]; congruence);
    try (intros e' He'; congruence);
    try (destruct (String.eqb_spec (Config.UploadFormName cfg) "");
         first [reflexivity | discriminate | assumption]).
Qed.

(** ** Namespaces that are not checked *)

Section Unchecked.

(** A double-dot after a component takes it away again. *)
Lemma Clean_dotdot base b f :
  base ≠ "" → component b = true →
  Filepath.Clean (base +:+ "/" +:+ b +:+ "/" +:+ ".." +:+ "/" +:+ f) =
  Filepath.Clean (base +:+ "/" +:+ f).
Proof.
  intros Hbase Hb.
  destruct base as [|c r]; [congruence|].
  rewrite !append_cons. unfold Filepath.Clean. rewrite <- !append_cons.
  replace (String c r +:+ "/" +:+ b +:+ "/" +:+ ".." +:+ "/" +:+ f)
    with (((String c r +:+ "/" +:+ b) +:+ "/" +:+ "..") +:+ "/" +:+ f)
    by now rewrite !append_assoc.
  rewrite !split_slash, !fold_left_app.
  rewrite (split_no_sep b) by (apply component_no_sep, Hb).
  change (Filepath.split "..") with [".."]. cbn [fold_left].
  rewrite (clean_step_component _ _ b) by exact Hb.
  assert (∀ out, Filepath.clean_step (Filepath.is_sep c) (b :: out) ".." = out) as Hpop.
  { intros out. unfold Filepath.clean_step. cbn [String.eqb Ascii.eqb].
    apply component_inv in Hb as (_ & _ & Hb3 & _).
    apply String.eqb_neq in Hb3. cbn. now rewrite Hb3. }
  rewrite Hpop. reflexivity.
Qed.

End Unchecked.

(** X19.  The namespace is not confined to the root of the store: [Path]
    with the namespace ".." names the file in the parent directory of the
    root, and [Upload], which does not check the namespace, stores the
    stream there. *)
Theorem Upload_namespace_not_confined
    (E : env) (cfg : Config.t) (base b : string) (rd : reader)
    (relFilename : string) (w : world) :
  Config.Path cfg = base +:+ "/" +:+ b →
  base ≠ "" → component b = true →
  let name := Filepath.Join [base; relFilename] in
  Path cfg ".." relFilename = name ∧
  (rd_err rd = None →
   fault E (CMkdirAll (Filepath.Dir name)) = None →
   fault E (CCreate name) = None →
   fault E (CCopy name (rd_data rd)) = None →
   fault E (CSync name) = None →
   ∃ w', Upload E cfg (Some rd) relFilename ".." w = (Val None, w') ∧
         files w' = <[name := rd_data rd]> (files w)).
Proof.
  intros Hroot Hbase Hb name.
  assert (Path cfg ".." relFilename = name) as Hpath.
  { unfold Path, name, Filepath.Join. rewrite Hroot.
    cbn [Filepath.drop_empty].
    assert (String.eqb (base +:+ "/" +:+ b) "" = false) as ->
      by (apply String.eqb_neq, append_slash_nonempty).
    apply String.eqb_neq in Hbase. rewrite Hbase.
    cbn [GoString.join]. rewrite !append_assoc.
    apply Clean_dotdot; [now apply String.eqb_neq | exact Hb]. }
  split; [exact Hpath|].
  intros Herr H1 H2 H3 H4.
  unfold Path in Hpath.
  destruct (Upload_run_ok E cfg rd relFilename ".." w Herr) as (w' & Hup & Hfs & _);
    rewrite ?Hpath; auto.
  exists w'. rewrite Hpath in Hfs. auto.
Qed.

Lemma Upload_namespace_not_confined_witness :
  let name := Filepath.Join ["/data"; "passwd"] in
  Path Run.cfg ".." "passwd" = name ∧
  (rd_err {| rd_data := "abc"; rd_err := None |} = None →
   fault (Run.env_with []) (CMkdirAll (Filepath.Dir name)) = None →
   fault (Run.env_with []) (CCreate name) = None →
   fault (Run.env_with []) (CCopy name "abc") = None →
   fault (Run.env_with []) (CSync name) = None →
   ∃ w', Upload (Run.env_with []) Run.cfg (Some {| rd_data := "abc"; rd_err := None |})
           "passwd" ".." Run.w0 = (Val None, w') ∧
         files w' = <[name := "abc"]> (files Run.w0)).
Proof.
  assert ("/data" ≠ "") as H1 by discriminate.
  exact (Upload_namespace_not_confined (Run.env_with []) Run.cfg "/data" "vfs"
           {| rd_data := "abc"; rd_err := None |} "passwd" Run.w0
           eq_refl H1 eq_refl).
Defined.

(** X20.  Only hash uploads check the namespace.  In a namespace that is
    neither empty nor configured, [uploadFile] refuses a hash upload with
    the status 400 and leaves the world as it was, but carries out a
    plain upload of the same PUT request: the body is stored under the
    namespace and the status is 200. *)
Theorem uploadFile_checks_namespace_of_hash_uploads_only
    (E : env) (cfg : Config.t) (r : http.Request) (ns vfsFilename : string) (w : world) :
  IsValidNamespace cfg ns = false →
  http.Method r = http.MethodPut →
  http.ContentLength r ≤ Config.MaxFileSize cfg →
  uploadFile E cfg r ns "" w =
    (Val (response http.StatusBadRequest ErrInvalidNamespace), w) ∧
  (vfsFilename ≠ "" →
   let name := Path cfg ns vfsFilename in
   rd_err (http.Body r) = None →
   fault E (CMkdirAll (Filepath.Dir name)) = None →
   fault E (CCreate name) = None →
   fault E (CCopy name (rd_data (http.Body r))) = None →
   fault E (CSync name) = None →
   ∃ resp w',
     uploadFile E cfg r ns vfsFilename w = (Val resp, w') ∧
     UploadResponse.Code resp = http.StatusOK ∧
     files w' = <[name := rd_data (http.Body r)]> (files w)).
Proof.
  intros Hns Hm Hlen.
  rewrite !(uploadFile_run E cfg _ _ _ _ _ _ _ (request_file_put cfg r Hm)).
  unfold uploadFile_store, mbind, M_bind, mret, M_ret.
  assert ((Config.MaxFileSize cfg <? http.ContentLength r) = false) as ->
    by (apply Z.ltb_ge; lia).
  split.
  - cbn [String.eqb negb]. unfold HashUpload. rewrite Hns. reflexivity.
  - intros Hname Herr H1 H2 H3 H4.
    apply String.eqb_neq in Hname. rewrite Hname. cbn [negb].
    destruct (Upload_run_ok E cfg (http.Body r) vfsFilename ns w Herr H1 H2 H3 H4)
      as (w' & Hup & Hfs & _).
    rewrite Hup. do 2 eexists. split; [reflexivity|]. split; [reflexivity | exact Hfs].
Qed.

Lemma uploadFile_checks_namespace_of_hash_uploads_only_witness :
  let E := Run.env_with [] in
  let r := Run.put "abc" 3 in
  uploadFile E Run.cfg r "bogus" "" Run.w0 =
    (Val (response http.StatusBadRequest ErrInvalidNamespace), Run.w0) ∧
  ("temp0123" ≠ "" →
   let name := Path Run.cfg "bogus" "temp0123" in
   rd_err (http.Body r) = None →
   fault E (CMkdirAll (Filepath.Dir name)) = None →
   fault E (CCreate name) = None →
   fault E (CCopy name (rd_data (http.Body r))) = None →
   fault E (CSync name) = None →
   ∃ resp w',
     uploadFile E Run.cfg r "bogus" "temp0123" Run.w0 = (Val resp, w') ∧
     UploadResponse.Code resp = http.StatusOK ∧
     files w' = <[name := rd_data (http.Body r)]> (files Run.w0)).
Proof.
  intros E r.
  assert (http.ContentLength r ≤ Config.MaxFileSize Run.cfg) as Hlen
    by (vm_compute; discriminate).
  exact (uploadFile_checks_namespace_of_hash_uploads_only E Run.cfg r "bogus" "temp0123"
           Run.w0 eq_refl eq_refl Hlen).
Defined.
